(** * Endpoint extraction: a shallow embedding of the analyzers

    This development embeds the endpoint-extraction core of the scanner
    (parsers/base.py, parsers/__init__.py, parsers/java.py,
    parsers/nodejs.py, parsers/python.py and models.py) and states the
    properties of its specification against it.

    Conventions.
    - Source buffers and Python [bytes] are Rocq strings (sequences of
      8-bit characters).  A Python [str] is kept as its UTF-8 encoding, so
      [bytes.decode] either drops the ill-formed bytes (error handler
      'ignore') or raises (strict).
    - tree-sitter is an external library.  Its parser and its query engine
      are parameters of the analyzers ([ts_parse], [ts_captures]); module
      [TS] gives a model of the engine on the query texts of the source, used
      to run the analyzers on concrete syntax trees.
    - The process-wide grammar cache [_LANGUAGE_CACHE] is threaded through
      every call as explicit state; Python exceptions are an error result.
    - The order in which Python lists the elements of a set is a parameter
      ([SetOrder]): it changes with the hash seed of the process, so two
      processes are two instances.
    - The depth of recursion the interpreter allows is a parameter
      ([Interpreter]). *)

From Stdlib Require Import String Ascii List Bool Arith Lia.
From stdpp Require Import base gmap strings list.
Import ListNotations.
Local Open Scope string_scope.
Local Open Scope list_scope.

(** ** Python string operations *)

Module PyStr.

(** The double quote character, as a one-character string. *)
Definition dquote : string := String (ascii_of_nat 34) EmptyString.

(** A line feed, and the byte of a given value. *)
Definition newline : string := String (ascii_of_nat 10) EmptyString.
Definition byte (n : nat) : string := String (ascii_of_nat n) EmptyString.

Definition eqb (a b : string) : bool := String.eqb a b.

(** [x in xs] for a list of strings. *)
Definition in_list (x : string) (xs : list string) : bool :=
  existsb (eqb x) xs.

(** [c in chars] for a character and the character set of [strip]. *)
Fixpoint mem_char (c : ascii) (chars : string) : bool :=
  match chars with
  | EmptyString => false
  | String d r => Ascii.eqb c d || mem_char c r
  end.

(** [s.lstrip(chars)] *)
Fixpoint lstrip (chars s : string) : string :=
  match s with
  | EmptyString => EmptyString
  | String c r => if mem_char c chars then lstrip chars r else s
  end.

(** [s.rstrip(chars)] *)
Fixpoint rstrip (chars s : string) : string :=
  match s with
  | EmptyString => EmptyString
  | String c r =>
      match rstrip chars r with
      | EmptyString => if mem_char c chars then EmptyString else String c EmptyString
      | r' => String c r'
      end
  end.

(** [s.strip(chars)] *)
Definition strip (chars s : string) : string := rstrip chars (lstrip chars s).

(** [s.startswith(p)] *)
Fixpoint startswith (p s : string) : bool :=
  match p, s with
  | EmptyString, _ => true
  | String a p', String b s' => Ascii.eqb a b && startswith p' s'
  | String _ _, EmptyString => false
  end.

(** [p in s] for strings: [p] occurs in [s] as a substring. *)
Fixpoint contains (p s : string) : bool :=
  startswith p s ||
  match s with
  | EmptyString => false
  | String _ r => contains p r
  end.

(** [s.replace(old, new)] for a non-empty [old]: occurrences are replaced
    from left to right and do not overlap.  [skip] counts the characters of
    a replaced occurrence that are still to be passed over. *)
Fixpoint replace_from (old new : string) (skip : nat) (s : string) : string :=
  match s with
  | EmptyString => EmptyString
  | String c r =>
      match skip with
      | S k => replace_from old new k r
      | O =>
          if startswith old s
          then new +:+ replace_from old new (String.length old - 1) r
          else String c (replace_from old new 0 r)
      end
  end.

Definition replace (old new s : string) : string := replace_from old new 0 s.

(** [s.split(sep)] for a single-character separator. *)
Fixpoint split (sep : ascii) (s : string) : list string :=
  match s with
  | EmptyString => [EmptyString]
  | String c r =>
      if Ascii.eqb c sep then EmptyString :: split sep r
      else match split sep r with
           | [] => [String c EmptyString]
           | w :: ws => String c w :: ws
           end
  end.

(** [s.upper()] and [s.lower()] on the ASCII letters.  A character outside
    ASCII is left as it is, where Python also maps the letters of other
    alphabets: the two functions stand for Python's on ASCII text only. *)
Definition upper_char (c : ascii) : ascii :=
  let n := nat_of_ascii c in
  if ((97 <=? n) && (n <=? 122))%nat then ascii_of_nat (n - 32) else c.

Definition lower_char (c : ascii) : ascii :=
  let n := nat_of_ascii c in
  if ((65 <=? n) && (n <=? 90))%nat then ascii_of_nat (n + 32) else c.

Fixpoint map_chars (f : ascii -> ascii) (s : string) : string :=
  match s with
  | EmptyString => EmptyString
  | String c r => String (f c) (map_chars f r)
  end.

Definition upper : string -> string := map_chars upper_char.
Definition lower : string -> string := map_chars lower_char.

(** [b[i:j]] on a byte string, for [0 <= i]. *)
Definition slice (i j : nat) (s : string) : string := substring i (j - i) s.

(** [str(n)] for a natural number. *)
Fixpoint digits (fuel n : nat) (acc : string) : string :=
  match fuel with
  | O => acc
  | S fuel' =>
      let acc' := String (ascii_of_nat (48 + n mod 10)) acc in
      if (n / 10 =? 0)%nat then acc' else digits fuel' (n / 10) acc'
  end.

Definition str_of_nat (n : nat) : string := digits (S n) n EmptyString.

(** *** UTF-8 *)

(** The length of the well-formed UTF-8 sequence at the head of [s], or 0
    when the first byte does not start one (Unicode table 3-7, which is what
    CPython's decoder accepts). *)
Definition in_range (lo hi : nat) (c : ascii) : bool :=
  let n := nat_of_ascii c in ((lo <=? n) && (n <=? hi))%nat.

Definition cont : ascii -> bool := in_range 128 191.

Definition utf8_len (s : string) : nat :=
  match s with
  | EmptyString => 0
  | String a r =>
      if in_range 0 127 a then 1
      else match r with
      | EmptyString => 0
      | String b r2 =>
          if in_range 194 223 a then (if cont b then 2 else 0)
          else match r2 with
          | EmptyString => 0
          | String c r3 =>
              if (in_range 224 224 a && in_range 160 191 b && cont c)
                 || (in_range 225 236 a && cont b && cont c)
                 || (in_range 237 237 a && in_range 128 159 b && cont c)
                 || (in_range 238 239 a && cont b && cont c)
              then 3
              else match r3 with
              | EmptyString => 0
              | String d _ =>
                  if ((in_range 240 240 a && in_range 144 191 b)
                      || (in_range 241 243 a && cont b)
                      || (in_range 244 244 a && in_range 128 143 b))
                     && cont c && cont d
                  then 4 else 0
              end
          end
      end
  end.

(** [b.decode('utf8', 'ignore')]: bytes that are not part of a well-formed
    sequence are dropped.  [keep] counts the remaining bytes of a sequence
    already recognised. *)
Fixpoint decode_ignore_from (keep : nat) (s : string) : string :=
  match s with
  | EmptyString => EmptyString
  | String c r =>
      match keep with
      | S k => String c (decode_ignore_from k r)
      | O =>
          match utf8_len s with
          | O => decode_ignore_from 0 r
          | S k => String c (decode_ignore_from k r)
          end
      end
  end.

Definition decode_ignore (s : string) : string := decode_ignore_from 0 s.

(** [b.decode("utf-8")]: [None] stands for UnicodeDecodeError. *)
Fixpoint decode_strict_from (keep : nat) (s : string) : bool :=
  match s with
  | EmptyString => true
  | String c r =>
      match keep with
      | S k => decode_strict_from k r
      | O =>
          match utf8_len s with
          | O => false
          | S k => decode_strict_from k r
          end
      end
  end.

Definition decode_strict (s : string) : option string :=
  if decode_strict_from 0 s then Some s else None.

(** [re.search] for a pattern that is an alternation of literal words. *)
Definition search_any (words : list string) (s : string) : bool :=
  existsb (fun w => contains w s) words.

End PyStr.

(** ** Syntax trees (tree-sitter's [Tree] and [Node]) *)

(** A syntax tree node: its kind ([Node.type]), the field name it has in its
    parent (empty when it has none), whether it is a named node, its byte
    span, the row of its start point and its children. *)
#[local] Unset Elimination Schemes.
Inductive Tree : Type :=
  Tr (kind field : string) (named : bool)
     (start_byte end_byte start_row : nat) (children : list Tree).
#[local] Set Elimination Schemes.

Definition t_kind (t : Tree) : string := let 'Tr k _ _ _ _ _ _ := t in k.
Definition t_field (t : Tree) : string := let 'Tr _ f _ _ _ _ _ := t in f.
Definition t_named (t : Tree) : bool := let 'Tr _ _ b _ _ _ _ := t in b.
Definition t_start (t : Tree) : nat := let 'Tr _ _ _ s _ _ _ := t in s.
Definition t_end (t : Tree) : nat := let 'Tr _ _ _ _ e _ _ := t in e.
Definition t_row (t : Tree) : nat := let 'Tr _ _ _ _ _ r _ := t in r.
Definition t_children (t : Tree) : list Tree := let 'Tr _ _ _ _ _ _ c := t in c.

(** A [Node] of the Python binding: a position in a tree.  It knows the
    subtree it stands for, its ancestors (nearest first), the child indices
    that lead to it from the root (nearest first; this is the node's
    identity, [Node.id]) and the buffer the tree was parsed from
    ([Node.text] is a slice of it). *)
Record Node : Type := mkNode {
  n_tree : Tree;
  n_up : list Tree;
  n_id : list nat;
  n_buffer : string
}.

Definition root_of (t : Tree) (buffer : string) : Node := mkNode t [] [] buffer.

(** [node.type], [node.start_byte], [node.end_byte], [node.start_point[0]],
    [node.is_named], [node.text] *)
Definition ntype (n : Node) : string := t_kind (n_tree n).
Definition start_byte (n : Node) : nat := t_start (n_tree n).
Definition end_byte (n : Node) : nat := t_end (n_tree n).
Definition start_row (n : Node) : nat := t_row (n_tree n).
Definition is_named (n : Node) : bool := t_named (n_tree n).
Definition node_text (n : Node) : string :=
  PyStr.slice (start_byte n) (end_byte n) (n_buffer n).

(** [node.children] *)
Definition children (n : Node) : list Node :=
  imap (fun i t => mkNode t (n_tree n :: n_up n) (i :: n_id n) (n_buffer n))
       (t_children (n_tree n)).

(** [node.parent] *)
Definition parent (n : Node) : option Node :=
  match n_up n, n_id n with
  | p :: up, _ :: id => Some (mkNode p up id (n_buffer n))
  | _, _ => None
  end.

(** [node.child_by_field_name(f)] *)
Definition child_by_field_name (f : string) (n : Node) : option Node :=
  find (fun c => PyStr.eqb (t_field (n_tree c)) f) (children n).

(** [next((c for c in node.children if c.type == k), None)] *)
Definition first_child_of_type (k : string) (n : Node) : option Node :=
  find (fun c => PyStr.eqb (ntype c) k) (children n).

(** The loop [while n and not stop(n): n = n.parent], from the node itself
    upwards. *)
Fixpoint walk_up_from (stop : Node -> bool) (t : Tree) (up : list Tree)
    (id : list nat) (buffer : string) : option Node :=
  let n := mkNode t up id buffer in
  if stop n then Some n
  else match up with
       | [] => None
       | p :: up' => walk_up_from stop p up' (tl id) buffer
       end.

Definition walk_up (stop : Node -> bool) (n : Node) : option Node :=
  walk_up_from stop (n_tree n) (n_up n) (n_id n) (n_buffer n).

(** The nodes of the subtree of [n] in document order, [n] first. *)
Fixpoint subtrees_from (t : Tree) (up : list Tree) (id : list nat)
    (buffer : string) {struct t} : list Node :=
  mkNode t up id buffer ::
  (let fix go (i : nat) (cs : list Tree) {struct cs} : list Node :=
     match cs with
     | [] => []
     | c :: cs' => subtrees_from c (t :: up) (i :: id) buffer ++ go (S i) cs'
     end
   in go 0 (t_children t)).

Definition descendants (n : Node) : list Node :=
  subtrees_from (n_tree n) (n_up n) (n_id n) (n_buffer n).

(** ** Python dictionaries

    A [dict] keeps its keys in insertion order, and the analyzers iterate
    over [values()] and [items()], so a dictionary is an association list
    with one entry per key. *)

Section Dict.
Context {K V : Type} `{EqDecision K}.

Definition dict : Type := list (K * V).

(** [d.get(k)] *)
Fixpoint dict_get (k : K) (d : dict) : option V :=
  match d with
  | [] => None
  | (k', v) :: r => if decide (k = k') then Some v else dict_get k r
  end.

(** [k in d] *)
Definition dict_mem (k : K) (d : dict) : bool :=
  match dict_get k d with Some _ => true | None => false end.

(** [d[k] = v] *)
Fixpoint dict_set (k : K) (v : V) (d : dict) : dict :=
  match d with
  | [] => [(k, v)]
  | (k', v') :: r =>
      if decide (k = k') then (k, v) :: r else (k', v') :: dict_set k v r
  end.

(** [d.values()] and [d.keys()] *)
Definition dict_values (d : dict) : list V := map snd d.
Definition dict_keys (d : dict) : list K := map fst d.
End Dict.

Arguments dict : clear implicits.

(** ** The domain model (models.py) *)

Inductive ParamType : Type := PATH | QUERY | BODY | HEADER | COOKIE.

Record APIParameter : Type := mkParam {
  name : string;
  param_type : ParamType;
  data_type : string;
  required : bool
}.

Record APIEndpoint : Type := mkEndpoint {
  file_path : string;
  handler_name : string;
  http_method : string;
  path : string;
  line_number : nat;
  snippet : string;
  parameters : list APIParameter;
  auth_mechanisms : list string
}.

#[global] Instance ParamType_eq_dec : EqDecision ParamType.
Proof. solve_decision. Defined.

#[global] Instance APIParameter_eq_dec : EqDecision APIParameter.
Proof. solve_decision. Defined.

(** [list(set(xs))]: the elements of [xs] without duplicates.  Python does
    not fix the order in which a set lists its elements (for strings it
    changes with the hash seed of the process), so the order is a parameter
    of the analyzers: any listing of the elements of [xs] without
    duplicates. *)
Class SetOrder : Type := {
  list_of_set : list string -> list string;
  list_of_set_NoDup : forall xs, NoDup (list_of_set xs);
  list_of_set_In : forall xs x, In x (list_of_set xs) <-> In x xs
}.

(** The interpreter raises RecursionError when calls nest deeper than its
    recursion limit.  [recursion_budget] is the number of nested calls the
    limit still allows at the places where the Java analyzer calls
    [_collect_string_literals] (the limit of the process less the depth of
    the stack there): the only recursive function of the code. *)
Class Interpreter : Type := {
  recursion_budget : nat
}.

(** ** Exceptions and the global state *)

Inductive exn : Type :=
  | AttributeError | KeyError | ValueError | UnicodeDecodeError
  | ValidationError | SyntaxError | RecursionError.

Inductive result (A : Type) : Type :=
  | Returns (a : A)
  | Raises (e : exn).
Arguments Returns {A} a.
Arguments Raises {A} e.

(** A computation reads and updates the global state, and returns or
    raises. *)
Definition M (S A : Type) : Type := S -> result A * S.

Definition ret {S A : Type} (a : A) : M S A := fun s => (Returns a, s).

Definition raise {S A : Type} (e : exn) : M S A := fun s => (Raises e, s).

Definition bind {S A B : Type} (m : M S A) (f : A -> M S B) : M S B :=
  fun s => match m s with
           | (Returns a, s') => f a s'
           | (Raises e, s') => (Raises e, s')
           end.

Definition lift {S A : Type} (r : result A) : M S A := fun s => (r, s).

Notation "'let!' x ':=' m 'in' k" := (bind m (fun x => k))
  (at level 10, x name, m at level 100, k at level 200, only parsing).
Notation "'let!' ' pat ':=' m 'in' k" :=
  (bind m (fun x => match x with pat => k end))
  (at level 10, pat pattern, m at level 100, k at level 200, only parsing).

(** A [for] loop whose body may raise: [b] is the state of the loop's
    variables. *)
Fixpoint foldM {S A B : Type} (body : B -> A -> M S B) (l : list A) (b : B)
    : M S B :=
  match l with
  | [] => ret b
  | a :: l' => let! b' := body b a in foldM body l' b'
  end.

(** The same for a pure computation that may raise. *)
Definition rbind {A B : Type} (r : result A) (f : A -> result B) : result B :=
  match r with
  | Returns a => f a
  | Raises e => Raises e
  end.

(** ** The query texts of the source

    Every query the analyzers run is a string constant of the source; the
    constructors below name them.
    - [java_class_query]: [(class_declaration) @class_node]
    - [java_base_path_query]: an [annotation] with [name: (identifier)
      @anno_name] and [arguments: (annotation_argument_list) @args], or a
      [marker_annotation] with [name: (identifier) @anno_name]; the whole
      match is [@annotation_node]
    - [java_method_query]: [(method_declaration) @method_node]
    - [java_annotation_query]: as the base path query, with the labels
      [@method_annotation] and (optional) [@annotation_args]
    - [java_param_query]: a [formal_parameter] with an optional annotation
      in its modifiers ([@param_annotation]), [type: (type_identifier)
      @param_type] and [name: (identifier) @param_name]
    - [java_swagger_query], [java_auth_query]: the name of an [annotation]
      or [marker_annotation], as [@anno_name] and [@auth_name]
    - [node_route_query]: a [call_expression] whose function is a member
      expression [@_obj.@method] and whose arguments are [@args], with
      [#match?] predicates on [@_obj] and [@method]; the whole match is
      [@endpoint_node]
    - [node_body_query]: a member expression [@req.@param_type] with [#eq?]
      predicates ("req", "body")
    - [python_decorator_query]: a [decorator] over a call [@app.@method]
      with a [(string) @path] argument; the whole match is [@decorator_node]
    - [python_param_query]: typed and default parameters, and every
      identifier as [@param_name]. *)
Inductive query : Type :=
  | java_class_query | java_base_path_query | java_method_query
  | java_annotation_query | java_param_query | java_swagger_query
  | java_auth_query
  | node_route_query | node_body_query
  | python_decorator_query | python_param_query.

(** The three analyzer classes and the attributes [BaseAnalyzer.__init__]
    sets on an instance. *)
Inductive AnalyzerClass : Type := PythonAnalyzer | JavaAnalyzer | NodeJSAnalyzer.

Record Analyzer : Type := mkAnalyzer {
  cls : AnalyzerClass;
  language_name : string;
  source_bytes : string;
  root_node : Node
}.

(** base.py, [get_node_text] *)
Definition get_node_text (node : Node) (source_bytes : string) : string :=
  PyStr.decode_ignore (PyStr.slice (start_byte node) (end_byte node) source_bytes).

(** [BaseAnalyzer._get_text] *)
Definition _get_text (self : Analyzer) (node : Node) : string :=
  get_node_text node (source_bytes self).

(** The capture correlation loop of the Java analyzer (written out three
    times in java.py):
    [for node, name in captures: b = boundary(node);
     if b: groups.setdefault(b.start_byte, {})[name] = node] *)
Definition group_captures (boundary : Node -> option Node)
    (captures : list (Node * string)) : dict nat (dict string Node) :=
  fold_left
    (fun groups '(node, name) =>
       match boundary node with
       | Some b =>
           let data := default [] (dict_get (start_byte b) groups) in
           dict_set (start_byte b) (dict_set name node data) groups
       | None => groups
       end)
    captures [].

Definition annotation_of : Node -> option Node :=
  walk_up (fun n => PyStr.in_list (ntype n) ["annotation"; "marker_annotation"]).

Definition formal_parameter_of : Node -> option Node :=
  walk_up (fun n => PyStr.eqb (ntype n) "formal_parameter").

(** java.py, [JavaAnalyzer._collect_string_literals] (a static method; the
    argument may be [None]).  [node.text.decode("utf-8")] is a strict
    decoding.  The function calls itself once per level of the tree; [depth]
    is the number of nested calls the interpreter still allows, and a call
    beyond it raises RecursionError. *)
Fixpoint collect_string_literals_tree (depth : nat) (buffer : string) (t : Tree)
    : result (list string) :=
  match depth with
  | O => Raises RecursionError
  | S depth' =>
      if PyStr.eqb (t_kind t) "string_literal" then
        match PyStr.decode_strict (PyStr.slice (t_start t) (t_end t) buffer) with
        | Some s => Returns [PyStr.strip PyStr.dquote s]
        | None => Raises UnicodeDecodeError
        end
      else
        (fix go (cs : list Tree) : result (list string) :=
           match cs with
           | [] => Returns []
           | c :: cs' =>
               rbind (collect_string_literals_tree depth' buffer c) (fun ls =>
               rbind (go cs') (fun ls' => Returns (ls ++ ls')))
           end) (t_children t)
  end.

Definition _collect_string_literals `{Interpreter} (node : option Node)
    : result (list string) :=
  match recursion_budget with
  | O => Raises RecursionError
  | S _ =>
      match node with
      | Some n => collect_string_literals_tree recursion_budget (n_buffer n) (n_tree n)
      | None => Returns []
      end
  end.

(** The tables of [_find_methods], [_parse_java_parameters] and
    [_find_auth_annotations]. *)
Definition method_mappings : dict string string :=
  [("GetMapping", "GET"); ("PostMapping", "POST"); ("PutMapping", "PUT");
   ("DeleteMapping", "DELETE"); ("PatchMapping", "PATCH");
   ("RequestMapping", "ANY");
   ("GET", "GET"); ("POST", "POST"); ("PUT", "PUT"); ("DELETE", "DELETE");
   ("PATCH", "PATCH")].

Definition path_annotations : list string :=
  ["RequestMapping"; "GetMapping"; "PostMapping"; "PutMapping";
   "DeleteMapping"; "PatchMapping"; "Path"].

Definition auth_names : list string :=
  ["PreAuthorize"; "RolesAllowed"; "Secured"; "PermitAll"; "DenyAll";
   "SecurityRequirement"; "SecurityRequirements"; "PermissionRequired"].

(** [f"{base_path}/{path}".replace("//", "/").rstrip('/')], and the
    [full_path or "/"] of the constructor call. *)
Definition full_path (base_path path : string) : string :=
  PyStr.rstrip "/" (PyStr.replace "//" "/" (base_path +:+ "/" +:+ path)).

Definition endpoint_path (base_path path : string) : string :=
  match full_path base_path path with
  | EmptyString => "/"
  | p => p
  end.

(** The first loop over [annot_nodes.values()] in [_find_methods]: the list
    of (annotation name, arguments node), the HTTP verb and whether an
    endpoint annotation was seen. *)
Definition scan_method_annotations (self : Analyzer)
    (datas : list (dict string Node))
    : list (string * option Node) * string * bool :=
  fold_left
    (fun '(annot_list, method_type, has_endpoint_annotation) data =>
       match dict_get "method_annotation" data with
       | Some an =>
           let annot_name := _get_text self an in
           let args_node := dict_get "annotation_args" data in
           let annot_list := annot_list ++ [(annot_name, args_node)] in
           let has_endpoint_annotation :=
             has_endpoint_annotation || PyStr.in_list annot_name path_annotations in
           match dict_get annot_name method_mappings with
           | Some new_method =>
               (annot_list,
                if negb (PyStr.eqb new_method "ANY") then new_method else method_type,
                true)
           | None => (annot_list, method_type, has_endpoint_annotation)
           end
       | None => (annot_list, method_type, has_endpoint_annotation)
       end)
    datas ([], "ANY", false).

(** The second loop of [_find_methods]: the path candidates, with its
    [break] after a [Path] annotation once a verb is known. *)
Fixpoint collect_paths `{Interpreter} (method_type : string)
    (annot_list : list (string * option Node)) : result (list string) :=
  match annot_list with
  | [] => Returns []
  | (annot_name, args_node) :: rest =>
      if PyStr.in_list annot_name path_annotations then
        rbind (_collect_string_literals args_node) (fun literals =>
          if PyStr.eqb annot_name "Path" && negb (PyStr.eqb method_type "ANY")
          then Returns literals
          else rbind (collect_paths method_type rest) (fun paths =>
                 Returns (literals ++ paths)))
      else collect_paths method_type rest
  end.

(** The parameter kind chosen by [_parse_java_parameters]. *)
Definition java_param_kind (annotation : string) : ParamType :=
  if PyStr.in_list annotation ["PathVariable"; "PathParam"] then PATH
  else if PyStr.in_list annotation ["RequestParam"; "QueryParam"] then QUERY
  else if PyStr.in_list annotation ["RequestHeader"; "HeaderParam"] then HEADER
  else if PyStr.in_list annotation ["CookieValue"; "CookieParam"] then COOKIE
  else BODY.

(** The loop over [param_nodes.values()] in [_parse_java_parameters]. *)
Definition java_formal_parameters (self : Analyzer)
    (datas : list (dict string Node)) : list APIParameter :=
  flat_map
    (fun data =>
       match dict_get "param_name" data, dict_get "param_type" data with
       | Some pn, Some pt =>
           let annotation :=
             match dict_get "param_annotation" data with
             | Some a => _get_text self a
             | None => ""
             end in
           [mkParam (_get_text self pn) (java_param_kind annotation)
                    (_get_text self pt) true]
       | _, _ => []
       end)
    datas.

Definition swagger_param : APIParameter := mkParam "swagger_param" QUERY "" false.

(** The last loop of [_parse_java_parameters]: one entry for every capture
    of an annotation name that reads "Parameter". *)
Definition swagger_entries (self : Analyzer) (captures : list (Node * string))
    : list APIParameter :=
  flat_map
    (fun '(node, name) =>
       if PyStr.eqb name "anno_name" && PyStr.eqb (_get_text self node) "Parameter"
       then [swagger_param] else [])
    captures.

(** The loop of [_find_auth_annotations]. *)
Definition auth_entries (self : Analyzer) (captures : list (Node * string))
    : list string :=
  flat_map
    (fun '(node, name) =>
       if PyStr.eqb name "auth_name" && PyStr.in_list (_get_text self node) auth_names
       then [_get_text self node] else [])
    captures.

(** The external library: the grammar of a language
    ([tree_sitter_languages.get_language]), the parser
    ([Parser.parse], which yields the root of the tree) and the query
    engine ([Language.query(text).captures(node)]).  [get_language] stands
    for the library on the names it has a grammar for (it raises on any
    other name); [get_analyzer] lets the four names of its table through
    and no other. *)
Class TreeSitter : Type := {
  Language : Type;
  get_language : string -> Language;
  ts_parse : Language -> string -> Tree;
  ts_captures : Language -> query -> Node -> list (Node * string)
}.

(** ** A model of the query engine

    What [Language.query(text).captures(node)] yields for the query texts
    of the source: the matches are searched in the subtree of [node] ([node]
    included) and the captures come in document order.  The predicate
    [#match?] is an unanchored regular expression search, [#eq?] compares
    the text of the node. *)

Module TS.

(** A child with the given field name and kind: [f: (k)]. *)
Definition field_child (f k : string) (n : Node) : option Node :=
  find (fun c => PyStr.eqb (t_field (n_tree c)) f && PyStr.eqb (ntype c) k)
       (children n).

Definition nodes_of_kind (k : string) (n : Node) : list Node :=
  List.filter (fun m => PyStr.eqb (ntype m) k) (descendants n).

(** The annotation patterns of java.py.  [whole] labels the annotation
    itself, [name_label] its name, [args_label] its argument list;
    [args_required] tells whether the pattern asks for an argument
    list. *)
Definition annotation_match (whole : option string) (name_label : string)
    (args_label : option string) (args_required : bool) (a : Node)
    : list (Node * string) :=
  let whole_capture := match whole with Some l => [(a, l)] | None => [] end in
  if PyStr.eqb (ntype a) "annotation" then
    match field_child "name" "identifier" a with
    | Some nm =>
        match field_child "arguments" "annotation_argument_list" a with
        | Some args =>
            whole_capture ++ [(nm, name_label)] ++
            match args_label with Some l => [(args, l)] | None => [] end
        | None =>
            if args_required then [] else whole_capture ++ [(nm, name_label)]
        end
    | None => []
    end
  else if PyStr.eqb (ntype a) "marker_annotation" then
    match field_child "name" "identifier" a with
    | Some nm => whole_capture ++ [(nm, name_label)]
    | None => []
    end
  else [].

(** The names of the annotations that are children of the modifiers of a
    formal parameter. *)
Definition parameter_annotations (p : Node) : list Node :=
  match first_child_of_type "modifiers" p with
  | Some m =>
      flat_map
        (fun a =>
           if PyStr.in_list (ntype a) ["annotation"; "marker_annotation"] then
             match field_child "name" "identifier" a with
             | Some an => [an]
             | None => []
             end
           else [])
        (children m)
  | None => []
  end.

Definition formal_parameter_match (p : Node) : list (Node * string) :=
  if PyStr.eqb (ntype p) "formal_parameter" then
    match field_child "type" "type_identifier" p, field_child "name" "identifier" p with
    | Some ty, Some nm =>
        match parameter_annotations p with
        | [] => [(ty, "param_type"); (nm, "param_name")]
        | annos =>
            flat_map
              (fun an => [(an, "param_annotation"); (ty, "param_type"); (nm, "param_name")])
              annos
        end
    | _, _ => []
    end
  else [].

Definition route_call_match (c : Node) : list (Node * string) :=
  if PyStr.eqb (ntype c) "call_expression" then
    match field_child "function" "member_expression" c,
          field_child "arguments" "arguments" c with
    | Some f, Some args =>
        match field_child "object" "identifier" f,
              field_child "property" "property_identifier" f with
        | Some obj, Some prop =>
            if PyStr.search_any ["app"; "router"] (node_text obj)
               && PyStr.search_any ["get"; "post"; "put"; "delete"; "patch"; "use"]
                                   (node_text prop)
            then [(c, "endpoint_node"); (obj, "_obj"); (prop, "method"); (args, "args")]
            else []
        | _, _ => []
        end
    | _, _ => []
    end
  else [].

Definition req_body_match (m : Node) : list (Node * string) :=
  if PyStr.eqb (ntype m) "member_expression" then
    match field_child "object" "identifier" m,
          field_child "property" "property_identifier" m with
    | Some obj, Some prop =>
        if PyStr.eqb (node_text obj) "req" && PyStr.eqb (node_text prop) "body"
        then [(obj, "req"); (prop, "param_type")] else []
    | _, _ => []
    end
  else [].

(** A decorator matches once for every string among the arguments of its
    call. *)
Definition decorator_match (d : Node) : list (Node * string) :=
  if PyStr.eqb (ntype d) "decorator" then
    flat_map
      (fun c =>
         if PyStr.eqb (ntype c) "call" then
           match field_child "function" "attribute" c,
                 field_child "arguments" "argument_list" c with
           | Some f, Some args =>
               match field_child "object" "identifier" f,
                     field_child "attribute" "identifier" f with
               | Some obj, Some attr =>
                   if PyStr.search_any
                        ["get"; "post"; "put"; "delete"; "patch"; "route"]
                        (node_text attr)
                   then
                     flat_map
                       (fun s =>
                          if PyStr.eqb (ntype s) "string"
                          then [(d, "decorator_node"); (obj, "app");
                                (attr, "method"); (s, "path")]
                          else [])
                       (children args)
                   else []
               | _, _ => []
               end
           | _, _ => []
           end
         else [])
      (children d)
  else [].

(** The engine.  The captures of the parameter query of python.py, whose
    four alternatives overlap, are left to a parameter; the analyzers never
    come to ask for them, since the text of that query is refused when it is
    compiled (see [compile_query]). *)
Definition captures (python_params : Node -> list (Node * string))
    (q : query) (n : Node) : list (Node * string) :=
  match q with
  | java_class_query =>
      map (fun c => (c, "class_node")) (nodes_of_kind "class_declaration" n)
  | java_method_query =>
      map (fun c => (c, "method_node")) (nodes_of_kind "method_declaration" n)
  | java_base_path_query =>
      flat_map (annotation_match (Some "annotation_node") "anno_name" (Some "args") true)
               (descendants n)
  | java_annotation_query =>
      flat_map (annotation_match (Some "annotation_node") "method_annotation"
                                 (Some "annotation_args") false)
               (descendants n)
  | java_swagger_query =>
      flat_map (annotation_match None "anno_name" None false) (descendants n)
  | java_auth_query =>
      flat_map (annotation_match None "auth_name" None false) (descendants n)
  | java_param_query => flat_map formal_parameter_match (descendants n)
  | node_route_query => flat_map route_call_match (descendants n)
  | node_body_query => flat_map req_body_match (descendants n)
  | python_decorator_query => flat_map decorator_match (descendants n)
  | python_param_query => python_params n
  end.

End TS.

(** ** The analyzers *)

Section Analyzers.
Context `{TreeSitter} `{SetOrder} `{Interpreter}.

(** [_LANGUAGE_CACHE : Dict[str, Language]] is the global state. *)
#[local] Abbreviation St := (M (gmap string Language)).

(** base.py, [get_ts_language] *)
Definition get_ts_language (lang : string) : St Language :=
  fun _LANGUAGE_CACHE =>
    match _LANGUAGE_CACHE !! lang with
    | Some language => (Returns language, _LANGUAGE_CACHE)
    | None =>
        let language := get_language lang in
        (Returns language, <[lang := language]> _LANGUAGE_CACHE)
    end.

(** [language.query(query_str)]: the library compiles the text of the query
    for the grammar and raises SyntaxError when the text does not fit the
    grammar.  The second alternative of the parameter query of python.py asks
    for a field [type] in a [default_parameter], which has the fields [name]
    and [value] only in the grammar of Python, so that text is refused; the
    other ten texts fit the grammar of their analyzer. *)
Definition compile_query (query_str : query) : result unit :=
  match query_str with
  | python_param_query => Raises SyntaxError
  | _ => Returns tt
  end.

(** base.py, [execute_query] *)
Definition execute_query (node : Node) (query_str : query) (lang : string)
    : St (list (Node * string)) :=
  let! language := get_ts_language lang in
  let! _ := lift (compile_query query_str) in
  ret (ts_captures language query_str node).

(** [BaseAnalyzer.__init__], run by the constructor of every analyzer
    class *)
Definition BaseAnalyzer_init (c : AnalyzerClass) (language_name source_bytes : string)
    : St Analyzer :=
  if PyStr.eqb language_name "" then raise ValueError
  else
    let! language := get_ts_language language_name in
    let tree := ts_parse language source_bytes in
    ret (mkAnalyzer c language_name source_bytes (root_of tree source_bytes)).

(** [BaseAnalyzer._query] *)
Definition _query (self : Analyzer) (query_str : query) : St (list (Node * string)) :=
  execute_query (root_node self) query_str (language_name self).

(** *** java.py *)

(** The loop over [annot_nodes.values()] in [_find_class_base_path], which
    returns at the first [RequestMapping] or [Path] annotation that has
    arguments. *)
Fixpoint base_path_of (self : Analyzer) (datas : list (dict string Node))
    : result string :=
  match datas with
  | [] => Returns ""
  | data :: rest =>
      match dict_get "anno_name" data with
      | Some an =>
          if PyStr.in_list (_get_text self an) ["RequestMapping"; "Path"] then
            match dict_get "args" data with
            | Some args =>
                rbind (_collect_string_literals (Some args)) (fun literals =>
                Returns (match literals with l :: _ => l | [] => "" end))
            | None => base_path_of self rest
            end
          else base_path_of self rest
      | None => base_path_of self rest
      end
  end.

(** [JavaAnalyzer._find_class_base_path] *)
Definition _find_class_base_path (self : Analyzer) (class_node : Node) : St string :=
  match first_child_of_type "modifiers" class_node with
  | None => ret ""
  | Some modifiers =>
      let! captures := execute_query modifiers java_base_path_query (language_name self) in
      let annot_nodes := group_captures annotation_of captures in
      lift (base_path_of self (dict_values annot_nodes))
  end.

(** [JavaAnalyzer._find_auth_annotations] *)
Definition _find_auth_annotations (self : Analyzer) (modifiers_node : option Node)
    : St (list string) :=
  match modifiers_node with
  | None => ret []
  | Some modifiers_node =>
      let! captures := execute_query modifiers_node java_auth_query (language_name self) in
      ret (list_of_set (auth_entries self captures))
  end.

(** [JavaAnalyzer._find_class_auth] *)
Definition _find_class_auth (self : Analyzer) (class_node : Node) : St (list string) :=
  _find_auth_annotations self (first_child_of_type "modifiers" class_node).

(** [JavaAnalyzer._parse_java_parameters] *)
Definition _parse_java_parameters (self : Analyzer) (params_node : option Node)
    (method_node : Node) : St (list APIParameter) :=
  match params_node with
  | None => ret []
  | Some params_node =>
      let! captures := execute_query params_node java_param_query (language_name self) in
      let param_nodes := group_captures formal_parameter_of captures in
      let parameters := java_formal_parameters self (dict_values param_nodes) in
      match first_child_of_type "modifiers" method_node with
      | Some method_modifiers =>
          let! captures :=
            execute_query method_modifiers java_swagger_query (language_name self) in
          ret (parameters ++ swagger_entries self captures)
      | None => ret parameters
      end
  end.

(** The last loop of [_find_methods]: one endpoint for every path. *)
Definition emit_endpoint (self : Analyzer) (base_path handler_name method_type : string)
    (all_auth : list string) (params_node : option Node) (method_node : Node)
    (endpoints : list APIEndpoint) (path : string) : St (list APIEndpoint) :=
  let! parameters := _parse_java_parameters self params_node method_node in
  ret (endpoints ++
       [mkEndpoint "" handler_name method_type (endpoint_path base_path path)
                   (start_row method_node + 1) (_get_text self method_node)
                   parameters all_auth]).

(** The body of the loop over [method_captures] in [_find_methods]. *)
Definition find_methods_body (self : Analyzer) (base_path : string)
    (class_auth : list string) (endpoints : list APIEndpoint)
    (method_node_tuple : Node * string) : St (list APIEndpoint) :=
  let method_node := fst method_node_tuple in
  let params_node := child_by_field_name "parameters" method_node in
  match first_child_of_type "modifiers" method_node,
        child_by_field_name "name" method_node with
  | Some modifiers_node, Some handler_name_node =>
      let handler_name := _get_text self handler_name_node in
      let! annot_captures :=
        execute_query modifiers_node java_annotation_query (language_name self) in
      let annot_nodes := group_captures annotation_of annot_captures in
      let '(annot_list, method_type, has_endpoint_annotation) :=
        scan_method_annotations self (dict_values annot_nodes) in
      if negb has_endpoint_annotation then ret endpoints
      else
        let! paths := lift (collect_paths method_type annot_list) in
        let paths := match paths with [] => [""] | _ => paths end in
        let! method_auth := _find_auth_annotations self (Some modifiers_node) in
        let all_auth := list_of_set (class_auth ++ method_auth) in
        foldM (emit_endpoint self base_path handler_name method_type all_auth
                             params_node method_node)
              paths endpoints
  | _, _ => ret endpoints
  end.

(** [JavaAnalyzer._find_methods] *)
Definition _find_methods (self : Analyzer) (class_body : Node) (base_path : string)
    (class_auth : list string) : St (list APIEndpoint) :=
  let! method_captures :=
    execute_query class_body java_method_query (language_name self) in
  foldM (find_methods_body self base_path class_auth) method_captures [].

(** The body of the loop of [JavaAnalyzer.analyze]; the loop variables are
    [endpoints] and [processed_class_nodes]. *)
Definition java_analyze_body (self : Analyzer)
    (st : list APIEndpoint * gset nat) (capture : Node * string)
    : St (list APIEndpoint * gset nat) :=
  let '(endpoints, processed_class_nodes) := st in
  let '(class_node, capture_name) := capture in
  if PyStr.eqb capture_name "class_node"
     && negb (bool_decide (start_byte class_node ∈ processed_class_nodes))
  then
    let processed_class_nodes := {[start_byte class_node]} ∪ processed_class_nodes in
    let! base_path := _find_class_base_path self class_node in
    let! class_auth := _find_class_auth self class_node in
    match first_child_of_type "class_body" class_node with
    | Some class_body =>
        let! found := _find_methods self class_body base_path class_auth in
        ret (endpoints ++ found, processed_class_nodes)
    | None => ret (endpoints, processed_class_nodes)
    end
  else ret st.

(** [JavaAnalyzer.analyze] *)
Definition java_analyze (self : Analyzer) : St (list APIEndpoint) :=
  let! class_captures := _query self java_class_query in
  let! st := foldM (java_analyze_body self) class_captures ([], ∅) in
  ret (fst st).

(** *** nodejs.py *)

Definition call_expression_of : Node -> option Node :=
  walk_up (fun n => PyStr.eqb (ntype n) "call_expression").

(** The first loop of [NodeJSAnalyzer.analyze]: captures are grouped by
    the start byte of the enclosing call expression, and the first capture
    of a label wins. *)
Definition node_group_captures (captures : list (Node * string))
    : dict nat (dict string Node) :=
  fold_left
    (fun node_captures '(node, capture_name) =>
       match call_expression_of node with
       | None => node_captures
       | Some endpoint_node =>
           let node_id := start_byte endpoint_node in
           let node_captures :=
             if dict_mem node_id node_captures then node_captures
             else dict_set node_id [("endpoint_node", endpoint_node)] node_captures in
           let data := default [] (dict_get node_id node_captures) in
           if dict_mem capture_name data then node_captures
           else dict_set node_id (dict_set capture_name node data) node_captures
       end)
    captures [].

Definition param_map : dict string ParamType :=
  [("query", QUERY); ("params", PATH); ("body", BODY)].

(** The characters of [strip] in [analyze]: the two quotes and the
    backquote. *)
Definition quote_chars : string := "'" +:+ PyStr.dquote +:+ "`".

(** The path parameters of [_parse_node_parameters]: the segments of the
    path that start with a colon. *)
Definition path_parameters (path : string) : list APIParameter :=
  flat_map
    (fun part =>
       if PyStr.startswith ":" part
       then [mkParam (PyStr.lstrip ":" part) PATH "Any" true] else [])
    (PyStr.split "/" path).

(** The body of the loop over the captures of the handler in
    [_parse_node_parameters]; the loop variables are [parameters],
    [found_params] (a set, kept as a list) and [current_type].  Building
    an [APIParameter] whose [param_type] is [None] does not validate. *)
Definition node_scan_body (self : Analyzer)
    (st : list APIParameter * list (string * option ParamType) * option ParamType)
    (capture : Node * string)
    : St (list APIParameter * list (string * option ParamType) * option ParamType) :=
  let '(parameters, found_params, current_type) := st in
  let '(node, name) := capture in
  let text := _get_text self node in
  if PyStr.eqb name "param_type" then
    ret (parameters, found_params, dict_get text param_map)
  else if PyStr.eqb name "param_name" then
    if bool_decide ((text, current_type) ∈ found_params) then ret st
    else
      match current_type with
      | Some t =>
          ret (parameters ++ [mkParam text t "Any" false],
               found_params ++ [(text, current_type)], current_type)
      | None => raise ValidationError
      end
  else ret st.

(** [NodeJSAnalyzer._parse_node_parameters] *)
Definition _parse_node_parameters (self : Analyzer) (handler_node : option Node)
    (path : string) : St (list APIParameter) :=
  match handler_node with
  | None => ret []
  | Some handler_node =>
      let parameters := path_parameters path in
      let! captures :=
        execute_query handler_node node_route_query (language_name self) in
      let found_params := map (fun p => (name p, Some (param_type p))) parameters in
      let! '(parameters, found_params, _) :=
        foldM (node_scan_body self) captures (parameters, found_params, None) in
      let! body_captures :=
        execute_query handler_node node_body_query (language_name self) in
      if negb (bool_decide (body_captures = []))
         && negb (bool_decide (("body", Some BODY) ∈ found_params))
      then ret (parameters ++ [mkParam "body" BODY "Object" false])
      else ret parameters
  end.

(** [arg_children]: the named children of the arguments node. *)
Definition arg_children (args_node : Node) : list Node :=
  List.filter is_named (children args_node).

(** [child.type in ["string_literal", "string"]] and
    [child.type in ["arrow_function", "function_expression", "identifier"]] *)
Definition is_string_kind (child : Node) : bool :=
  PyStr.in_list (ntype child) ["string_literal"; "string"].

Definition is_handler_kind (child : Node) : bool :=
  PyStr.in_list (ntype child) ["arrow_function"; "function_expression"; "identifier"].

(** The first loop over [arg_children] in [analyze]: the first string. *)
Definition first_string_argument (args_node : Node) : option Node :=
  find is_string_kind (arg_children args_node).

(** The second loop, over [reversed(arg_children)]: the last argument that
    can be a handler. *)
Definition last_handler_argument (args_node : Node) : option Node :=
  find is_handler_kind (rev (arg_children args_node)).

(** The body of the loop over [node_captures.items()] in
    [NodeJSAnalyzer.analyze]. *)
Definition node_analyze_body (self : Analyzer) (endpoints : list APIEndpoint)
    (item : nat * dict string Node) : St (list APIEndpoint) :=
  let data := snd item in
  match dict_get "endpoint_node" data with
  | None => raise KeyError
  | Some endpoint_node =>
      match dict_get "method" data, dict_get "args" data with
      | Some method_node, Some args_node =>
          let http_method := PyStr.upper (_get_text self method_node) in
          let path :=
            match first_string_argument args_node with
            | Some child => PyStr.strip quote_chars (_get_text self child)
            | None => ""
            end in
          let handler_node := last_handler_argument args_node in
          if PyStr.eqb path "" then ret endpoints
          else
            let handler_name :=
              match handler_node with
              | Some h =>
                  if PyStr.eqb (ntype h) "identifier" then _get_text self h
                  else "anonymous_handler_L" +:+ PyStr.str_of_nat (start_row h + 1)
              | None => "unknown_handler"
              end in
            let! parameters := _parse_node_parameters self handler_node path in
            ret (endpoints ++
                 [mkEndpoint "" handler_name http_method path
                             (start_row endpoint_node + 1)
                             (_get_text self endpoint_node) parameters []])
      | _, _ => ret endpoints
      end
  end.

(** [NodeJSAnalyzer.analyze] *)
Definition node_analyze (self : Analyzer) : St (list APIEndpoint) :=
  let! captures := _query self node_route_query in
  let node_captures := node_group_captures captures in
  foldM (node_analyze_body self) node_captures [].

(** *** python.py *)

(** The dictionary [current_param] of [_parse_python_parameters]: each key
    may be absent (the key "node" is never read). *)
Record PyParam : Type := mkPyParam {
  cp_required : option bool;
  cp_name : option string;
  cp_type : option string;
  cp_default : option string
}.

(** [PythonAnalyzer._create_python_parameter] *)
Definition _create_python_parameter (param_data : PyParam) : result APIParameter :=
  let data_type := default "Any" (cp_type param_data) in
  let default_val := default "" (cp_default param_data) in
  let sentinel (kind : ParamType) :=
    Returns (kind, Some (negb (PyStr.contains "..." default_val))) in
  rbind
    (if PyStr.startswith "Path(" default_val then sentinel PATH
     else if PyStr.startswith "Query(" default_val then sentinel QUERY
     else if PyStr.startswith "Body(" default_val then sentinel BODY
     else
       match cp_required param_data with
       | None => Raises KeyError
       | Some false => Returns (QUERY, Some false)
       | Some true =>
           if PyStr.in_list (PyStr.lower data_type) ["int"; "str"; "float"; "bool"; "any"]
           then Returns (QUERY, Some true) else Returns (BODY, Some true)
       end)
    (fun '(param_type, required) =>
       match cp_name param_data, required with
       | Some name, Some required => Returns (mkParam name param_type data_type required)
       | _, _ => Raises KeyError
       end).

(** [if "name" in current_param: parameters.append(...)] *)
Definition flush_param (current_param : PyParam) (parameters : list APIParameter)
    : result (list APIParameter) :=
  match cp_name current_param with
  | Some _ =>
      rbind (_create_python_parameter current_param) (fun p =>
      Returns (parameters ++ [p]))
  | None => Returns parameters
  end.

Definition python_parameter_of : Node -> option Node :=
  walk_up (fun n => PyStr.in_list (ntype n)
                      ["typed_parameter"; "default_parameter"; "identifier"]).

(** The body of the loop of [_parse_python_parameters]; the loop variables
    are [parameters], [current_param_node_id] and [current_param]. *)
Definition python_param_body (self : Analyzer)
    (st : list APIParameter * option nat * PyParam) (capture : Node * string)
    : result (list APIParameter * option nat * PyParam) :=
  let '(parameters, current_param_node_id, current_param) := st in
  let '(node, name) := capture in
  match python_parameter_of node with
  | None => Returns st
  | Some param_node =>
      if PyStr.eqb (ntype param_node) "identifier" && PyStr.eqb name "param_name" then
        if bool_decide (Some (start_byte param_node) = current_param_node_id)
        then Returns st
        else
          rbind (flush_param current_param parameters) (fun parameters =>
          Returns (parameters, Some (start_byte param_node),
                   mkPyParam (Some true) (Some (_get_text self node)) None None))
      else
        rbind
          (if bool_decide (current_param_node_id = Some (start_byte param_node))
           then Returns st
           else
             rbind (flush_param current_param parameters) (fun parameters =>
             Returns (parameters, Some (start_byte param_node),
                      mkPyParam
                        (Some (negb (PyStr.eqb (ntype param_node) "default_parameter")))
                        None None None)))
          (fun '(parameters, current_param_node_id, current_param) =>
             let text := _get_text self node in
             let current_param :=
               if PyStr.eqb name "param_name" then
                 mkPyParam (cp_required current_param) (Some text)
                           (cp_type current_param) (cp_default current_param)
               else if PyStr.eqb name "param_type" then
                 mkPyParam (cp_required current_param) (cp_name current_param)
                           (Some text) (cp_default current_param)
               else if PyStr.eqb name "default_value" then
                 mkPyParam (Some false) (cp_name current_param)
                           (cp_type current_param) (Some text)
               else current_param in
             Returns (parameters, current_param_node_id, current_param))
  end.

Fixpoint rfold {A B : Type} (body : B -> A -> result B) (l : list A) (b : B)
    : result B :=
  match l with
  | [] => Returns b
  | a :: l' => rbind (body b a) (rfold body l')
  end.

(** [PythonAnalyzer._parse_python_parameters] *)
Definition _parse_python_parameters (self : Analyzer) (params_node : option Node)
    : St (list APIParameter) :=
  match params_node with
  | None => ret []
  | Some params_node =>
      let! captures := execute_query params_node python_param_query (language_name self) in
      lift (rbind (rfold (python_param_body self) captures
                         ([], None, mkPyParam None None None None))
                  (fun '(parameters, _, current_param) =>
                     flush_param current_param parameters))
  end.

(** The inner loop of [PythonAnalyzer.analyze]: the captures that lie
    under the decorator at hand set the verb and the path of the
    endpoint. *)
Definition apply_decorator_captures (self : Analyzer) (decorator_node : Node)
    (local_captures : list (Node * string)) (endpoint : APIEndpoint) : APIEndpoint :=
  fold_left
    (fun endpoint '(n, name) =>
       match walk_up (fun m => bool_decide (n_id m = n_id decorator_node)) n with
       | Some _ =>
           let text := _get_text self n in
           if PyStr.eqb name "method" then
             mkEndpoint (file_path endpoint) (handler_name endpoint) (PyStr.upper text)
                        (path endpoint) (line_number endpoint) (snippet endpoint)
                        (parameters endpoint) (auth_mechanisms endpoint)
           else if PyStr.eqb name "path" then
             mkEndpoint (file_path endpoint) (handler_name endpoint)
                        (http_method endpoint)
                        (PyStr.strip ("'" +:+ PyStr.dquote) text)
                        (line_number endpoint) (snippet endpoint)
                        (parameters endpoint) (auth_mechanisms endpoint)
           else endpoint
       | None => endpoint
       end)
    local_captures endpoint.

(** The function a decorator belongs to: its parent, or the parent of its
    parent, when that is a [function_definition]. *)
Definition decorated_function (endpoint_node : Node) : option Node :=
  if PyStr.eqb (ntype endpoint_node) "function_definition" then Some endpoint_node
  else
    match parent endpoint_node with
    | Some p => if PyStr.eqb (ntype p) "function_definition" then Some p else None
    | None => None
    end.

(** The body of the loop of [PythonAnalyzer.analyze]; the loop variables
    are [endpoints_map] (keyed by handler name) and [processed_nodes]. *)
Definition python_analyze_body (self : Analyzer)
    (st : dict string APIEndpoint * gset (list nat)) (capture : Node * string)
    : St (dict string APIEndpoint * gset (list nat)) :=
  let '(endpoints_map, processed_nodes) := st in
  let node := fst capture in
  match walk_up (fun n => PyStr.eqb (ntype n) "decorator") node with
  | None => ret st
  | Some decorator_node =>
      if bool_decide (n_id decorator_node ∈ processed_nodes) then ret st
      else
        match parent decorator_node with
        | None => raise AttributeError
        | Some endpoint_node =>
            match decorated_function endpoint_node with
            | None => ret st
            | Some endpoint_node =>
                let processed_nodes := {[n_id decorator_node]} ∪ processed_nodes in
                match child_by_field_name "name" endpoint_node with
                | None => ret (endpoints_map, processed_nodes)
                | Some handler_name_node =>
                    let handler_name := _get_text self handler_name_node in
                    let! endpoints_map :=
                      if dict_mem handler_name endpoints_map then ret endpoints_map
                      else
                        let params_node := child_by_field_name "parameters" endpoint_node in
                        let! parameters := _parse_python_parameters self params_node in
                        ret (dict_set handler_name
                               (mkEndpoint "" handler_name "" ""
                                           (start_row endpoint_node + 1)
                                           (_get_text self endpoint_node) parameters [])
                               endpoints_map) in
                    match dict_get handler_name endpoints_map with
                    | None => raise KeyError
                    | Some endpoint =>
                        let! local_captures := _query self python_decorator_query in
                        let endpoint :=
                          apply_decorator_captures self decorator_node local_captures endpoint in
                        ret (dict_set handler_name endpoint endpoints_map, processed_nodes)
                    end
                end
            end
        end
  end.

(** [PythonAnalyzer.analyze] *)
Definition python_analyze (self : Analyzer) : St (list APIEndpoint) :=
  let! captures := _query self python_decorator_query in
  let! st := foldM (python_analyze_body self) captures ([], ∅) in
  ret (dict_values (fst st)).

(** *** parsers/__init__.py and the caller *)

(** [analyzer.analyze()], dispatched on the class of the instance. *)
Definition analyze (self : Analyzer) : St (list APIEndpoint) :=
  match cls self with
  | PythonAnalyzer => python_analyze self
  | JavaAnalyzer => java_analyze self
  | NodeJSAnalyzer => node_analyze self
  end.

(** [get_analyzer]: [None] when no analyzer is registered for the
    language. *)
Definition get_analyzer (language source_bytes : string) : St (option Analyzer) :=
  if PyStr.eqb language "python" then
    let! a := BaseAnalyzer_init PythonAnalyzer "python" source_bytes in ret (Some a)
  else if PyStr.eqb language "java" then
    let! a := BaseAnalyzer_init JavaAnalyzer "java" source_bytes in ret (Some a)
  else if PyStr.eqb language "javascript" then
    let! a := BaseAnalyzer_init NodeJSAnalyzer "javascript" source_bytes in ret (Some a)
  else if PyStr.eqb language "typescript" then
    let! a := BaseAnalyzer_init NodeJSAnalyzer "typescript" source_bytes in ret (Some a)
  else ret None.

(** The core as its caller uses it (main.py, [scan]):
    [analyzer = get_analyzer(lang, source_bytes);
     if analyzer: endpoints = analyzer.analyze()].
    [None] is the outcome for a language without analyzer. *)
Definition analyze_source (lang source_bytes : string)
    : St (option (list APIEndpoint)) :=
  let! analyzer := get_analyzer lang source_bytes in
  match analyzer with
  | Some analyzer => let! endpoints := analyze analyzer in ret (Some endpoints)
  | None => ret None
  end.

End Analyzers.

(** ** Reasoning about the analyzers *)

Section Logic.
Context `{TreeSitter} `{SetOrder} `{Interpreter}.

(** The invariant of [_LANGUAGE_CACHE]: an entry holds the grammar of its
    key.  It holds of the empty cache and [get_ts_language], the only
    function that writes to the cache, keeps it. *)
Definition cache_ok (c : gmap string Language) : Prop :=
  forall lang g, c !! lang = Some g -> g = get_language lang.

(** [wp m Q]: run from a cache that satisfies the invariant, [m] ends with
    an outcome that satisfies [Q] and leaves the invariant in place. *)
Definition wp {A : Type} (m : M (gmap string Language) A) (Q : result A -> Prop)
    : Prop :=
  forall c, cache_ok c -> Q (fst (m c)) /\ cache_ok (snd (m c)).

(** [stable m]: the outcome of [m] is the same from every cache that
    satisfies the invariant. *)
Definition stable {A : Type} (m : M (gmap string Language) A) : Prop :=
  forall c, cache_ok c -> fst (m c) = fst (m ∅) /\ cache_ok (snd (m c)).

(** What a query yields on a node for the grammar of an analyzer. *)
Definition captures_of (self : Analyzer) (q : query) (node : Node)
    : list (Node * string) :=
  ts_captures (get_language (language_name self)) q node.

(** The authorization annotation names found on a class or a method: those
    that [_find_auth_annotations] reads off its modifiers. *)
Definition auth_names_on (self : Analyzer) (node : Node) : list string :=
  match first_child_of_type "modifiers" node with
  | Some modifiers => auth_entries self (captures_of self java_auth_query modifiers)
  | None => []
  end.

(** The formal parameters [_parse_java_parameters] reads off a parameter
    list, and the number of annotation names that read "Parameter" in the
    modifiers of a method. *)
Definition formal_parameters_of (self : Analyzer) (params_node : Node)
    : list APIParameter :=
  java_formal_parameters self
    (dict_values (group_captures formal_parameter_of
                    (captures_of self java_param_query params_node))).

(** The parameter list [_parse_java_parameters] builds for a method. *)
Definition java_parameters_of (self : Analyzer) (params_node : option Node)
    (method_node : Node) : list APIParameter :=
  match params_node with
  | None => []
  | Some params_node =>
      formal_parameters_of self params_node ++
      match first_child_of_type "modifiers" method_node with
      | Some modifiers =>
          swagger_entries self (captures_of self java_swagger_query modifiers)
      | None => []
      end
  end.

Definition parameter_occurrences (self : Analyzer) (modifiers_node : Node) : nat :=
  length
    (List.filter
       (fun '(node, label) =>
          PyStr.eqb label "anno_name" && PyStr.eqb (_get_text self node) "Parameter")
       (captures_of self java_swagger_query modifiers_node)).

(** The labels of the route query of nodejs.py: an engine yields no capture
    under another label. *)
Definition route_labels : list string := ["endpoint_node"; "_obj"; "method"; "args"].

Definition route_labels_ok (self : Analyzer) : Prop :=
  forall node capture,
    In capture (captures_of self node_route_query node) ->
    In (snd capture) route_labels.

(** The parameter list [_parse_node_parameters] builds for a handler when
    the scan of its body adds nothing: the path parameters, and "body" when
    the handler reads [req.body]. *)
Definition node_parameters_of (self : Analyzer) (handler_node : Node) (path : string)
    : list APIParameter :=
  let parameters := path_parameters path in
  if negb (bool_decide (captures_of self node_body_query handler_node = []))
     && negb (bool_decide
                (("body", Some BODY)
                 ∈ map (fun p => (name p, Some (param_type p))) parameters))
  then parameters ++ [mkParam "body" BODY "Object" false]
  else parameters.

(** What the endpoints emitted for one method have in common. *)
Definition emitted_for (self : Analyzer) (handler_name' method_type : string)
    (all_auth : list string) (params_node : option Node) (method_node : Node)
    (e : APIEndpoint) : Prop :=
  file_path e = "" /\ handler_name e = handler_name'
  /\ http_method e = method_type
  /\ line_number e = start_row method_node + 1
  /\ snippet e = _get_text self method_node
  /\ parameters e = java_parameters_of self params_node method_node
  /\ auth_mechanisms e = all_auth.

(** The invariant of [endpoints_map]: one entry per handler name, and the
    entry of a name is an endpoint of that name. *)
Definition keyed_by_handler (d : dict string APIEndpoint) : Prop :=
  NoDup (dict_keys d)
  /\ Forall (fun kv => handler_name (snd kv) = fst kv /\ file_path (snd kv) = "") d.

End Logic.

(** ** The model of the library used to run the analyzers *)

(** A parser known on finitely many buffers; it yields an error node
    elsewhere. *)
Definition parse_known (known : dict string Tree) (source : string) : Tree :=
  default (Tr "ERROR" "" true 0 0 0 []) (dict_get source known).

(** ** Concrete sources and their syntax trees

    Each tree is the parse of the source above it, with the byte offsets
    and rows of its nodes. *)

(** A controller whose method carries two path literals. *)
Definition java_ab_src : string :=
  "@RequestMapping(" +:+ PyStr.dquote +:+ "/api" +:+ PyStr.dquote +:+ ")"
  +:+ PyStr.newline +:+ "class C {" +:+ PyStr.newline
  +:+ "    @GetMapping({" +:+ PyStr.dquote +:+ "/a" +:+ PyStr.dquote
  +:+ "," +:+ PyStr.dquote +:+ "/b" +:+ PyStr.dquote +:+ "})"
  +:+ PyStr.newline +:+ "    void f() {}" +:+ PyStr.newline +:+ "}"
  +:+ PyStr.newline.

(** The syntax tree of [java_ab_src] (tree-sitter-java). *)
Definition java_ab_tree : Tree :=
  Tr "program" "" true 0 80 0 [
    Tr "class_declaration" "" true 0 80 0 [
      Tr "modifiers" "" true 0 23 0 [
        Tr "annotation" "" true 0 23 0 [
          Tr "@" "" false 0 1 0 [];
          Tr "identifier" "name" true 1 15 0 [];
          Tr "annotation_argument_list" "arguments" true 15 23 0 [
            Tr "(" "" false 15 16 0 [];
            Tr "string_literal" "" true 16 22 0 [];
            Tr ")" "" false 22 23 0 []]]];
      Tr "class" "" false 24 29 1 [];
      Tr "identifier" "name" true 30 31 1 [];
      Tr "class_body" "body" true 32 80 1 [
        Tr "{" "" false 32 33 1 [];
        Tr "method_declaration" "" true 38 78 2 [
          Tr "modifiers" "" true 38 62 2 [
            Tr "annotation" "" true 38 62 2 [
              Tr "@" "" false 38 39 2 [];
              Tr "identifier" "name" true 39 49 2 [];
              Tr "annotation_argument_list" "arguments" true 49 62 2 [
                Tr "(" "" false 49 50 2 [];
                Tr "element_value_array_initializer" "" true 50 61 2 [
                  Tr "{" "" false 50 51 2 [];
                  Tr "string_literal" "" true 51 55 2 [];
                  Tr "," "" false 55 56 2 [];
                  Tr "string_literal" "" true 56 60 2 [];
                  Tr "}" "" false 60 61 2 []];
                Tr ")" "" false 61 62 2 []]]];
          Tr "void_type" "type" true 67 71 3 [];
          Tr "identifier" "name" true 72 73 3 [];
          Tr "formal_parameters" "parameters" true 73 75 3 [
            Tr "(" "" false 73 74 3 [];
            Tr ")" "" false 74 75 3 []];
          Tr "block" "body" true 76 78 3 [
            Tr "{" "" false 76 77 3 [];
            Tr "}" "" false 77 78 3 []]];
        Tr "}" "" false 79 80 4 []]]].

(** A base path that ends with a slash and a method path that starts and ends with one. *)
Definition java_slashes_src : string :=
  "@RequestMapping(" +:+ PyStr.dquote +:+ "/api/" +:+ PyStr.dquote +:+ ")"
  +:+ PyStr.newline +:+ "class C {" +:+ PyStr.newline
  +:+ "    @GetMapping(" +:+ PyStr.dquote +:+ "/users/" +:+ PyStr.dquote
  +:+ ")" +:+ PyStr.newline +:+ "    void f() {}" +:+ PyStr.newline
  +:+ "}" +:+ PyStr.newline.

(** The syntax tree of [java_slashes_src]. *)
Definition java_slashes_tree : Tree :=
  Tr "program" "" true 0 79 0 [
    Tr "class_declaration" "" true 0 79 0 [
      Tr "modifiers" "" true 0 24 0 [
        Tr "annotation" "" true 0 24 0 [
          Tr "@" "" false 0 1 0 [];
          Tr "identifier" "name" true 1 15 0 [];
          Tr "annotation_argument_list" "arguments" true 15 24 0 [
            Tr "(" "" false 15 16 0 [];
            Tr "string_literal" "" true 16 23 0 [];
            Tr ")" "" false 23 24 0 []]]];
      Tr "class" "" false 25 30 1 [];
      Tr "identifier" "name" true 31 32 1 [];
      Tr "class_body" "body" true 33 79 1 [
        Tr "{" "" false 33 34 1 [];
        Tr "method_declaration" "" true 39 77 2 [
          Tr "modifiers" "" true 39 61 2 [
            Tr "annotation" "" true 39 61 2 [
              Tr "@" "" false 39 40 2 [];
              Tr "identifier" "name" true 40 50 2 [];
              Tr "annotation_argument_list" "arguments" true 50 61 2 [
                Tr "(" "" false 50 51 2 [];
                Tr "string_literal" "" true 51 60 2 [];
                Tr ")" "" false 60 61 2 []]]];
          Tr "void_type" "type" true 66 70 3 [];
          Tr "identifier" "name" true 71 72 3 [];
          Tr "formal_parameters" "parameters" true 72 74 3 [
            Tr "(" "" false 72 73 3 [];
            Tr ")" "" false 73 74 3 []];
          Tr "block" "body" true 75 77 3 [
            Tr "{" "" false 75 76 3 [];
            Tr "}" "" false 76 77 3 []]];
        Tr "}" "" false 78 79 4 []]]].

(** A method whose endpoint annotation carries no path literal. *)
Definition java_bare_src : string :=
  "class C {" +:+ PyStr.newline +:+ "    @GetMapping" +:+ PyStr.newline
  +:+ "    void f() {}" +:+ PyStr.newline +:+ "}" +:+ PyStr.newline.

(** The syntax tree of [java_bare_src]. *)
Definition java_bare_tree : Tree :=
  Tr "program" "" true 0 43 0 [
    Tr "class_declaration" "" true 0 43 0 [
      Tr "class" "" false 0 5 0 [];
      Tr "identifier" "name" true 6 7 0 [];
      Tr "class_body" "body" true 8 43 0 [
        Tr "{" "" false 8 9 0 [];
        Tr "method_declaration" "" true 14 41 1 [
          Tr "modifiers" "" true 14 25 1 [
            Tr "marker_annotation" "" true 14 25 1 [
              Tr "@" "" false 14 15 1 [];
              Tr "identifier" "name" true 15 25 1 []]];
          Tr "void_type" "type" true 30 34 2 [];
          Tr "identifier" "name" true 35 36 2 [];
          Tr "formal_parameters" "parameters" true 36 38 2 [
            Tr "(" "" false 36 37 2 [];
            Tr ")" "" false 37 38 2 []];
          Tr "block" "body" true 39 41 2 [
            Tr "{" "" false 39 40 2 [];
            Tr "}" "" false 40 41 2 []]];
        Tr "}" "" false 42 43 3 []]]].

(** Authorization annotations on the class and on the method. *)
Definition java_auth_src : string :=
  "@PreAuthorize(" +:+ PyStr.dquote +:+ "isAuthenticated()" +:+ PyStr.dquote
  +:+ ")" +:+ PyStr.newline +:+ "@RequestMapping(" +:+ PyStr.dquote
  +:+ "/api" +:+ PyStr.dquote +:+ ")" +:+ PyStr.newline +:+ "class C {"
  +:+ PyStr.newline +:+ "    @RolesAllowed(" +:+ PyStr.dquote +:+ "admin"
  +:+ PyStr.dquote +:+ ")" +:+ PyStr.newline +:+ "    @GetMapping("
  +:+ PyStr.dquote +:+ "/a" +:+ PyStr.dquote +:+ ")" +:+ PyStr.newline
  +:+ "    void f() {}" +:+ PyStr.newline +:+ "}" +:+ PyStr.newline.

(** The syntax tree of [java_auth_src]. *)
Definition java_auth_tree : Tree :=
  Tr "program" "" true 0 135 0 [
    Tr "class_declaration" "" true 0 135 0 [
      Tr "modifiers" "" true 0 58 0 [
        Tr "annotation" "" true 0 34 0 [
          Tr "@" "" false 0 1 0 [];
          Tr "identifier" "name" true 1 13 0 [];
          Tr "annotation_argument_list" "arguments" true 13 34 0 [
            Tr "(" "" false 13 14 0 [];
            Tr "string_literal" "" true 14 33 0 [];
            Tr ")" "" false 33 34 0 []]];
        Tr "annotation" "" true 35 58 1 [
          Tr "@" "" false 35 36 1 [];
          Tr "identifier" "name" true 36 50 1 [];
          Tr "annotation_argument_list" "arguments" true 50 58 1 [
            Tr "(" "" false 50 51 1 [];
            Tr "string_literal" "" true 51 57 1 [];
            Tr ")" "" false 57 58 1 []]]];
      Tr "class" "" false 59 64 2 [];
      Tr "identifier" "name" true 65 66 2 [];
      Tr "class_body" "body" true 67 135 2 [
        Tr "{" "" false 67 68 2 [];
        Tr "method_declaration" "" true 73 133 3 [
          Tr "modifiers" "" true 73 117 3 [
            Tr "annotation" "" true 73 95 3 [
              Tr "@" "" false 73 74 3 [];
              Tr "identifier" "name" true 74 86 3 [];
              Tr "annotation_argument_list" "arguments" true 86 95 3 [
                Tr "(" "" false 86 87 3 [];
                Tr "string_literal" "" true 87 94 3 [];
                Tr ")" "" false 94 95 3 []]];
            Tr "annotation" "" true 100 117 4 [
              Tr "@" "" false 100 101 4 [];
              Tr "identifier" "name" true 101 111 4 [];
              Tr "annotation_argument_list" "arguments" true 111 117 4 [
                Tr "(" "" false 111 112 4 [];
                Tr "string_literal" "" true 112 116 4 [];
                Tr ")" "" false 116 117 4 []]]];
          Tr "void_type" "type" true 122 126 5 [];
          Tr "identifier" "name" true 127 128 5 [];
          Tr "formal_parameters" "parameters" true 128 130 5 [
            Tr "(" "" false 128 129 5 [];
            Tr ")" "" false 129 130 5 []];
          Tr "block" "body" true 131 133 5 [
            Tr "{" "" false 131 132 5 [];
            Tr "}" "" false 132 133 5 []]];
        Tr "}" "" false 134 135 6 []]]].

(** A method with two bare Parameter markers. *)
Definition java_swagger_src : string :=
  "class C {" +:+ PyStr.newline +:+ "    @Parameter" +:+ PyStr.newline
  +:+ "    @Parameter" +:+ PyStr.newline +:+ "    @GetMapping("
  +:+ PyStr.dquote +:+ "/a" +:+ PyStr.dquote +:+ ")" +:+ PyStr.newline
  +:+ "    void f(String q) {}" +:+ PyStr.newline +:+ "}"
  +:+ PyStr.newline.

(** The syntax tree of [java_swagger_src]. *)
Definition java_swagger_tree : Tree :=
  Tr "program" "" true 0 87 0 [
    Tr "class_declaration" "" true 0 87 0 [
      Tr "class" "" false 0 5 0 [];
      Tr "identifier" "name" true 6 7 0 [];
      Tr "class_body" "body" true 8 87 0 [
        Tr "{" "" false 8 9 0 [];
        Tr "method_declaration" "" true 14 85 1 [
          Tr "modifiers" "" true 14 61 1 [
            Tr "marker_annotation" "" true 14 24 1 [
              Tr "@" "" false 14 15 1 [];
              Tr "identifier" "name" true 15 24 1 []];
            Tr "marker_annotation" "" true 29 39 2 [
              Tr "@" "" false 29 30 2 [];
              Tr "identifier" "name" true 30 39 2 []];
            Tr "annotation" "" true 44 61 3 [
              Tr "@" "" false 44 45 3 [];
              Tr "identifier" "name" true 45 55 3 [];
              Tr "annotation_argument_list" "arguments" true 55 61 3 [
                Tr "(" "" false 55 56 3 [];
                Tr "string_literal" "" true 56 60 3 [];
                Tr ")" "" false 60 61 3 []]]];
          Tr "void_type" "type" true 66 70 4 [];
          Tr "identifier" "name" true 71 72 4 [];
          Tr "formal_parameters" "parameters" true 72 82 4 [
            Tr "(" "" false 72 73 4 [];
            Tr "formal_parameter" "" true 73 81 4 [
              Tr "type_identifier" "type" true 73 79 4 [];
              Tr "identifier" "name" true 80 81 4 []];
            Tr ")" "" false 81 82 4 []];
          Tr "block" "body" true 83 85 4 [
            Tr "{" "" false 83 84 4 [];
            Tr "}" "" false 84 85 4 []]];
        Tr "}" "" false 86 87 5 []]]].

(** A method with one bare Parameter marker. *)
Definition java_swagger1_src : string :=
  "class C {" +:+ PyStr.newline +:+ "    @Parameter" +:+ PyStr.newline
  +:+ "    @GetMapping(" +:+ PyStr.dquote +:+ "/a" +:+ PyStr.dquote
  +:+ ")" +:+ PyStr.newline +:+ "    void f(@RequestParam String q) {}"
  +:+ PyStr.newline +:+ "}" +:+ PyStr.newline.

(** The syntax tree of [java_swagger1_src]. *)
Definition java_swagger1_tree : Tree :=
  Tr "program" "" true 0 86 0 [
    Tr "class_declaration" "" true 0 86 0 [
      Tr "class" "" false 0 5 0 [];
      Tr "identifier" "name" true 6 7 0 [];
      Tr "class_body" "body" true 8 86 0 [
        Tr "{" "" false 8 9 0 [];
        Tr "method_declaration" "" true 14 84 1 [
          Tr "modifiers" "" true 14 46 1 [
            Tr "marker_annotation" "" true 14 24 1 [
              Tr "@" "" false 14 15 1 [];
              Tr "identifier" "name" true 15 24 1 []];
            Tr "annotation" "" true 29 46 2 [
              Tr "@" "" false 29 30 2 [];
              Tr "identifier" "name" true 30 40 2 [];
              Tr "annotation_argument_list" "arguments" true 40 46 2 [
                Tr "(" "" false 40 41 2 [];
                Tr "string_literal" "" true 41 45 2 [];
                Tr ")" "" false 45 46 2 []]]];
          Tr "void_type" "type" true 51 55 3 [];
          Tr "identifier" "name" true 56 57 3 [];
          Tr "formal_parameters" "parameters" true 57 81 3 [
            Tr "(" "" false 57 58 3 [];
            Tr "formal_parameter" "" true 58 80 3 [
              Tr "modifiers" "" true 58 71 3 [
                Tr "marker_annotation" "" true 58 71 3 [
                  Tr "@" "" false 58 59 3 [];
                  Tr "identifier" "name" true 59 71 3 []]];
              Tr "type_identifier" "type" true 72 78 3 [];
              Tr "identifier" "name" true 79 80 3 []];
            Tr ")" "" false 80 81 3 []];
          Tr "block" "body" true 82 84 3 [
            Tr "{" "" false 82 83 3 [];
            Tr "}" "" false 83 84 3 []]];
        Tr "}" "" false 85 86 4 []]]].

(** A source in Latin-1: the byte 233 in the path literal is not UTF-8. *)
Definition java_latin1_src : string :=
  "class C {" +:+ PyStr.newline +:+ "    @GetMapping(" +:+ PyStr.dquote
  +:+ "/caf" +:+ PyStr.byte 233 +:+ PyStr.dquote +:+ ")" +:+ PyStr.newline
  +:+ "    void f() {}" +:+ PyStr.newline +:+ "}" +:+ PyStr.newline.

(** The syntax tree of [java_latin1_src]. *)
Definition java_latin1_tree : Tree :=
  Tr "program" "" true 0 52 0 [
    Tr "class_declaration" "" true 0 52 0 [
      Tr "class" "" false 0 5 0 [];
      Tr "identifier" "name" true 6 7 0 [];
      Tr "class_body" "body" true 8 52 0 [
        Tr "{" "" false 8 9 0 [];
        Tr "method_declaration" "" true 14 50 1 [
          Tr "modifiers" "" true 14 34 1 [
            Tr "annotation" "" true 14 34 1 [
              Tr "@" "" false 14 15 1 [];
              Tr "identifier" "name" true 15 25 1 [];
              Tr "annotation_argument_list" "arguments" true 25 34 1 [
                Tr "(" "" false 25 26 1 [];
                Tr "string_literal" "" true 26 33 1 [];
                Tr ")" "" false 33 34 1 []]]];
          Tr "void_type" "type" true 39 43 2 [];
          Tr "identifier" "name" true 44 45 2 [];
          Tr "formal_parameters" "parameters" true 45 47 2 [
            Tr "(" "" false 45 46 2 [];
            Tr ")" "" false 46 47 2 []];
          Tr "block" "body" true 48 50 2 [
            Tr "{" "" false 48 49 2 [];
            Tr "}" "" false 49 50 2 []]];
        Tr "}" "" false 51 52 3 []]]].

(** A route with an inline handler. *)
Definition js_users_src : string :=
  "router.get('/users/:id', (req,res)=>{ req.query.sort; req.body; })".

(** The syntax tree of [js_users_src] (tree-sitter-javascript). *)
Definition js_users_tree : Tree :=
  Tr "program" "" true 0 66 0 [
    Tr "expression_statement" "" true 0 66 0 [
      Tr "call_expression" "" true 0 66 0 [
        Tr "member_expression" "function" true 0 10 0 [
          Tr "identifier" "object" true 0 6 0 [];
          Tr "." "" false 6 7 0 [];
          Tr "property_identifier" "property" true 7 10 0 []];
        Tr "arguments" "arguments" true 10 66 0 [
          Tr "(" "" false 10 11 0 [];
          Tr "string" "" true 11 23 0 [
            Tr "'" "" false 11 12 0 [];
            Tr "string_fragment" "" true 12 22 0 [];
            Tr "'" "" false 22 23 0 []];
          Tr "," "" false 23 24 0 [];
          Tr "arrow_function" "" true 25 65 0 [
            Tr "formal_parameters" "parameters" true 25 34 0 [
              Tr "(" "" false 25 26 0 [];
              Tr "identifier" "" true 26 29 0 [];
              Tr "," "" false 29 30 0 [];
              Tr "identifier" "" true 30 33 0 [];
              Tr ")" "" false 33 34 0 []];
            Tr "=>" "" false 34 36 0 [];
            Tr "statement_block" "body" true 36 65 0 [
              Tr "{" "" false 36 37 0 [];
              Tr "expression_statement" "" true 38 53 0 [
                Tr "member_expression" "" true 38 52 0 [
                  Tr "member_expression" "object" true 38 47 0 [
                    Tr "identifier" "object" true 38 41 0 [];
                    Tr "." "" false 41 42 0 [];
                    Tr "property_identifier" "property" true 42 47 0 []];
                  Tr "." "" false 47 48 0 [];
                  Tr "property_identifier" "property" true 48 52 0 []];
                Tr ";" "" false 52 53 0 []];
              Tr "expression_statement" "" true 54 63 0 [
                Tr "member_expression" "" true 54 62 0 [
                  Tr "identifier" "object" true 54 57 0 [];
                  Tr "." "" false 57 58 0 [];
                  Tr "property_identifier" "property" true 58 62 0 []];
                Tr ";" "" false 62 63 0 []];
              Tr "}" "" false 64 65 0 []]];
          Tr ")" "" false 65 66 0 []]]]].

(** A route call whose path literal is the empty string. *)
Definition js_empty_src : string :=
  "app.get('', handler)".

(** The syntax tree of [js_empty_src]. *)
Definition js_empty_tree : Tree :=
  Tr "program" "" true 0 20 0 [
    Tr "expression_statement" "" true 0 20 0 [
      Tr "call_expression" "" true 0 20 0 [
        Tr "member_expression" "function" true 0 7 0 [
          Tr "identifier" "object" true 0 3 0 [];
          Tr "." "" false 3 4 0 [];
          Tr "property_identifier" "property" true 4 7 0 []];
        Tr "arguments" "arguments" true 7 20 0 [
          Tr "(" "" false 7 8 0 [];
          Tr "string" "" true 8 10 0 [
            Tr "'" "" false 8 9 0 [];
            Tr "'" "" false 9 10 0 []];
          Tr "," "" false 10 11 0 [];
          Tr "identifier" "" true 12 19 0 [];
          Tr ")" "" false 19 20 0 []]]]].

(** A route call with a path and a named handler. *)
Definition js_named_src : string :=
  "app.get('/users', handler)".

(** The syntax tree of [js_named_src]. *)
Definition js_named_tree : Tree :=
  Tr "program" "" true 0 26 0 [
    Tr "expression_statement" "" true 0 26 0 [
      Tr "call_expression" "" true 0 26 0 [
        Tr "member_expression" "function" true 0 7 0 [
          Tr "identifier" "object" true 0 3 0 [];
          Tr "." "" false 3 4 0 [];
          Tr "property_identifier" "property" true 4 7 0 []];
        Tr "arguments" "arguments" true 7 26 0 [
          Tr "(" "" false 7 8 0 [];
          Tr "string" "" true 8 16 0 [
            Tr "'" "" false 8 9 0 [];
            Tr "string_fragment" "" true 9 15 0 [];
            Tr "'" "" false 15 16 0 []];
          Tr "," "" false 16 17 0 [];
          Tr "identifier" "" true 18 25 0 [];
          Tr ")" "" false 25 26 0 []]]]].

(** A route call without a string literal. *)
Definition js_nopath_src : string :=
  "app.use(handler)".

(** The syntax tree of [js_nopath_src]. *)
Definition js_nopath_tree : Tree :=
  Tr "program" "" true 0 16 0 [
    Tr "expression_statement" "" true 0 16 0 [
      Tr "call_expression" "" true 0 16 0 [
        Tr "member_expression" "function" true 0 7 0 [
          Tr "identifier" "object" true 0 3 0 [];
          Tr "." "" false 3 4 0 [];
          Tr "property_identifier" "property" true 4 7 0 []];
        Tr "arguments" "arguments" true 7 16 0 [
          Tr "(" "" false 7 8 0 [];
          Tr "identifier" "" true 8 15 0 [];
          Tr ")" "" false 15 16 0 []]]]].

(** A route call whose only argument is the empty string. *)
Definition js_empty_only_src : string :=
  "app.get('')".

(** The syntax tree of [js_empty_only_src]. *)
Definition js_empty_only_tree : Tree :=
  Tr "program" "" true 0 11 0 [
    Tr "expression_statement" "" true 0 11 0 [
      Tr "call_expression" "" true 0 11 0 [
        Tr "member_expression" "function" true 0 7 0 [
          Tr "identifier" "object" true 0 3 0 [];
          Tr "." "" false 3 4 0 [];
          Tr "property_identifier" "property" true 4 7 0 []];
        Tr "arguments" "arguments" true 7 11 0 [
          Tr "(" "" false 7 8 0 [];
          Tr "string" "" true 8 10 0 [
            Tr "'" "" false 8 9 0 [];
            Tr "'" "" false 9 10 0 []];
          Tr ")" "" false 10 11 0 []]]]].

(** A route call whose only argument is a path. *)
Definition js_path_only_src : string :=
  "app.get('/users/:id')".

(** The syntax tree of [js_path_only_src]. *)
Definition js_path_only_tree : Tree :=
  Tr "program" "" true 0 21 0 [
    Tr "expression_statement" "" true 0 21 0 [
      Tr "call_expression" "" true 0 21 0 [
        Tr "member_expression" "function" true 0 7 0 [
          Tr "identifier" "object" true 0 3 0 [];
          Tr "." "" false 3 4 0 [];
          Tr "property_identifier" "property" true 4 7 0 []];
        Tr "arguments" "arguments" true 7 21 0 [
          Tr "(" "" false 7 8 0 [];
          Tr "string" "" true 8 20 0 [
            Tr "'" "" false 8 9 0 [];
            Tr "string_fragment" "" true 9 19 0 [];
            Tr "'" "" false 19 20 0 []];
          Tr ")" "" false 20 21 0 []]]]].

(** A function with two route decorators. *)
Definition py_items_src : string :=
  "@app.get(" +:+ PyStr.dquote +:+ "/items/{id}" +:+ PyStr.dquote +:+ ")"
  +:+ PyStr.newline +:+ "@app.post(" +:+ PyStr.dquote +:+ "/items/{id}"
  +:+ PyStr.dquote +:+ ")" +:+ PyStr.newline +:+ "def item(id: int):"
  +:+ PyStr.newline +:+ "    pass" +:+ PyStr.newline.

(** The syntax tree of [py_items_src] (tree-sitter-python): the decorators are children of a [decorated_definition], which is a child of the module. *)
Definition py_items_tree : Tree :=
  Tr "module" "" true 0 76 0 [
    Tr "decorated_definition" "" true 0 76 0 [
      Tr "decorator" "" true 0 23 0 [
        Tr "@" "" false 0 1 0 [];
        Tr "call" "" true 1 23 0 [
          Tr "attribute" "function" true 1 8 0 [
            Tr "identifier" "object" true 1 4 0 [];
            Tr "." "" false 4 5 0 [];
            Tr "identifier" "attribute" true 5 8 0 []];
          Tr "argument_list" "arguments" true 8 23 0 [
            Tr "(" "" false 8 9 0 [];
            Tr "string" "" true 9 22 0 [
              Tr PyStr.dquote "" false 9 10 0 [];
              Tr "string_content" "" true 10 21 0 [];
              Tr PyStr.dquote "" false 21 22 0 []];
            Tr ")" "" false 22 23 0 []]]];
      Tr "decorator" "" true 24 48 1 [
        Tr "@" "" false 24 25 1 [];
        Tr "call" "" true 25 48 1 [
          Tr "attribute" "function" true 25 33 1 [
            Tr "identifier" "object" true 25 28 1 [];
            Tr "." "" false 28 29 1 [];
            Tr "identifier" "attribute" true 29 33 1 []];
          Tr "argument_list" "arguments" true 33 48 1 [
            Tr "(" "" false 33 34 1 [];
            Tr "string" "" true 34 47 1 [
              Tr PyStr.dquote "" false 34 35 1 [];
              Tr "string_content" "" true 35 46 1 [];
              Tr PyStr.dquote "" false 46 47 1 []];
            Tr ")" "" false 47 48 1 []]]];
      Tr "function_definition" "definition" true 49 76 2 [
        Tr "def" "" false 49 52 2 [];
        Tr "identifier" "name" true 53 57 2 [];
        Tr "parameters" "parameters" true 57 66 2 [
          Tr "(" "" false 57 58 2 [];
          Tr "typed_parameter" "" true 58 65 2 [
            Tr "identifier" "" true 58 60 2 [];
            Tr ":" "" false 60 61 2 [];
            Tr "type" "type" true 62 65 2 [
              Tr "identifier" "" true 62 65 2 []]];
          Tr ")" "" false 65 66 2 []];
        Tr ":" "" false 66 67 2 [];
        Tr "block" "body" true 72 76 3 [
          Tr "pass_statement" "" true 72 76 3 [
            Tr "pass" "" false 72 76 3 []]]]]].

(** The sources above with their trees. *)
Definition known_sources : dict string Tree :=
  [(java_ab_src, java_ab_tree); (java_slashes_src, java_slashes_tree);
   (java_bare_src, java_bare_tree); (java_auth_src, java_auth_tree);
   (java_swagger_src, java_swagger_tree);
   (java_swagger1_src, java_swagger1_tree);
   (java_latin1_src, java_latin1_tree);
   (js_users_src, js_users_tree); (js_empty_src, js_empty_tree);
   (js_named_src, js_named_tree); (js_nopath_src, js_nopath_tree);
   (js_empty_only_src, js_empty_only_tree);
   (js_path_only_src, js_path_only_tree);
   (py_items_src, py_items_tree)].

(** The library as the examples use it: a grammar is named by its language,
    the parser knows the sources above and the engine is [TS.captures]. *)
Definition ts_model (python_params : Node -> list (Node * string)) : TreeSitter :=
  {| Language := string;
     get_language := fun lang => lang;
     ts_parse := fun _ source => parse_known known_sources source;
     ts_captures := fun _ q node => TS.captures python_params q node |}.

Definition no_captures : Node -> list (Node * string) := fun _ => [].

(** A listing order for sets, used to run the examples: the order of
    stdpp's [elements]. *)
Lemma elements_NoDup (xs : list string) :
  NoDup (elements (list_to_set xs : gset string)).
Proof. apply NoDup_elements. Qed.

Lemma elements_In (xs : list string) (x : string) :
  In x (elements (list_to_set xs : gset string)) <-> In x xs.
Proof.
  rewrite <- !list_elem_of_In.
  rewrite elem_of_elements, elem_of_list_to_set. reflexivity.
Qed.

Definition elements_order : SetOrder :=
  {| list_of_set := fun xs => elements (list_to_set xs : gset string);
     list_of_set_NoDup := elements_NoDup;
     list_of_set_In := elements_In |}.

(** The interpreter of the examples: the default recursion limit of 1000,
    with a stack of depth 100 where the literals are collected. *)
Definition example_interpreter : Interpreter := {| recursion_budget := 900 |}.

(** The outcome of the core on a language identifier and a source, in a
    fresh process (empty cache). *)
Definition run (python_params : Node -> list (Node * string))
    (lang source : string) : result (option (list APIEndpoint)) :=
  fst (@analyze_source (ts_model python_params) elements_order example_interpreter
                       lang source ∅).

(** The analyzer instance for a source of [known_sources]. *)
Definition analyzer_on (c : AnalyzerClass) (lang source : string) : Analyzer :=
  mkAnalyzer c lang source (root_of (parse_known known_sources source) source).

(** Nodes of the examples: the first node of a kind under a node, the first
    child of a kind and the child in a field. *)
Definition the_node (kind : string) (n : Node) : Node :=
  hd n (TS.nodes_of_kind kind n).

Definition the_child (kind : string) (n : Node) : Node :=
  default n (first_child_of_type kind n).

Definition the_field (f : string) (n : Node) : Node :=
  default n (child_by_field_name f n).


(** The endpoints of the examples. *)
Definition endpoints_of (lang source : string) : list APIEndpoint :=
  match run no_captures lang source with
  | Returns (Some endpoints) => endpoints
  | _ => []
  end.

(** ** The caller (main.py) *)

(** [Exception] handling: [try: m except Exception: h]. *)
Definition catch {S A : Type} (m : M S A) (h : exn -> M S A) : M S A :=
  fun s => match m s with
           | (Returns a, s') => (Returns a, s')
           | (Raises e, s') => h e s'
           end.

(** main.py, [LanguageOption] and the [value] of its members *)
Module LanguageOption.

Inductive t : Type := auto | java | python | nodejs.

Definition value (o : t) : string :=
  match o with
  | auto => "auto"
  | java => "java"
  | python => "python"
  | nodejs => "nodejs"
  end.

End LanguageOption.

Definition ext_map : dict string string :=
  [(".py", "python"); (".java", "java"); (".js", "javascript");
   (".ts", "typescript")].

(** main.py, [get_language_from_extension]; the argument [suffix] stands
    for [file_path.suffix]. *)
Definition get_language_from_extension (suffix : string)
    (force_language : LanguageOption.t) : option string :=
  match force_language with
  | LanguageOption.auto => dict_get (PyStr.lower suffix) ext_map
  | LanguageOption.nodejs =>
      if PyStr.in_list suffix [".js"; ".ts"] then
        Some (if PyStr.eqb suffix ".ts" then "typescript" else "javascript")
      else None
  | _ => Some (LanguageOption.value force_language)
  end.

(** [endpoint.file_path = relative_file_path] *)
Definition with_file_path (relative_file_path : string) (e : APIEndpoint)
    : APIEndpoint :=
  mkEndpoint relative_file_path (handler_name e) (http_method e) (path e)
             (line_number e) (snippet e) (parameters e) (auth_mechanisms e).

(** The test of the filtering loop of [scan]: [include_set] and
    [exclude_set] hold upper-case verbs, [auth] and [no_auth] are the two
    flags. *)
Definition keep_endpoint (include_set exclude_set : list string)
    (auth no_auth : bool) (endpoint : APIEndpoint) : bool :=
  let verb := PyStr.upper (http_method endpoint) in
  if negb (bool_decide (include_set = [])) && negb (PyStr.in_list verb include_set)
  then false
  else if negb (bool_decide (exclude_set = [])) && PyStr.in_list verb exclude_set
  then false
  else
    let is_authenticated := negb (bool_decide (auth_mechanisms endpoint = [])) in
    if auth && negb is_authenticated then false
    else if no_auth && is_authenticated then false
    else true.

(** The filtering loop of [scan]. *)
Definition filter_endpoints (include_set exclude_set : list string)
    (auth no_auth : bool) (all_endpoints : list APIEndpoint) : list APIEndpoint :=
  List.filter (keep_endpoint include_set exclude_set auth no_auth) all_endpoints.

Section Caller.
Context `{TreeSitter} `{SetOrder} `{Interpreter}.

(** What [scan] does with one file that has passed the path and extension
    filters (the rest of the body of its loops over the files, from the call
    of [get_language_from_extension] on); [source_bytes] is what the file
    holds.  The variables are [all_endpoints] and [files_analyzed_count]; an
    exception of the analyzer is caught and reported as a warning. *)
Definition scan_file (suffix : string) (language : LanguageOption.t)
    (relative_file_path source_bytes : string)
    (st : list APIEndpoint * nat) : M (gmap string Language) (list APIEndpoint * nat) :=
  let '(all_endpoints, files_analyzed_count) := st in
  match get_language_from_extension suffix language with
  | Some lang =>
      if PyStr.eqb lang "" then ret st
      else
        catch
          (let! analyzer := get_analyzer lang source_bytes in
           match analyzer with
           | Some analyzer =>
               let files_analyzed_count := files_analyzed_count + 1 in
               catch
                 (let! endpoints := analyze analyzer in
                  ret (all_endpoints ++ map (with_file_path relative_file_path) endpoints,
                       files_analyzed_count))
                 (fun _ => ret (all_endpoints, files_analyzed_count))
           | None => ret st
           end)
          (fun _ => ret st)
  | None => ret st
  end.

End Caller.

(** ** The formatting helpers (formatters.py) *)

(** [sep.join(parts)] *)
Fixpoint join (sep : string) (parts : list string) : string :=
  match parts with
  | [] => ""
  | [p] => p
  | p :: rest => p +:+ sep +:+ join sep rest
  end.

(** The members of [ParamType] in the order of the class, and their
    values. *)
Definition ParamType_members : list ParamType := [PATH; QUERY; BODY; HEADER; COOKIE].

Definition ParamType_value (k : ParamType) : string :=
  match k with
  | PATH => "path"
  | QUERY => "query"
  | BODY => "body"
  | HEADER => "header"
  | COOKIE => "cookie"
  end.

(** [s.capitalize()] *)
Definition capitalize (s : string) : string :=
  match s with
  | EmptyString => EmptyString
  | String c r => String (PyStr.upper_char c) (PyStr.lower r)
  end.

(** The loop over [ParamType] of the three parameter formatters: one part
    for every kind that some parameter has. *)
Definition parameter_parts (part : ParamType -> string -> string)
    (params : list APIParameter) : list string :=
  flat_map
    (fun k =>
       match List.filter (fun p => bool_decide (param_type p = k)) params with
       | [] => []
       | typed_params => [part k (join ", " (map name typed_params))]
       end)
    ParamType_members.

(** [_format_parameters_md] *)
Definition _format_parameters_md (params : list APIParameter) : string :=
  match params with
  | [] => "None"
  | _ =>
      join "<br>"
        (parameter_parts
           (fun k names => "<b>" +:+ capitalize (ParamType_value k) +:+ ":</b> " +:+ names)
           params)
  end.

(** [_format_parameters_csv] *)
Definition _format_parameters_csv (params : list APIParameter) : string :=
  match params with
  | [] => "None"
  | _ =>
      join " "
        (parameter_parts
           (fun k names => capitalize (ParamType_value k) +:+ ": " +:+ names)
           params)
  end.

(** [_format_parameters_json]: the dictionary has the five kinds as keys;
    a value is [None] or the names of the parameters of the kind. *)
Definition _format_parameters_json (params : list APIParameter)
    : dict string (option string) :=
  let param_obj :=
    [("path", None); ("query", None); ("body", None); ("header", None);
     ("cookie", None)] in
  match params with
  | [] => param_obj
  | _ =>
      fold_left
        (fun param_obj k =>
           match map name (List.filter (fun p => bool_decide (param_type p = k)) params) with
           | [] => param_obj
           | typed_params =>
               dict_set (ParamType_value k) (Some (join ", " typed_params)) param_obj
           end)
        ParamType_members param_obj
  end.

(** [_format_auth] *)
Definition _format_auth (auth_mechanisms : list string) : string :=
  match auth_mechanisms with
  | [] => "Unknown"
  | _ => "Yes"
  end.

(** [_format_location] *)
Definition _format_location (endpoint : APIEndpoint) : string :=
  file_path endpoint +:+ ":" +:+ PyStr.str_of_nat (line_number endpoint).

(** [_clean_for_csv] *)
Definition _clean_for_csv (text : string) : string :=
  PyStr.replace (PyStr.byte 13) " "
    (PyStr.replace PyStr.newline " " (PyStr.replace "|" "" text)).

(** ** Notions used to state the properties *)

(** The entry of a label in the group of a key: [groups[key][label]], when
    both exist. *)
Definition group_lookup (key : nat) (label : string)
    (groups : dict nat (dict string Node)) : option Node :=
  match dict_get key groups with
  | Some data => dict_get label data
  | None => None
  end.

(** A capture of a label whose boundary node starts at a byte, and the last
    such capture of a list. *)
Definition capture_at (boundary : Node -> option Node) (key : nat) (label : string)
    (capture : Node * string) : bool :=
  PyStr.eqb (snd capture) label
  && match boundary (fst capture) with
     | Some b => (start_byte b =? key)%nat
     | None => false
     end.

Definition last_capture (boundary : Node -> option Node) (key : nat) (label : string)
    (captures : list (Node * string)) : option (Node * string) :=
  find (capture_at boundary key label) (rev captures).

(** The outcome of a computation: what it returns satisfies [I], what it
    raises satisfies [E]. *)
Definition outcome {A : Type} (I : A -> Prop) (E : exn -> Prop) (r : result A) : Prop :=
  match r with
  | Returns a => I a
  | Raises e => E e
  end.

(** The string literals [_collect_string_literals] reaches from a node, in
    document order: it does not look inside a string literal. *)
Fixpoint string_literals (t : Tree) : list Tree :=
  if PyStr.eqb (t_kind t) "string_literal" then [t]
  else
    (fix go (cs : list Tree) : list Tree :=
       match cs with
       | [] => []
       | c :: cs' => string_literals c ++ go cs'
       end) (t_children t).

(** The bytes of a node of the tree, and whether they are well-formed
    UTF-8. *)
Definition tree_text (buffer : string) (t : Tree) : string :=
  PyStr.slice (t_start t) (t_end t) buffer.

Definition well_formed (s : string) : bool := PyStr.decode_strict_from 0 s.

(** The annotation names that make a method an endpoint for
    [_find_methods]: the path annotations and the keys of
    [method_mappings]. *)
Definition is_endpoint_annotation (annot_name : string) : bool :=
  PyStr.in_list annot_name path_annotations || dict_mem annot_name method_mappings.

(** The verbs of the endpoints of the Java analyzer. *)
Definition java_verbs : list string := ["GET"; "POST"; "PUT"; "DELETE"; "PATCH"; "ANY"].

(** A path that is not empty and does not end with a slash. *)
Definition no_trailing_slash (p : string) : Prop :=
  p <> "" /\ forall q, p <> q +:+ "/".

(** What every endpoint of the Java analyzer satisfies. *)
Definition java_endpoint_ok (e : APIEndpoint) : Prop :=
  In (http_method e) java_verbs
  /\ (path e = "/" \/ no_trailing_slash (path e))
  /\ 1 <= line_number e
  /\ Forall (fun p => required p = true \/ p = swagger_param) (parameters e)
  /\ NoDup (auth_mechanisms e)
  /\ Forall (fun a => In a auth_names) (auth_mechanisms e).

(** The parameter "body" of the Node.js analyzer. *)
Definition body_parameter : APIParameter := mkParam "body" BODY "Object" false.

(** What every endpoint of the Node.js analyzer satisfies. *)
Definition node_endpoint_ok (e : APIEndpoint) : Prop :=
  path e <> ""
  /\ file_path e = ""
  /\ auth_mechanisms e = []
  /\ 1 <= line_number e
  /\ Forall (fun p => param_type p = PATH \/ p = body_parameter) (parameters e).

(** What the trees of the grammar of Python have in common, as far as the
    analyzer goes: a decorator has a parent (a [decorated_definition]), and
    neither that node nor its parent (a module or a block) is a
    [function_definition]. *)
Definition decorator_placed_as_in_grammar (decorator_node : Node) : Prop :=
  exists endpoint_node,
    parent decorator_node = Some endpoint_node
    /\ decorated_function endpoint_node = None.

(** The languages [get_analyzer] has an analyzer class for. *)
Definition registered_languages : list string :=
  ["python"; "java"; "javascript"; "typescript"].

Definition analyzer_class (language : string) : option AnalyzerClass :=
  if PyStr.eqb language "python" then Some PythonAnalyzer
  else if PyStr.eqb language "java" then Some JavaAnalyzer
  else if PyStr.in_list language ["javascript"; "typescript"] then Some NodeJSAnalyzer
  else None.

Section CacheUse.
Context `{TreeSitter}.

(** [keeps lang m]: run from a cache that has an entry for [lang], [m]
    leaves the cache as it is. *)
Definition keeps {A : Type} (lang : string) (m : M (gmap string Language) A) : Prop :=
  forall c, is_Some (c !! lang) -> snd (m c) = c.

End CacheUse.

(** The row [CsvFormatter.format] hands to the writer for an endpoint, and
    the snippet cell of [MarkdownFormatter.format]. *)
Definition csv_row (e : APIEndpoint) : list string :=
  [_clean_for_csv (path e);
   _clean_for_csv (http_method e);
   _clean_for_csv (_format_parameters_csv (parameters e));
   _clean_for_csv (_format_auth (auth_mechanisms e));
   _clean_for_csv (_format_location e);
   _clean_for_csv (snippet e)].

Definition snippet_md (snippet : string) : string :=
  "<code>"
  +:+ PyStr.replace PyStr.newline "<br>" (PyStr.replace "|" "&#124;" snippet)
  +:+ "</code>".

(** [free_of chars s]: none of the characters of [chars] occurs in [s]. *)
Definition free_of (chars s : string) : Prop :=
  forall ch, PyStr.mem_char ch chars = true -> PyStr.mem_char ch s = false.

(** The names of the parameters of a kind, as the formatters list them. *)
Definition names_of_kind (k : ParamType) (params : list APIParameter) : list string :=
  map name (List.filter (fun p => bool_decide (param_type p = k)) params).

(** ** Further examples *)

(** A method whose annotations are no endpoint annotations. *)
Definition java_plain_src : string :=
  "class C {" +:+ PyStr.newline +:+ "    @Override" +:+ PyStr.newline
  +:+ "    @Deprecated" +:+ PyStr.newline +:+ "    void f() {}"
  +:+ PyStr.newline +:+ "}" +:+ PyStr.newline.

(** The syntax tree of [java_plain_src]. *)
Definition java_plain_tree : Tree :=
  Tr "program" "" true 0 57 0 [
    Tr "class_declaration" "" true 0 57 0 [
      Tr "class" "" false 0 5 0 [];
      Tr "identifier" "name" true 6 7 0 [];
      Tr "class_body" "body" true 8 57 0 [
        Tr "{" "" false 8 9 0 [];
        Tr "method_declaration" "" true 14 55 1 [
          Tr "modifiers" "" true 14 39 1 [
            Tr "marker_annotation" "" true 14 23 1 [
              Tr "@" "" false 14 15 1 [];
              Tr "identifier" "name" true 15 23 1 []];
            Tr "marker_annotation" "" true 28 39 2 [
              Tr "@" "" false 28 29 2 [];
              Tr "identifier" "name" true 29 39 2 []]];
          Tr "void_type" "type" true 44 48 3 [];
          Tr "identifier" "name" true 49 50 3 [];
          Tr "formal_parameters" "parameters" true 50 52 3 [
            Tr "(" "" false 50 51 3 [];
            Tr ")" "" false 51 52 3 []];
          Tr "block" "body" true 53 55 3 [
            Tr "{" "" false 53 54 3 [];
            Tr "}" "" false 54 55 3 []]];
        Tr "}" "" false 56 57 4 []]]].


(** A method with two verb annotations. *)
Definition java_two_verbs_src : string :=
  "class C {" +:+ PyStr.newline +:+ "    @GetMapping(" +:+ PyStr.dquote
  +:+ "/a" +:+ PyStr.dquote +:+ ")" +:+ PyStr.newline
  +:+ "    @PostMapping(" +:+ PyStr.dquote +:+ "/b" +:+ PyStr.dquote
  +:+ ")" +:+ PyStr.newline +:+ "    void f() {}" +:+ PyStr.newline
  +:+ "}" +:+ PyStr.newline.

(** The syntax tree of [java_two_verbs_src]. *)
Definition java_two_verbs_tree : Tree :=
  Tr "program" "" true 0 72 0 [
    Tr "class_declaration" "" true 0 72 0 [
      Tr "class" "" false 0 5 0 [];
      Tr "identifier" "name" true 6 7 0 [];
      Tr "class_body" "body" true 8 72 0 [
        Tr "{" "" false 8 9 0 [];
        Tr "method_declaration" "" true 14 70 1 [
          Tr "modifiers" "" true 14 54 1 [
            Tr "annotation" "" true 14 31 1 [
              Tr "@" "" false 14 15 1 [];
              Tr "identifier" "name" true 15 25 1 [];
              Tr "annotation_argument_list" "arguments" true 25 31 1 [
                Tr "(" "" false 25 26 1 [];
                Tr "string_literal" "" true 26 30 1 [];
                Tr ")" "" false 30 31 1 []]];
            Tr "annotation" "" true 36 54 2 [
              Tr "@" "" false 36 37 2 [];
              Tr "identifier" "name" true 37 48 2 [];
              Tr "annotation_argument_list" "arguments" true 48 54 2 [
                Tr "(" "" false 48 49 2 [];
                Tr "string_literal" "" true 49 53 2 [];
                Tr ")" "" false 53 54 2 []]]];
          Tr "void_type" "type" true 59 63 3 [];
          Tr "identifier" "name" true 64 65 3 [];
          Tr "formal_parameters" "parameters" true 65 67 3 [
            Tr "(" "" false 65 66 3 [];
            Tr ")" "" false 66 67 3 []];
          Tr "block" "body" true 68 70 3 [
            Tr "{" "" false 68 69 3 [];
            Tr "}" "" false 69 70 3 []]];
        Tr "}" "" false 71 72 4 []]]].


(** The analyzer instance for a source and its tree. *)
Definition analyzer_of_tree (c : AnalyzerClass) (lang source : string) (tree : Tree)
    : Analyzer :=
  mkAnalyzer c lang source (root_of tree source).

(** The annotations [_find_methods] reads off the groups of a method (name
    and arguments node), and the verbs other than "ANY" that a list of
    annotation names maps to. *)
Definition annotation_entries (self : Analyzer) (datas : list (dict string Node))
    : list (string * option Node) :=
  flat_map
    (fun data =>
       match dict_get "method_annotation" data with
       | Some an => [(_get_text self an, dict_get "annotation_args" data)]
       | None => []
       end)
    datas.

Definition concrete_verbs (annot_names : list string) : list string :=
  flat_map
    (fun annot_name =>
       match dict_get annot_name method_mappings with
       | Some new_method => if PyStr.eqb new_method "ANY" then [] else [new_method]
       | None => []
       end)
    annot_names.

(** The number of nested calls [_collect_string_literals] makes on a tree:
    one per level, down to the string literals and the leaves. *)
Fixpoint call_depth (t : Tree) : nat :=
  S (if PyStr.eqb (t_kind t) "string_literal" then 0
     else
       (fix go (cs : list Tree) : nat :=
          match cs with
          | [] => 0
          | c :: cs' => Nat.max (call_depth c) (go cs')
          end) (t_children t)).

(** The texts of the string literals under a node, without the double
    quotes around them. *)
Definition literal_texts (buffer : string) (t : Tree) : list string :=
  map (fun l => PyStr.strip PyStr.dquote (tree_text buffer l)) (string_literals t).

(** The exceptions of the Java analyzer. *)
Definition java_exception (e : exn) : Prop :=
  e = UnicodeDecodeError \/ e = RecursionError.

(** ** The Java analyzer in the words of the specification

    The definitions whose names end in [_spec] follow the description of the
    Java analyzer in the specification, not the code of java.py, and the
    theorems compare them with [java_analyze]; their tables are written out
    again rather than taken from the code.  The other definitions of this
    part name what the specification leaves to the implementation and the
    code reads off the tree: the annotations of a declaration, the methods
    found in a class body, the base path of a class. *)

(** The fixed verb map; [RequestMapping] stands for "ANY" and is no entry of
    the table. *)
Definition verb_map_spec : list (string * string) :=
  [("GetMapping", "GET"); ("PostMapping", "POST"); ("PutMapping", "PUT");
   ("DeleteMapping", "DELETE"); ("PatchMapping", "PATCH");
   ("GET", "GET"); ("POST", "POST"); ("PUT", "PUT"); ("DELETE", "DELETE");
   ("PATCH", "PATCH")].

(** The path-bearing annotations, and the endpoint annotations: those and
    the bare JAX-RS markers. *)
Definition path_bearing_spec : list string :=
  ["RequestMapping"; "GetMapping"; "PostMapping"; "PutMapping";
   "DeleteMapping"; "PatchMapping"; "Path"].

Definition endpoint_annotation_spec (annot_name : string) : bool :=
  PyStr.in_list annot_name path_bearing_spec
  || PyStr.in_list annot_name ["GET"; "POST"; "PUT"; "DELETE"; "PATCH"].

(** The verb of a method with the given annotation names: "ANY" unless a
    verb is specified; of several verbs the last one counts, as in
    [_find_methods]. *)
Definition verb_spec (annot_names : list string) : string :=
  List.last
    (flat_map
       (fun annot_name =>
          match dict_get annot_name verb_map_spec with
          | Some verb => [verb]
          | None => []
          end)
       annot_names)
    "ANY".

(** The annotations the path candidates are collected from: the
    path-bearing ones, and when a verb is specified only those up to the
    first [@Path], that one included. *)
Fixpoint through_first_Path (entries : list (string * option Node))
    : list (string * option Node) :=
  match entries with
  | [] => []
  | entry :: rest =>
      if PyStr.eqb (fst entry) "Path" then [entry]
      else entry :: through_first_Path rest
  end.

Definition candidate_sources_spec (verb : string)
    (entries : list (string * option Node)) : list (string * option Node) :=
  let bearing :=
    List.filter (fun entry => PyStr.in_list (fst entry) path_bearing_spec) entries in
  if PyStr.eqb verb "ANY" then bearing else through_first_Path bearing.

(** Every string literal under the arguments of an annotation. *)
Definition literals_under (args_node : option Node) : list string :=
  match args_node with
  | Some args => literal_texts (n_buffer args) (n_tree args)
  | None => []
  end.

(** The path candidates of a method, and its method paths: the candidates,
    or the empty string when there is none. *)
Definition path_candidates_spec (verb : string)
    (entries : list (string * option Node)) : list string :=
  flat_map (fun entry => literals_under (snd entry))
           (candidate_sources_spec verb entries).

Definition method_paths_spec (candidates : list string) : list string :=
  match candidates with
  | [] => [""]
  | _ => candidates
  end.

(** The fixed vocabulary of authorization annotations. *)
Definition auth_vocabulary_spec : list string :=
  ["PreAuthorize"; "RolesAllowed"; "Secured"; "PermitAll"; "DenyAll";
   "SecurityRequirement"; "SecurityRequirements"; "PermissionRequired"].

(** Whether [_collect_string_literals] can read the literals under a node:
    the tree is no deeper than the interpreter allows and every literal is
    well-formed UTF-8. *)
Definition readable `{Interpreter} (args_node : option Node) : bool :=
  match args_node with
  | Some args =>
      (call_depth (n_tree args) <=? recursion_budget)%nat
      && forallb (fun l => well_formed (tree_text (n_buffer args) l))
                 (string_literals (n_tree args))
  | None => (1 <=? recursion_budget)%nat
  end.

(** [reads sources P r]: the outcome [r] of a computation that reads the
    literals under [sources]: a value that satisfies [P] when all of them
    are readable, an exception of the Java analyzer otherwise. *)
Definition reads `{Interpreter} {A : Type} (sources : list (option Node))
    (P : A -> Prop) (r : result A) : Prop :=
  if forallb readable sources
  then exists a, r = Returns a /\ P a
  else exists e, r = Raises e /\ java_exception e.

Section JavaSpecification.
Context `{TreeSitter} `{SetOrder} `{Interpreter}.

(** The annotations of a declaration, name and arguments, in the order of
    their groups; and the names of the annotations of a declaration as the
    authorization query captures them. *)
Definition annotations_on (self : Analyzer) (node : Node)
    : list (string * option Node) :=
  match first_child_of_type "modifiers" node with
  | Some modifiers =>
      annotation_entries self
        (dict_values (group_captures annotation_of
                        (captures_of self java_annotation_query modifiers)))
  | None => []
  end.

Definition annotation_names_on (self : Analyzer) (node : Node) : list string :=
  match first_child_of_type "modifiers" node with
  | Some modifiers =>
      map (fun capture => _get_text self (fst capture))
          (List.filter (fun capture => PyStr.eqb (snd capture) "auth_name")
                       (captures_of self java_auth_query modifiers))
  | None => []
  end.

(** The authorization annotation names found on a class or on a method:
    those of the vocabulary. *)
Definition auth_annotations_spec (self : Analyzer) (node : Node) : list string :=
  List.filter (fun annot_name => PyStr.in_list annot_name auth_vocabulary_spec)
              (annotation_names_on self node).

(** The class declarations of the file, each once, in the order of the
    captures; a declaration is known by the byte it starts at. *)
Fixpoint distinct_classes (seen : gset nat) (captures : list (Node * string))
    : list Node :=
  match captures with
  | [] => []
  | (class_node, capture_name) :: rest =>
      if PyStr.eqb capture_name "class_node"
         && negb (bool_decide (start_byte class_node ∈ seen))
      then class_node :: distinct_classes ({[start_byte class_node]} ∪ seen) rest
      else distinct_classes seen rest
  end.

Definition class_declarations_spec (self : Analyzer) : list Node :=
  distinct_classes ∅ (captures_of self java_class_query (root_node self)).

(** The method declarations found in the body of a class declaration. *)
Definition methods_in (self : Analyzer) (class_node : Node) : list Node :=
  match first_child_of_type "class_body" class_node with
  | Some class_body => map fst (captures_of self java_method_query class_body)
  | None => []
  end.

(** The annotation the base path of a class is read from: the first
    [RequestMapping] or [Path] among the annotations with arguments on the
    class; and the base path, its first literal. *)
Definition base_path_annotation (self : Analyzer) (class_node : Node)
    : option (dict string Node) :=
  match first_child_of_type "modifiers" class_node with
  | Some modifiers =>
      find (fun data =>
              match dict_get "anno_name" data, dict_get "args" data with
              | Some an, Some _ =>
                  PyStr.in_list (_get_text self an) ["RequestMapping"; "Path"]
              | _, _ => false
              end)
           (dict_values (group_captures annotation_of
                           (captures_of self java_base_path_query modifiers)))
  | None => None
  end.

Definition class_base_path_of (self : Analyzer) (class_node : Node) : string :=
  match base_path_annotation self class_node with
  | Some data => hd "" (literals_under (dict_get "args" data))
  | None => ""
  end.

(** The endpoints of a method for a base path and the authorization names
    of a class, in the words of the specification: none unless the method
    has modifiers, a name and an endpoint annotation, and then one for every
    (method, path candidate) pair, or one with the empty method path.  The
    authorization names are the union of those of the class and those of the
    method, listed as the process lists a set.  [method_endpoints_spec] takes
    the base path and the names from a class declaration. *)
Definition method_endpoints_for (self : Analyzer) (base_path : string)
    (class_auth : list string) (method_node : Node) : list APIEndpoint :=
  match first_child_of_type "modifiers" method_node,
        child_by_field_name "name" method_node with
  | Some _, Some handler_name_node =>
      let entries := annotations_on self method_node in
      if existsb endpoint_annotation_spec (map fst entries) then
        let verb := verb_spec (map fst entries) in
        map (fun method_path =>
               mkEndpoint "" (_get_text self handler_name_node) verb
                          (endpoint_path base_path method_path)
                          (start_row method_node + 1)
                          (_get_text self method_node)
                          (java_parameters_of
                             self (child_by_field_name "parameters" method_node)
                             method_node)
                          (list_of_set
                             (class_auth
                              ++ list_of_set (auth_annotations_spec self method_node))))
            (method_paths_spec (path_candidates_spec verb entries))
      else []
  | _, _ => []
  end.

Definition method_endpoints_spec (self : Analyzer) (class_node method_node : Node)
    : list APIEndpoint :=
  method_endpoints_for self (class_base_path_of self class_node)
                       (list_of_set (auth_annotations_spec self class_node))
                       method_node.

(** The pairs of a class declaration and a method declaration found in its
    body, and the endpoints of the file: those of every pair. *)
Definition captured_methods_spec (self : Analyzer) : list (Node * Node) :=
  flat_map (fun class_node =>
              map (fun method_node => (class_node, method_node))
                  (methods_in self class_node))
           (class_declarations_spec self).

Definition java_endpoints_spec (self : Analyzer) : list APIEndpoint :=
  flat_map (fun pair => method_endpoints_spec self (fst pair) (snd pair))
           (captured_methods_spec self).

(** The nodes whose literals the analyzer reads: for a method with an
    endpoint annotation the arguments of the annotations its candidates come
    from, for a class the arguments of the annotation of its base path. *)
Definition method_sources (self : Analyzer) (method_node : Node)
    : list (option Node) :=
  match first_child_of_type "modifiers" method_node,
        child_by_field_name "name" method_node with
  | Some _, Some _ =>
      let entries := annotations_on self method_node in
      if existsb endpoint_annotation_spec (map fst entries)
      then map snd (candidate_sources_spec (verb_spec (map fst entries)) entries)
      else []
  | _, _ => []
  end.

Definition class_sources (self : Analyzer) (class_node : Node) : list (option Node) :=
  match base_path_annotation self class_node with
  | Some data => [dict_get "args" data]
  | None => []
  end
  ++ flat_map (method_sources self) (methods_in self class_node).

Definition literal_sources (self : Analyzer) : list (option Node) :=
  flat_map (class_sources self) (class_declarations_spec self).

End JavaSpecification.

(** ** Two processes

    Two endpoints that differ at most in the order of their authorization
    names, and two outcomes of the core that differ at most in that. *)
Definition same_up_to_auth_order (e1 e2 : APIEndpoint) : Prop :=
  file_path e1 = file_path e2
  /\ handler_name e1 = handler_name e2
  /\ http_method e1 = http_method e2
  /\ path e1 = path e2
  /\ line_number e1 = line_number e2
  /\ snippet e1 = snippet e2
  /\ parameters e1 = parameters e2
  /\ Permutation (auth_mechanisms e1) (auth_mechanisms e2).

Definition same_outcome {A B : Type} (R : A -> B -> Prop)
    (r1 : result A) (r2 : result B) : Prop :=
  match r1, r2 with
  | Returns a, Returns b => R a b
  | Raises e1, Raises e2 => e1 = e2
  | _, _ => False
  end.

Definition same_endpoints (found1 found2 : option (list APIEndpoint)) : Prop :=
  match found1, found2 with
  | Some endpoints1, Some endpoints2 =>
      Forall2 same_up_to_auth_order endpoints1 endpoints2
  | None, None => True
  | _, _ => False
  end.

(** A second listing order for sets: the order of [elements_order],
    reversed. *)
Lemma reversed_NoDup (xs : list string) :
  NoDup (rev (elements (list_to_set xs : gset string))).
Proof. apply NoDup_ListNoDup, List.NoDup_rev, NoDup_ListNoDup, NoDup_elements. Qed.

Lemma reversed_In (xs : list string) (x : string) :
  In x (rev (elements (list_to_set xs : gset string))) <-> In x xs.
Proof. rewrite <- in_rev. apply elements_In. Qed.

Definition reversed_order : SetOrder :=
  {| list_of_set := fun xs => rev (elements (list_to_set xs : gset string));
     list_of_set_NoDup := reversed_NoDup;
     list_of_set_In := reversed_In |}.

(** A class nested in another one, with different authorization annotations. *)
Definition java_nested_src : string :=
  "@PreAuthorize(" +:+ PyStr.dquote +:+ "x" +:+ PyStr.dquote +:+ ")"
  +:+ PyStr.newline +:+ "class Outer {" +:+ PyStr.newline
  +:+ "    @Secured(" +:+ PyStr.dquote +:+ "y" +:+ PyStr.dquote +:+ ")"
  +:+ PyStr.newline +:+ "    class Inner {" +:+ PyStr.newline
  +:+ "        @RolesAllowed(" +:+ PyStr.dquote +:+ "r" +:+ PyStr.dquote
  +:+ ")" +:+ PyStr.newline +:+ "        @GetMapping(" +:+ PyStr.dquote
  +:+ "/a" +:+ PyStr.dquote +:+ ")" +:+ PyStr.newline
  +:+ "        void f() {}" +:+ PyStr.newline +:+ "    }"
  +:+ PyStr.newline +:+ "}" +:+ PyStr.newline.

(** The syntax tree of [java_nested_src]. *)
Definition java_nested_tree : Tree :=
  Tr "program" "" true 0 149 0 [
    Tr "class_declaration" "" true 0 149 0 [
      Tr "modifiers" "" true 0 18 0 [
        Tr "annotation" "" true 0 18 0 [
          Tr "@" "" false 0 1 0 [];
          Tr "identifier" "name" true 1 13 0 [];
          Tr "annotation_argument_list" "arguments" true 13 18 0 [
            Tr "(" "" false 13 14 0 [];
            Tr "string_literal" "" true 14 17 0 [];
            Tr ")" "" false 17 18 0 []]]];
      Tr "class" "" false 19 24 1 [];
      Tr "identifier" "name" true 25 30 1 [];
      Tr "class_body" "body" true 31 149 1 [
        Tr "{" "" false 31 32 1 [];
        Tr "class_declaration" "" true 37 147 2 [
          Tr "modifiers" "" true 37 50 2 [
            Tr "annotation" "" true 37 50 2 [
              Tr "@" "" false 37 38 2 [];
              Tr "identifier" "name" true 38 45 2 [];
              Tr "annotation_argument_list" "arguments" true 45 50 2 [
                Tr "(" "" false 45 46 2 [];
                Tr "string_literal" "" true 46 49 2 [];
                Tr ")" "" false 49 50 2 []]]];
          Tr "class" "" false 55 60 3 [];
          Tr "identifier" "name" true 61 66 3 [];
          Tr "class_body" "body" true 67 147 3 [
            Tr "{" "" false 67 68 3 [];
            Tr "method_declaration" "" true 77 141 4 [
              Tr "modifiers" "" true 77 121 4 [
                Tr "annotation" "" true 77 95 4 [
                  Tr "@" "" false 77 78 4 [];
                  Tr "identifier" "name" true 78 90 4 [];
                  Tr "annotation_argument_list" "arguments" true 90 95 4 [
                    Tr "(" "" false 90 91 4 [];
                    Tr "string_literal" "" true 91 94 4 [];
                    Tr ")" "" false 94 95 4 []]];
                Tr "annotation" "" true 104 121 5 [
                  Tr "@" "" false 104 105 5 [];
                  Tr "identifier" "name" true 105 115 5 [];
                  Tr "annotation_argument_list" "arguments" true 115 121 5 [
                    Tr "(" "" false 115 116 5 [];
                    Tr "string_literal" "" true 116 120 5 [];
                    Tr ")" "" false 120 121 5 []]]];
              Tr "void_type" "type" true 130 134 6 [];
              Tr "identifier" "name" true 135 136 6 [];
              Tr "formal_parameters" "parameters" true 136 138 6 [
                Tr "(" "" false 136 137 6 [];
                Tr ")" "" false 137 138 6 []];
              Tr "block" "body" true 139 141 6 [
                Tr "{" "" false 139 140 6 [];
                Tr "}" "" false 140 141 6 []]];
            Tr "}" "" false 146 147 7 []]];
        Tr "}" "" false 148 149 8 []]]].

(** A tree of [depth] nested array initializers around a string literal,
    over the source [java_ab_src]. *)
Fixpoint nested_initializers (depth : nat) : Tree :=
  match depth with
  | O => Tr "string_literal" "" true 51 55 2 []
  | S depth' =>
      Tr "element_value_array_initializer" "" true 51 55 2 [nested_initializers depth']
  end.

Section TwoRuns.
Context `{TreeSitter}.

(** [related R m1 m2]: run from two caches that satisfy the invariant, [m1]
    and [m2] both return, values that [R] relates, or both raise, the same
    exception; and both leave the invariant in place. *)
Definition related {A B : Type} (R : A -> B -> Prop)
    (m1 : M (gmap string Language) A) (m2 : M (gmap string Language) B) : Prop :=
  forall c1 c2, cache_ok c1 -> cache_ok c2 ->
    same_outcome R (fst (m1 c1)) (fst (m2 c2))
    /\ cache_ok (snd (m1 c1)) /\ cache_ok (snd (m2 c2)).

End TwoRuns.

(** A syntax tree with a method whose endpoint annotation has [depth] array
    initializers nested around its path literal.  The offsets are those of
    [java_ab_src], which gives the nodes their texts. *)
Definition java_deep_tree (depth : nat) : Tree :=
  Tr "program" "" true 0 80 0 [
    Tr "class_declaration" "" true 0 80 0 [
      Tr "class" "" false 24 29 1 [];
      Tr "identifier" "name" true 30 31 1 [];
      Tr "class_body" "body" true 32 80 1 [
        Tr "method_declaration" "" true 38 78 2 [
          Tr "modifiers" "" true 38 62 2 [
            Tr "annotation" "" true 38 62 2 [
              Tr "@" "" false 38 39 2 [];
              Tr "identifier" "name" true 39 49 2 [];
              Tr "annotation_argument_list" "arguments" true 49 62 2 [
                nested_initializers depth]]];
          Tr "void_type" "type" true 67 71 3 [];
          Tr "identifier" "name" true 72 73 3 [];
          Tr "formal_parameters" "parameters" true 73 75 3 []]]]].

(** * Properties *)

(** ** The cache and the state monad *)

Lemma eqb_true (a b : string) : PyStr.eqb a b = true <-> a = b.
Proof. unfold PyStr.eqb. apply String.eqb_eq. Qed.

Lemma eqb_false (a b : string) : PyStr.eqb a b = false <-> a <> b.
Proof. unfold PyStr.eqb. apply String.eqb_neq. Qed.

Section CacheLogic.
Context `{TreeSitter}.

Lemma cache_ok_empty : cache_ok ∅.
Proof. intros lang g Hg. rewrite lookup_empty in Hg. discriminate. Qed.

Lemma cache_ok_insert (c : gmap string Language) (lang : string) :
  cache_ok c -> cache_ok (<[lang := get_language lang]> c).
Proof.
  intros Hc l g. rewrite lookup_insert. case_decide as Hl.
  - subst l. intros [= <-]. reflexivity.
  - apply Hc.
Qed.

(** [get_ts_language] returns the grammar of the language whatever the
    cache holds, and keeps the invariant. *)
Lemma get_ts_language_run (lang : string) (c : gmap string Language) :
  cache_ok c ->
  fst (get_ts_language lang c) = Returns (get_language lang)
  /\ cache_ok (snd (get_ts_language lang c)).
Proof.
  intros Hc. unfold get_ts_language.
  destruct (c !! lang) as [g|] eqn:Hg; simpl.
  - rewrite (Hc _ _ Hg). auto.
  - split; [reflexivity | now apply cache_ok_insert].
Qed.

(** *** Weakest preconditions *)

Lemma wp_mono {A : Type} (m : M (gmap string Language) A) (Q Q' : result A -> Prop) :
  wp m Q -> (forall r, Q r -> Q' r) -> wp m Q'.
Proof. intros Hm HQ c Hc. destruct (Hm c Hc). auto. Qed.

Lemma wp_ret {A : Type} (a : A) (Q : result A -> Prop) :
  Q (Returns a) -> wp (ret a) Q.
Proof. intros HQ c Hc. auto. Qed.

Lemma wp_raise {A : Type} (e : exn) (Q : result A -> Prop) :
  Q (Raises e) -> wp (raise e) Q.
Proof. intros HQ c Hc. auto. Qed.

Lemma wp_lift {A : Type} (r : result A) (Q : result A -> Prop) :
  Q r -> wp (lift r) Q.
Proof. intros HQ c Hc. auto. Qed.

Lemma wp_bind {A B : Type} (m : M (gmap string Language) A)
    (f : A -> M (gmap string Language) B) (Q : result B -> Prop) :
  wp m (fun r => match r with
                 | Returns a => wp (f a) Q
                 | Raises e => Q (Raises e)
                 end) ->
  wp (bind m f) Q.
Proof.
  intros Hm c Hc. unfold bind. destruct (Hm c Hc) as [Hr Hc'].
  destruct (m c) as [[a|e] c']; simpl in *; auto.
Qed.

Lemma wp_execute_query (node : Node) (q : query) (lang : string)
    (Q : result (list (Node * string)) -> Prop) :
  match compile_query q with
  | Returns _ => Q (Returns (ts_captures (get_language lang) q node))
  | Raises e => Q (Raises e)
  end ->
  wp (execute_query node q lang) Q.
Proof.
  intros HQ c Hc. unfold execute_query, bind, lift.
  destruct (get_ts_language_run lang c Hc) as [Hr Hc'].
  destruct (get_ts_language lang c) as [r c']; simpl in *; subst r.
  destruct (compile_query q); auto.
Qed.

(** A loop keeps an invariant of its variables. *)
Lemma wp_foldM {A B : Type} (body : B -> A -> M (gmap string Language) B)
    (I : B -> Prop) (l : list A) :
  (forall b a, I b -> In a l ->
     wp (body b a) (fun r => forall b', r = Returns b' -> I b')) ->
  forall b, I b ->
  wp (foldM body l b) (fun r => forall b', r = Returns b' -> I b').
Proof.
  induction l as [|a l IH]; intros Hbody b Hb; simpl.
  - apply wp_ret. intros b' [= <-]. exact Hb.
  - apply wp_bind. eapply wp_mono; [apply (Hbody b a Hb); now left|].
    intros [b1|e] Hr; simpl.
    + apply IH; [|now apply Hr]. intros b2 a2 Hb2 Ha2. apply Hbody; auto. now right.
    + intros b' [=].
Qed.

(** *** Stability *)

Lemma stable_ret {A : Type} (a : A) : stable (ret a).
Proof. intros c Hc. auto. Qed.

Lemma stable_raise {A : Type} (e : exn) : stable (@raise (gmap string Language) A e).
Proof. intros c Hc. auto. Qed.

Lemma stable_lift {A : Type} (r : result A) : stable (lift r).
Proof. intros c Hc. auto. Qed.

Lemma stable_bind {A B : Type} (m : M (gmap string Language) A)
    (f : A -> M (gmap string Language) B) :
  stable m -> (forall a, stable (f a)) -> stable (bind m f).
Proof.
  intros Hm Hf c Hc. unfold bind.
  destruct (Hm c Hc) as [Hr Hc1].
  destruct (Hm ∅ cache_ok_empty) as [_ Hc0].
  destruct (m c) as [r c1], (m ∅) as [r0 c0]; simpl in *; subst r0.
  destruct r as [a|e]; simpl; [|auto].
  destruct (Hf a c1 Hc1) as [E1 Hk1]. destruct (Hf a c0 Hc0) as [E0 _].
  split; [congruence | assumption].
Qed.

Lemma stable_foldM {A B : Type} (body : B -> A -> M (gmap string Language) B)
    (l : list A) :
  (forall b a, stable (body b a)) -> forall b, stable (foldM body l b).
Proof.
  intros Hbody. induction l as [|a l IH]; intros b; simpl.
  - apply stable_ret.
  - apply stable_bind; auto.
Qed.

Lemma stable_get_ts_language (lang : string) : stable (get_ts_language lang).
Proof.
  intros c Hc. destruct (get_ts_language_run lang c Hc) as [E Hc'].
  destruct (get_ts_language_run lang ∅ cache_ok_empty) as [E0 _].
  split; [congruence | assumption].
Qed.

Lemma stable_execute_query (node : Node) (q : query) (lang : string) :
  stable (execute_query node q lang).
Proof.
  unfold execute_query. apply stable_bind.
  - apply stable_get_ts_language.
  - intros language. apply stable_bind; [apply stable_lift|].
    intros _. apply stable_ret.
Qed.

End CacheLogic.

Create HintDb stable.

#[global] Hint Resolve stable_ret stable_raise stable_lift stable_execute_query
  stable_get_ts_language : stable.

(** One step of a stability proof: follow the shape of the program. *)
Ltac stable_step :=
  match goal with
  | |- stable (bind _ _) => apply stable_bind; [| intros ? ]
  | |- stable (foldM _ _ _) => apply stable_foldM; intros ? ?
  | |- stable (match ?x with _ => _ end) => destruct x
  | |- stable _ => solve [ auto with stable ]
  end.

Ltac stable_auto := repeat stable_step.

Section Stability.
Context `{TreeSitter} `{SetOrder} `{Interpreter}.

Lemma stable_query (self : Analyzer) (q : query) : stable (_query self q).
Proof. unfold _query. stable_auto. Qed.

Lemma stable_BaseAnalyzer_init (c : AnalyzerClass) (lang source : string) :
  stable (BaseAnalyzer_init c lang source).
Proof. unfold BaseAnalyzer_init. stable_auto. Qed.

Lemma stable_find_class_base_path (self : Analyzer) (class_node : Node) :
  stable (_find_class_base_path self class_node).
Proof. unfold _find_class_base_path. stable_auto. Qed.

Lemma stable_find_auth_annotations (self : Analyzer) (modifiers : option Node) :
  stable (_find_auth_annotations self modifiers).
Proof. unfold _find_auth_annotations. stable_auto. Qed.

Lemma stable_parse_java_parameters (self : Analyzer) (params : option Node)
    (method_node : Node) :
  stable (_parse_java_parameters self params method_node).
Proof. unfold _parse_java_parameters. stable_auto. Qed.

#[local] Hint Resolve stable_query stable_find_class_base_path
  stable_find_auth_annotations stable_parse_java_parameters : stable.

Lemma stable_find_methods (self : Analyzer) (class_body : Node) (base : string)
    (class_auth : list string) :
  stable (_find_methods self class_body base class_auth).
Proof.
  unfold _find_methods, find_methods_body, emit_endpoint. stable_auto.
Qed.

Lemma stable_java_analyze (self : Analyzer) : stable (java_analyze self).
Proof.
  unfold java_analyze, java_analyze_body, _find_class_auth.
  pose proof stable_find_methods. stable_auto.
Qed.

Lemma stable_parse_node_parameters (self : Analyzer) (handler : option Node)
    (path : string) :
  stable (_parse_node_parameters self handler path).
Proof.
  unfold _parse_node_parameters, node_scan_body. stable_auto.
Qed.

Lemma stable_node_analyze (self : Analyzer) : stable (node_analyze self).
Proof.
  unfold node_analyze, node_analyze_body.
  pose proof stable_parse_node_parameters. stable_auto.
Qed.

Lemma stable_parse_python_parameters (self : Analyzer) (params : option Node) :
  stable (_parse_python_parameters self params).
Proof. unfold _parse_python_parameters. stable_auto. Qed.

Lemma stable_python_analyze (self : Analyzer) : stable (python_analyze self).
Proof.
  unfold python_analyze, python_analyze_body.
  pose proof stable_parse_python_parameters. stable_auto.
Qed.

Lemma stable_analyze (self : Analyzer) : stable (analyze self).
Proof.
  unfold analyze. destruct (cls self);
    auto using stable_python_analyze, stable_java_analyze, stable_node_analyze.
Qed.

Lemma stable_analyze_source (lang source : string) :
  stable (analyze_source lang source).
Proof.
  unfold analyze_source, get_analyzer.
  pose proof stable_analyze. pose proof stable_BaseAnalyzer_init. stable_auto.
Qed.

End Stability.

(** ** The Java analyzer *)

Section JavaProperties.
Context `{TreeSitter} `{SetOrder} `{Interpreter}.

Lemma wp_run {A : Type} (m : M (gmap string Language) A) (Q : result A -> Prop)
    (c : gmap string Language) :
  wp m Q -> cache_ok c -> Q (fst (m c)).
Proof. intros Hm Hc. now destruct (Hm c Hc). Qed.

Lemma list_of_set_nil : list_of_set [] = [].
Proof.
  destruct (list_of_set []) as [|x l] eqn:E; [reflexivity|].
  exfalso. apply (proj1 (list_of_set_In [] x)). rewrite E. now left.
Qed.

Lemma wp_find_auth_annotations (self : Analyzer) (node : Node)
    (Q : result (list string) -> Prop) :
  Q (Returns (list_of_set (auth_names_on self node))) ->
  wp (_find_auth_annotations self (first_child_of_type "modifiers" node)) Q.
Proof.
  intros HQ. unfold _find_auth_annotations, auth_names_on in *.
  destruct (first_child_of_type "modifiers" node) as [m|].
  - apply wp_bind, wp_execute_query, wp_ret. exact HQ.
  - apply wp_ret. now rewrite list_of_set_nil in HQ.
Qed.

Lemma wp_parse_java_parameters (self : Analyzer) (params_node : option Node)
    (method_node : Node) (Q : result (list APIParameter) -> Prop) :
  Q (Returns (java_parameters_of self params_node method_node)) ->
  wp (_parse_java_parameters self params_node method_node) Q.
Proof.
  intros HQ. unfold _parse_java_parameters, java_parameters_of in *.
  destruct params_node as [pn|]; [|now apply wp_ret].
  apply wp_bind, wp_execute_query.
  destruct (first_child_of_type "modifiers" method_node) as [m|].
  - apply wp_bind, wp_execute_query, wp_ret. exact HQ.
  - apply wp_ret. now rewrite app_nil_r in HQ.
Qed.

Lemma wp_emit_endpoints (self : Analyzer) (base hn mt : string)
    (auth : list string) (params_node : option Node) (method_node : Node)
    (paths : list string) :
  forall endpoints,
  wp (foldM (emit_endpoint self base hn mt auth params_node method_node)
            paths endpoints)
     (fun r => exists new,
        r = Returns (endpoints ++ new)
        /\ map path new = map (endpoint_path base) paths
        /\ Forall (emitted_for self hn mt auth params_node method_node) new).
Proof.
  induction paths as [|p paths IH]; intros endpoints; simpl.
  - apply wp_ret. exists []. rewrite app_nil_r. auto.
  - apply wp_bind. unfold emit_endpoint at 1.
    apply wp_bind, wp_parse_java_parameters, wp_ret.
    eapply wp_mono; [apply IH|].
    intros r (new & -> & Hp & Hall).
    eexists (_ :: new). rewrite <- app_assoc. split; [reflexivity|].
    simpl. rewrite Hp. split; [reflexivity|].
    constructor; [|exact Hall]. repeat split.
Qed.

(** *** The file path *)

Lemma wp_find_methods_body_blank (self : Analyzer) (base : string)
    (class_auth : list string) (endpoints : list APIEndpoint)
    (capture : Node * string) :
  Forall (fun e => file_path e = "") endpoints ->
  wp (find_methods_body self base class_auth endpoints capture)
     (fun r => forall eps, r = Returns eps ->
        Forall (fun e => file_path e = "") eps).
Proof.
  intros Hall. destruct capture as [method_node label].
  unfold find_methods_body. simpl fst.
  destruct (first_child_of_type "modifiers" method_node) as [modifiers|] eqn:Hm;
    [|apply wp_ret; now intros eps [= <-]].
  destruct (child_by_field_name "name" method_node) as [name_node|];
    [|apply wp_ret; now intros eps [= <-]].
  apply wp_bind, wp_execute_query.
  destruct (scan_method_annotations _ _) as [[annot_list method_type] has].
  destruct has; simpl negb; cbv iota; [|apply wp_ret; now intros eps [= <-]].
  apply wp_bind, wp_lift.
  destruct (collect_paths method_type annot_list) as [paths|e]; [|now intros eps [=]].
  apply wp_bind. rewrite <- Hm. apply wp_find_auth_annotations.
  eapply wp_mono; [apply wp_emit_endpoints|].
  intros r (new & -> & _ & Hnew) eps [= <-].
  apply Forall_app. split; [exact Hall|].
  eapply List.Forall_impl; [|exact Hnew]. intros e He.
  unfold emitted_for in He. tauto.
Qed.

Lemma wp_java_analyze (self : Analyzer) :
  wp (java_analyze self)
     (fun r => forall eps, r = Returns eps ->
        Forall (fun e => file_path e = "") eps).
Proof.
  unfold java_analyze, _query. apply wp_bind, wp_execute_query.
  apply wp_bind.
  eapply wp_mono;
    [apply (wp_foldM (java_analyze_body self)
                     (fun st => Forall (fun e => file_path e = "") (fst st)))|].
  - intros [endpoints processed] [class_node capture_name] Hinv Hin.
    simpl in Hinv. unfold java_analyze_body.
    destruct (PyStr.eqb capture_name "class_node"); simpl;
      [|apply wp_ret; now intros st [= <-]].
    destruct (bool_decide _); simpl; [apply wp_ret; now intros st [= <-]|].
    apply wp_bind. eapply wp_mono with (Q := fun _ => True).
    { intros c0 Hc0. split; [exact I|].
      now destruct (stable_find_class_base_path self class_node c0 Hc0). }
    intros [base_path|e] _; [|now intros st [=]].
    apply wp_bind. unfold _find_class_auth. apply wp_find_auth_annotations.
    destruct (first_child_of_type "class_body" class_node) as [class_body|];
      [|apply wp_ret; now intros st [= <-]].
    apply wp_bind. unfold _find_methods. apply wp_bind, wp_execute_query.
    eapply wp_mono;
      [apply (wp_foldM (find_methods_body self base_path _)
                       (fun found => Forall (fun e => file_path e = "") found));
       [|constructor]|].
    + intros found capture Hfound _. now apply wp_find_methods_body_blank.
    + intros [found|e] Hfound; [|now intros st [=]].
      apply wp_ret. intros st [= <-]. simpl. apply Forall_app. split; [exact Hinv|].
      now apply Hfound.
  - constructor.
  - intros [st|e] Hst; [|now intros eps' [=]].
    apply wp_ret. intros eps' [= <-]. now apply Hst.
Qed.

(** *** The synthetic parameter *)

Lemma swagger_entries_repeat (self : Analyzer) (captures : list (Node * string)) :
  swagger_entries self captures
  = repeat swagger_param
      (length (List.filter
                 (fun '(node, label) =>
                    PyStr.eqb label "anno_name"
                    && PyStr.eqb (_get_text self node) "Parameter")
                 captures)).
Proof.
  induction captures as [|[node label] captures IH]; [reflexivity|].
  simpl. destruct (_ && _); simpl; now rewrite IH.
Qed.

Lemma java_formal_parameters_required (self : Analyzer)
    (datas : list (dict string Node)) :
  Forall (fun p => required p = true) (java_formal_parameters self datas).
Proof.
  induction datas as [|data datas IH]; [constructor|].
  unfold java_formal_parameters. simpl.
  destruct (dict_get "param_name" data), (dict_get "param_type" data);
    simpl; auto.
Qed.

(** C6, as amended.  For a method with a parameter list and modifiers,
    [_parse_java_parameters] returns the formal parameters followed by one
    synthetic optional Query parameter "swagger_param" (with an empty type)
    for every annotation name that reads "Parameter" in the modifiers: as
    many entries as occurrences, and none of the formal parameters is such
    an entry. *)
Theorem swagger_param_per_occurrence (self : Analyzer)
    (params_node method_node modifiers : Node) (c : gmap string Language) :
  cache_ok c ->
  first_child_of_type "modifiers" method_node = Some modifiers ->
  fst (_parse_java_parameters self (Some params_node) method_node c)
    = Returns (formal_parameters_of self params_node
               ++ repeat (mkParam "swagger_param" QUERY "" false)
                         (parameter_occurrences self modifiers))
  /\ ~ In (mkParam "swagger_param" QUERY "" false)
          (formal_parameters_of self params_node).
Proof.
  intros Hc Hm. split.
  - apply (wp_run _ (fun r => r = _) c); [|exact Hc].
    apply wp_parse_java_parameters. unfold java_parameters_of. rewrite Hm.
    rewrite swagger_entries_repeat. reflexivity.
  - intros Hin. unfold formal_parameters_of in Hin.
    pose proof (java_formal_parameters_required self
      (dict_values (group_captures formal_parameter_of
                      (captures_of self java_param_query params_node)))) as Hreq.
    rewrite List.Forall_forall in Hreq. specialize (Hreq _ Hin). discriminate.
Qed.

End JavaProperties.

(** ** The Node.js analyzer *)

Section NodeProperties.
Context `{TreeSitter} `{SetOrder} `{Interpreter}.

Lemma stable_wp {A : Type} (m : M (gmap string Language) A) :
  stable m -> wp m (fun _ => True).
Proof. intros Hm c Hc. split; [exact I|]. now destruct (Hm c Hc). Qed.

Lemma bind_run {S A B : Type} (m : M S A) (f : A -> M S B) (s : S) :
  bind m f s
  = match m s with
    | (Returns a, s') => f a s'
    | (Raises e, s') => (Raises e, s')
    end.
Proof. reflexivity. Qed.

(** The scan of the handler with the route query changes nothing: none of
    its labels is "param_type" or "param_name". *)
Lemma node_scan_no_effect (self : Analyzer) (captures : list (Node * string))
    (st : list APIParameter * list (string * option ParamType) * option ParamType) :
  (forall capture, In capture captures -> In (snd capture) route_labels) ->
  forall c, foldM (node_scan_body self) captures st c = (Returns st, c).
Proof.
  induction captures as [|[node label] captures IH]; intros Hlabels c;
    [reflexivity|].
  simpl. unfold bind.
  assert (Hstep : node_scan_body self st (node, label) c = (Returns st, c)).
  { unfold node_scan_body. destruct st as [[parameters found] current].
    assert (Hl : In label route_labels) by (apply (Hlabels (node, label)); now left).
    unfold route_labels in Hl. simpl in Hl.
    destruct Hl as [<-|[<-|[<-|[<-|[]]]]]; reflexivity. }
  rewrite Hstep. apply IH. intros capture Hin. apply Hlabels. now right.
Qed.

Lemma wp_parse_node_parameters (self : Analyzer) (handler_node : Node)
    (path : string) (Q : result (list APIParameter) -> Prop) :
  route_labels_ok self ->
  Q (Returns (node_parameters_of self handler_node path)) ->
  wp (_parse_node_parameters self (Some handler_node) path) Q.
Proof.
  intros Hlabels HQ. unfold _parse_node_parameters.
  apply wp_bind, wp_execute_query. cbv beta zeta.
  fold (captures_of self node_route_query handler_node).
  intros c Hc. rewrite bind_run, node_scan_no_effect by apply Hlabels.
  revert c Hc. apply wp_bind, wp_execute_query.
  fold (captures_of self node_body_query handler_node).
  unfold node_parameters_of in HQ.
  destruct (_ && _); apply wp_ret; exact HQ.
Qed.





(** The parameters of an endpoint of the Node.js analyzer are path
    parameters and, possibly, "body": no Query parameter is ever derived
    from the body of a handler. *)
Lemma path_parameters_kind (path : string) :
  Forall (fun p => param_type p = PATH) (path_parameters path).
Proof.
  unfold path_parameters. induction (PyStr.split "/" path) as [|part parts IH];
    [constructor|].
  cbn [flat_map]. destruct (PyStr.startswith ":" part); [|exact IH].
  constructor; [reflexivity | exact IH].
Qed.

Lemma node_parameters_never_query (self : Analyzer) (handler_node : Node)
    (path : string) :
  Forall (fun p => param_type p <> QUERY) (node_parameters_of self handler_node path).
Proof.
  assert (Hpath : Forall (fun p => param_type p <> QUERY) (path_parameters path)).
  { eapply List.Forall_impl; [|apply path_parameters_kind].
    intros p ->. discriminate. }
  unfold node_parameters_of. destruct (_ && _); [|exact Hpath].
  apply Forall_app. split; [exact Hpath|]. repeat constructor. discriminate.
Qed.

Lemma node_never_derives_query (self : Analyzer) (c : gmap string Language)
    (eps : list APIEndpoint) :
  cache_ok c ->
  route_labels_ok self ->
  fst (node_analyze self c) = Returns eps ->
  Forall (fun e => Forall (fun p => param_type p <> QUERY) (parameters e)) eps.
Proof.
  intros Hc Hlabels Hrun.
  refine (wp_run _ (fun r => forall eps', r = Returns eps' ->
            Forall (fun e => Forall (fun p => param_type p <> QUERY) (parameters e)) eps')
            c _ Hc eps Hrun).
  unfold node_analyze, _query. apply wp_bind, wp_execute_query.
  apply wp_foldM; [|constructor].
  intros endpoints [key data] Hinv _. unfold node_analyze_body. cbv beta zeta. cbn [snd].
  destruct (dict_get "endpoint_node" data); [|apply wp_raise; now intros eps' [=]].
  destruct (dict_get "method" data); [|apply wp_ret; now intros eps' [= <-]].
  destruct (dict_get "args" data) as [args_node|]; [|apply wp_ret; now intros eps' [= <-]].
  destruct (PyStr.eqb _ ""); [apply wp_ret; now intros eps' [= <-]|].
  apply wp_bind.
  destruct (last_handler_argument args_node) as [h|].
  - apply wp_parse_node_parameters; [exact Hlabels|].
    apply wp_ret. intros eps' [= <-]. apply Forall_app. split; [exact Hinv|].
    constructor; [|constructor]. apply node_parameters_never_query.
  - apply wp_ret, wp_ret. intros eps' [= <-]. apply Forall_app. split; [exact Hinv|].
    repeat constructor.
Qed.

End NodeProperties.

(** ** The Python analyzer *)

Section PythonProperties.
Context `{TreeSitter} `{SetOrder} `{Interpreter}.

Lemma wp_seq {A B : Type} (m : M (gmap string Language) A)
    (f : A -> M (gmap string Language) B) (P : A -> Prop) (Q : result B -> Prop) :
  wp m (fun r => forall a, r = Returns a -> P a) ->
  (forall a, P a -> wp (f a) Q) ->
  (forall e, Q (Raises e)) ->
  wp (bind m f) Q.
Proof.
  intros Hm Hf He. apply wp_bind. eapply wp_mono; [exact Hm|].
  intros [a|e] Hr; [apply Hf; now apply Hr | apply He].
Qed.

Lemma dict_set_keys (k : string) (v : APIEndpoint) (d : dict string APIEndpoint) :
  forall x, In x (dict_keys (dict_set k v d)) -> x = k \/ In x (dict_keys d).
Proof.
  induction d as [|[k' v'] d IH]; intros x; simpl.
  - intros [<-|[]]. now left.
  - destruct (decide (k = k')) as [<-|Hne]; simpl.
    + intros [<-|Hin]; auto.
    + intros [<-|Hin]; auto. destruct (IH x Hin); auto.
Qed.

Lemma dict_set_keyed (k : string) (v : APIEndpoint) (d : dict string APIEndpoint) :
  handler_name v = k -> file_path v = "" ->
  keyed_by_handler d -> keyed_by_handler (dict_set k v d).
Proof.
  intros Hk Hf. induction d as [|[k' v'] d IH]; intros [Hnd Hall]; simpl.
  - split; [|repeat constructor; assumption].
    unfold dict_keys. simpl. apply NoDup_singleton.
  - change (dict_keys ((k', v') :: d)) with (k' :: dict_keys d) in Hnd.
    apply NoDup_cons in Hnd as [Hnotin Hnd].
    apply Forall_cons in Hall as [Hhead Hall].
    destruct (decide (k = k')) as [<-|Hne].
    + split; [|constructor; auto].
      change (NoDup (k :: dict_keys d)). apply NoDup_cons. auto.
    + destruct (IH (conj Hnd Hall)) as [Hnd' Hall'].
      split; [|constructor; auto].
      change (NoDup (k' :: dict_keys (dict_set k v d))). apply NoDup_cons.
      split; [|exact Hnd'].
      intros Hin. apply list_elem_of_In, dict_set_keys in Hin as [->|Hin];
        [now apply Hne|].
      apply Hnotin. now apply list_elem_of_In.
Qed.

Lemma dict_get_keyed (k : string) (e : APIEndpoint) (d : dict string APIEndpoint) :
  keyed_by_handler d -> dict_get k d = Some e ->
  handler_name e = k /\ file_path e = "".
Proof.
  intros [_ Hall]. induction d as [|[k' v'] d IH]; simpl; [discriminate|].
  apply Forall_cons in Hall as [Hhead Hall].
  destruct (decide (k = k')) as [<-|Hne]; [|now apply IH].
  intros [= <-]. exact Hhead.
Qed.

Lemma apply_decorator_captures_keeps (self : Analyzer) (decorator_node : Node)
    (captures : list (Node * string)) :
  forall endpoint,
    handler_name (apply_decorator_captures self decorator_node captures endpoint)
      = handler_name endpoint
    /\ file_path (apply_decorator_captures self decorator_node captures endpoint)
       = file_path endpoint.
Proof.
  unfold apply_decorator_captures.
  induction captures as [|[n label] captures IH]; intros endpoint; simpl; [auto|].
  match goal with |- context [fold_left _ captures ?e] => destruct (IH e) as [-> ->] end.
  destruct (walk_up _ n); [|auto].
  destruct (PyStr.eqb label "method"); [auto|].
  destruct (PyStr.eqb label "path"); auto.
Qed.

Lemma keyed_values (d : dict string APIEndpoint) :
  keyed_by_handler d ->
  NoDup (map handler_name (dict_values d))
  /\ Forall (fun e => file_path e = "") (dict_values d).
Proof.
  intros [Hnd Hall].
  assert (Hkeys : map handler_name (dict_values d) = dict_keys d
                  /\ Forall (fun e => file_path e = "") (dict_values d)).
  { clear Hnd. unfold dict_values, dict_keys.
    induction d as [|[k v] d IH]; simpl; [split; [reflexivity|constructor]|].
    apply Forall_cons in Hall as [[Hk Hf] Hall]. simpl in Hk, Hf.
    destruct (IH Hall) as [IH1 IH2]. rewrite Hk, IH1. split; [reflexivity|].
    constructor; assumption. }
  destruct Hkeys as [-> Hblank]. auto.
Qed.

Lemma wp_python_analyze (self : Analyzer) :
  wp (python_analyze self)
     (fun r => forall eps, r = Returns eps ->
        NoDup (map handler_name eps) /\ Forall (fun e => file_path e = "") eps).
Proof.
  unfold python_analyze, _query. apply wp_bind, wp_execute_query.
  apply wp_seq with (P := fun st => keyed_by_handler (fst st)).
  - apply wp_foldM; [|split; constructor].
    intros [endpoints_map processed] capture Hinv _. simpl in Hinv.
    unfold python_analyze_body.
    destruct (walk_up _ (fst capture)) as [decorator_node|];
      [|apply wp_ret; now intros st [= <-]].
    destruct (bool_decide _); [apply wp_ret; now intros st [= <-]|].
    destruct (parent decorator_node) as [endpoint_node|];
      [|apply wp_raise; now intros st [=]].
    destruct (decorated_function endpoint_node) as [function_node|];
      [|apply wp_ret; now intros st [= <-]].
    destruct (child_by_field_name "name" function_node) as [handler_name_node|];
      [|apply wp_ret; now intros st [= <-]].
    apply wp_seq with (P := keyed_by_handler).
    + destruct (dict_mem _ endpoints_map); [apply wp_ret; now intros m [= <-]|].
      apply wp_bind.
      eapply wp_mono; [apply stable_wp, stable_parse_python_parameters|].
      intros [parameters|e] _; [|now intros m [=]].
      apply wp_ret. intros m [= <-]. now apply dict_set_keyed.
    + intros endpoints_map' Hinv'.
      destruct (dict_get _ endpoints_map') as [endpoint|] eqn:Hget;
        [|apply wp_raise; now intros st [=]].
      apply wp_bind, wp_execute_query, wp_ret. intros st [= <-]. simpl.
      destruct (dict_get_keyed _ _ _ Hinv' Hget) as [Hname Hblank].
      destruct (apply_decorator_captures_keeps self decorator_node
                  (ts_captures (get_language (language_name self))
                               python_decorator_query (root_node self))
                  endpoint) as [Hn Hf].
      apply dict_set_keyed; [congruence | congruence | exact Hinv'].
    + now intros e st [=].
  - intros st Hst. apply wp_ret. intros eps [= <-]. now apply keyed_values.
  - now intros e eps [=].
Qed.

(** The Python analyzer never returns two endpoints of the same handler
    name: [endpoints_map] is keyed by the handler name, so the decorators of
    one function share one endpoint. *)
Lemma python_handlers_distinct (self : Analyzer) (c : gmap string Language)
    (eps : list APIEndpoint) :
  cache_ok c ->
  fst (python_analyze self c) = Returns eps ->
  NoDup (map handler_name eps).
Proof.
  intros Hc Hrun. now destruct (wp_run _ _ c (wp_python_analyze self) Hc eps Hrun).
Qed.

(** ** The file path is left blank *)

Lemma wp_node_analyze_blank (self : Analyzer) :
  wp (node_analyze self)
     (fun r => forall eps, r = Returns eps -> Forall (fun e => file_path e = "") eps).
Proof.
  unfold node_analyze, _query. apply wp_bind, wp_execute_query.
  apply wp_foldM; [|constructor].
  intros endpoints [key data] Hinv _. unfold node_analyze_body. cbv beta zeta. cbn [snd].
  destruct (dict_get "endpoint_node" data); [|apply wp_raise; now intros eps [=]].
  destruct (dict_get "method" data); [|apply wp_ret; now intros eps [= <-]].
  destruct (dict_get "args" data); [|apply wp_ret; now intros eps [= <-]].
  destruct (PyStr.eqb _ ""); [apply wp_ret; now intros eps [= <-]|].
  apply wp_bind.
  eapply wp_mono; [apply stable_wp, stable_parse_node_parameters|].
  intros [parameters|e] _; [|now intros eps [=]].
  apply wp_ret. intros eps [= <-]. apply Forall_app. split; [exact Hinv|].
  repeat constructor.
Qed.

(** Whatever the analyzer, the endpoints it returns have an empty
    [file_path]. *)
Lemma analyze_file_path_blank (self : Analyzer) (c : gmap string Language)
    (eps : list APIEndpoint) :
  cache_ok c ->
  fst (analyze self c) = Returns eps ->
  Forall (fun e => file_path e = "") eps.
Proof.
  intros Hc. unfold analyze. destruct (cls self); intros Hrun.
  - now destruct (wp_run _ _ c (wp_python_analyze self) Hc eps Hrun).
  - exact (wp_run _ _ c (wp_java_analyze self) Hc eps Hrun).
  - exact (wp_run _ _ c (wp_node_analyze_blank self) Hc eps Hrun).
Qed.

(** No analyzer is registered for a language other than the four below:
    [get_analyzer] returns [None] and the core yields no endpoint
    sequence. *)
Lemma analyze_source_unregistered (lang source : string) (c : gmap string Language) :
  ~ In lang ["python"; "java"; "javascript"; "typescript"] ->
  analyze_source lang source c = (Returns None, c).
Proof.
  intros Hlang. unfold analyze_source, get_analyzer.
  assert (Hne : forall l, In l ["python"; "java"; "javascript"; "typescript"] ->
                          PyStr.eqb lang l = false).
  { intros l Hl. apply eqb_false. intros ->. now apply Hlang. }
  rewrite !Hne by (simpl; tauto). reflexivity.
Qed.

End PythonProperties.

(** ** The analyzers on the examples *)

Section Examples.

(** The examples run with the engine [TS.captures] (no capture for the
    parameter query of python.py) and the listing order [elements_order]. *)
#[local] Instance example_library : TreeSitter := ts_model no_captures.
#[local] Instance example_sets : SetOrder := elements_order.
#[local] Instance example_python : Interpreter := example_interpreter.


(** The engine [TS.captures] yields the labels of the route query only. *)
Lemma ts_route_labels_ok (python_params : Node -> list (Node * string))
    (self : Analyzer) :
  @route_labels_ok (ts_model python_params) self.
Proof.
  intros node capture Hin. unfold captures_of in Hin. simpl in Hin.
  apply in_flat_map in Hin as (n & _ & Hin).
  unfold TS.route_call_match in Hin.
  destruct (PyStr.eqb (ntype n) "call_expression"); [|destruct Hin].
  destruct (TS.field_child "function" "member_expression" n) as [f|]; [|destruct Hin].
  destruct (TS.field_child "arguments" "arguments" n) as [args|]; [|destruct Hin].
  destruct (TS.field_child "object" "identifier" f) as [obj|]; [|destruct Hin].
  destruct (TS.field_child "property" "property_identifier" f) as [prop|];
    [|destruct Hin].
  destruct (_ && _); [|destruct Hin].
  unfold route_labels. simpl in Hin.
  destruct Hin as [<-|[<-|[<-|[<-|[]]]]]; simpl; tauto.
Qed.

(** C1.  On a function with the two decorators [@app.get("/items/{id}")] and
    [@app.post("/items/{id}")], the Python analyzer returns no endpoint at
    all: the parent of a decorator is a [decorated_definition] and the
    parent of that node is the module, so the test for a
    [function_definition] fails and both decorators are skipped.  (Whatever
    the tree, [python_handlers_distinct] shows that two endpoints of one
    handler name are never returned.) *)
Theorem two_decorators_no_endpoint (python_params : Node -> list (Node * string)) :
  run python_params "python" py_items_src = Returns (Some []).
Proof. vm_compute. reflexivity. Qed.

(** C2.  With the base path "/api/" and the method path "/users/" the path
    of the endpoint is "/api//users": [replace] passes once over the three
    slashes of "/api///users/" and leaves two.  An empty base path and an
    empty method path give "/". *)
Theorem three_slashes_leave_two :
  endpoint_path "/api/" "/users/" = "/api//users"
  /\ map path (endpoints_of "java" java_slashes_src) = ["/api//users"]
  /\ endpoint_path "" "" = "/".
Proof. repeat split; vm_compute; reflexivity. Qed.

(** C3.  On [router.get('/users/:id', (req,res)=>{ req.query.sort;
    req.body; })] the Node.js analyzer returns one endpoint with the path
    "/users/:id" and two parameters: the required Path parameter "id" and
    the optional Body parameter "body".  There is no Query parameter "sort":
    the handler is scanned with the route query, none of whose labels the
    scan reads. *)
Theorem users_route_has_two_parameters :
  run no_captures "javascript" js_users_src
  = Returns (Some [mkEndpoint "" "anonymous_handler_L1" "GET" "/users/:id" 1
                              js_users_src
                              [mkParam "id" PATH "Any" true;
                               mkParam "body" BODY "Object" false]
                              []]).
Proof. vm_compute. reflexivity. Qed.

(** C9.  For the registered language "java" and a source in Latin-1 whose
    path literal holds a byte that is not UTF-8, the core raises
    UnicodeDecodeError and returns no endpoint sequence:
    [_collect_string_literals] decodes the literal strictly. *)
Theorem latin1_literal_raises :
  run no_captures "java" java_latin1_src = Raises UnicodeDecodeError.
Proof. vm_compute. reflexivity. Qed.

(** *** C4 *)

(** The class [@RequestMapping("/api")] with the method
    [@GetMapping({"/a","/b"})]: two endpoints, "/api/a" and "/api/b". *)
Example two_paths_both_get :
  map (fun e => (http_method e, path e)) (endpoints_of "java" java_ab_src)
  = [("GET", "/api/a"); ("GET", "/api/b")].
Proof. vm_compute. reflexivity. Qed.

(** *** C5 *)

(** The example with [@PreAuthorize] on the class and [@RolesAllowed] on
    the method: the endpoint has both names. *)
Example auth_example_has_both_names :
  let self := analyzer_on JavaAnalyzer "java" java_auth_src in
  auth_annotations_spec self (the_node "class_declaration" (root_node self))
    = ["PreAuthorize"]
  /\ auth_annotations_spec self (the_node "method_declaration" (root_node self))
     = ["RolesAllowed"]
  /\ Forall (fun e => In "PreAuthorize" (auth_mechanisms e)
                      /\ In "RolesAllowed" (auth_mechanisms e)
                      /\ length (auth_mechanisms e) = 2)
            (endpoints_of "java" java_auth_src)
  /\ length (endpoints_of "java" java_auth_src) = 1.
Proof.
  intros self. split; [vm_compute; reflexivity|]. split; [vm_compute; reflexivity|].
  split; [|vm_compute; reflexivity].
  vm_compute. constructor; [|constructor]. repeat split; auto.
Qed.

(** *** C6 *)

(** The claim fails on a method with two bare [@Parameter] markers: its
    parameter list ends with two synthetic entries, not one. *)
Lemma two_markers_two_entries :
  let self := analyzer_on JavaAnalyzer "java" java_swagger_src in
  let modifiers := the_child "modifiers" (the_node "method_declaration" (root_node self)) in
  parameter_occurrences self modifiers = 2
  /\ map parameters (endpoints_of "java" java_swagger_src)
     = [[mkParam "q" BODY "String" true;
         mkParam "swagger_param" QUERY "" false;
         mkParam "swagger_param" QUERY "" false]]
  /\ ~ Forall (fun e => length (List.filter
                                  (fun p => bool_decide (p = swagger_param))
                                  (parameters e)) = 1)
              (endpoints_of "java" java_swagger_src).
Proof.
  intros self modifiers.
  split; [vm_compute; reflexivity|]. split; [vm_compute; reflexivity|].
  intros Hall. vm_compute in Hall. inversion Hall as [|e l Hone _]. discriminate.
Qed.

(** A method with one bare [@Parameter] marker and a [@RequestParam]
    parameter. *)
Lemma one_marker_one_entry :
  let self := analyzer_on JavaAnalyzer "java" java_swagger1_src in
  let method_node := the_node "method_declaration" (root_node self) in
  let modifiers := the_child "modifiers" method_node in
  let params_node := the_field "parameters" method_node in
  cache_ok ∅
  /\ first_child_of_type "modifiers" method_node = Some modifiers
  /\ fst (_parse_java_parameters self (Some params_node)
            method_node ∅)
     = Returns (formal_parameters_of self params_node
                ++ repeat (mkParam "swagger_param" QUERY "" false)
                          (parameter_occurrences self modifiers))
  /\ ~ In (mkParam "swagger_param" QUERY "" false)
          (formal_parameters_of self params_node).
Proof.
  intros self method_node modifiers params_node.
  assert (H0 : cache_ok ∅) by apply cache_ok_empty.
  assert (H1 : first_child_of_type "modifiers" method_node = Some modifiers)
    by (vm_compute; reflexivity).
  split; [exact H0|]. split; [exact H1|].
  exact (swagger_param_per_occurrence self params_node
           method_node modifiers ∅ H0 H1).
Defined.

Example one_marker_parameters :
  map parameters (endpoints_of "java" java_swagger1_src)
  = [[mkParam "q" QUERY "String" true; mkParam "swagger_param" QUERY "" false]].
Proof. vm_compute. reflexivity. Qed.

(** *** C8 *)



Example named_route_endpoint :
  map (fun e => (handler_name e, http_method e, path e))
      (endpoints_of "javascript" js_named_src)
  = [("handler", "GET", "/users")]
  /\ endpoints_of "javascript" js_nopath_src = [].
Proof. split; vm_compute; reflexivity. Qed.

(** *** C10 *)



Example path_only_endpoint :
  map (fun e => (handler_name e, http_method e, path e, parameters e))
      (endpoints_of "javascript" js_path_only_src)
  = [("unknown_handler", "GET", "/users/:id", [])].
Proof. vm_compute. reflexivity. Qed.

End Examples.

(** ** Python string operations on examples *)

Example strip_quotes :
  PyStr.strip PyStr.dquote (PyStr.dquote +:+ "/api" +:+ PyStr.dquote) = "/api".
Proof. reflexivity. Qed.

Example replace_once : PyStr.replace "//" "/" "a///b" = "a//b".
Proof. reflexivity. Qed.

Example split_path : PyStr.split "/" "/users/:id" = [""; "users"; ":id"].
Proof. reflexivity. Qed.

Example decode_latin1 :
  PyStr.decode_strict ("caf" +:+ String (ascii_of_nat 233) "") = None
  /\ PyStr.decode_ignore ("caf" +:+ String (ascii_of_nat 233) "") = "caf".
Proof. split; reflexivity. Qed.

Example str_of_nat_12 : PyStr.str_of_nat 120 = "120".
Proof. reflexivity. Qed.

(** * Further properties of the code *)

(** ** Dictionaries *)

Section DictFacts.
Context {K V : Type} `{EqDecision K}.

Lemma dict_get_set_eq (k : K) (v : V) (d : dict K V) :
  dict_get k (dict_set k v d) = Some v.
Proof.
  induction d as [|[k' v'] d IH]; simpl.
  - now rewrite decide_True.
  - destruct (decide (k = k')) as [<-|Hne]; simpl.
    + now rewrite decide_True.
    + now rewrite decide_False.
Qed.

Lemma dict_get_set_ne (k k' : K) (v : V) (d : dict K V) :
  k' <> k -> dict_get k' (dict_set k v d) = dict_get k' d.
Proof.
  intros Hne. induction d as [|[k0 v0] d IH]; simpl.
  - now rewrite decide_False.
  - destruct (decide (k = k0)) as [<-|Hne0]; simpl.
    + now rewrite !decide_False.
    + destruct (decide (k' = k0)); [reflexivity | exact IH].
Qed.

Lemma dict_get_In (k : K) (v : V) (d : dict K V) :
  dict_get k d = Some v -> In (k, v) d.
Proof.
  induction d as [|[k' v'] d IH]; simpl; [discriminate|].
  destruct (decide (k = k')) as [<-|Hne].
  - intros [= <-]. now left.
  - intros Hget. right. now apply IH.
Qed.

Lemma dict_set_In (k : K) (v : V) (d : dict K V) (kv : K * V) :
  In kv (dict_set k v d) -> kv = (k, v) \/ In kv d.
Proof.
  induction d as [|[k' v'] d IH]; simpl.
  - intros [<-|[]]. now left.
  - destruct (decide (k = k')) as [<-|Hne]; simpl.
    + intros [<-|Hin]; auto.
    + intros [<-|Hin]; auto. destruct (IH Hin); auto.
Qed.

Lemma dict_set_NoDup (k : K) (v : V) (d : dict K V) :
  NoDup (dict_keys d) -> NoDup (dict_keys (dict_set k v d)).
Proof.
  induction d as [|[k' v'] d IH]; simpl; intros Hnd.
  - apply NoDup_singleton.
  - apply NoDup_cons in Hnd as [Hnotin Hnd].
    destruct (decide (k = k')) as [<-|Hne]; simpl.
    + apply NoDup_cons. auto.
    + apply NoDup_cons. split; [|now apply IH].
      intros Hin. apply list_elem_of_In, in_map_iff in Hin as ([k0 v0] & Hk & Hin).
      simpl in Hk. subst k0.
      apply dict_set_In in Hin as [[= ->]|Hin]; [now apply Hne|].
      apply Hnotin, list_elem_of_In, in_map_iff. now exists (k', v0).
Qed.

Lemma dict_In_get (k : K) (v : V) (d : dict K V) :
  NoDup (dict_keys d) -> In (k, v) d -> dict_get k d = Some v.
Proof.
  induction d as [|[k' v'] d IH]; simpl; intros Hnd; [intros []|].
  apply NoDup_cons in Hnd as [Hnotin Hnd].
  intros [[= -> ->]|Hin].
  - now rewrite decide_True.
  - destruct (decide (k = k')) as [<-|Hne]; [|now apply IH].
    exfalso. apply Hnotin, list_elem_of_In, in_map_iff. now exists (k, v).
Qed.

Lemma dict_set_Forall (P : K * V -> Prop) (k : K) (v : V) (d : dict K V) :
  P (k, v) -> Forall P d -> Forall P (dict_set k v d).
Proof.
  intros Hv Hall. apply List.Forall_forall. intros kv Hin.
  apply dict_set_In in Hin as [->|Hin]; [exact Hv|].
  rewrite List.Forall_forall in Hall. now apply Hall.
Qed.

End DictFacts.

(** ** The capture correlator *)

(** The capture that a group holds under a label: the last capture of the
    label whose boundary node starts at the key of the group. *)
Lemma find_app {A : Type} (f : A -> bool) (l1 l2 : list A) :
  find f (l1 ++ l2) = match find f l1 with Some x => Some x | None => find f l2 end.
Proof.
  induction l1 as [|a l1 IH]; simpl; [reflexivity|]. now destruct (f a).
Qed.

Lemma group_captures_lookup (boundary : Node -> option Node)
    (captures : list (Node * string)) (key : nat) (label : string) :
  group_lookup key label (group_captures boundary captures)
  = option_map fst (last_capture boundary key label captures).
Proof.
  unfold group_captures, last_capture.
  assert (Hgen : forall groups,
    group_lookup key label
      (fold_left
         (fun groups '(node, name) =>
            match boundary node with
            | Some b =>
                let data := default [] (dict_get (start_byte b) groups) in
                dict_set (start_byte b) (dict_set name node data) groups
            | None => groups
            end) captures groups)
    = match find (capture_at boundary key label) (rev captures) with
      | Some capture => Some (fst capture)
      | None => group_lookup key label groups
      end).
  { induction captures as [|[node name] captures IH]; intros groups; [reflexivity|].
    simpl fold_left. rewrite IH. simpl rev. rewrite find_app.
    destruct (find _ (rev captures)) as [capture|]; [reflexivity|].
    cbn [find]. unfold capture_at. cbn [fst snd].
    destruct (boundary node) as [b|]; [|now rewrite andb_false_r].
    unfold group_lookup. cbv zeta.
    destruct (Nat.eqb_spec (start_byte b) key) as [<-|Hkey].
    - rewrite dict_get_set_eq, andb_true_r.
      destruct (PyStr.eqb name label) eqn:Hname.
      + apply eqb_true in Hname. subst name. now rewrite dict_get_set_eq.
      + apply eqb_false in Hname. rewrite dict_get_set_ne by congruence.
        unfold dict. now destruct (dict_get (start_byte b) groups).
    - rewrite andb_false_r, dict_get_set_ne by congruence. reflexivity. }
  rewrite Hgen. now destruct (find _ _).
Qed.

Lemma group_captures_NoDup (boundary : Node -> option Node)
    (captures : list (Node * string)) :
  NoDup (dict_keys (group_captures boundary captures)).
Proof.
  unfold group_captures.
  assert (Hgen : forall groups : dict nat (dict string Node),
    NoDup (dict_keys groups) ->
    NoDup (dict_keys
      (fold_left
         (fun groups '(node, name) =>
            match boundary node with
            | Some b =>
                let data := default [] (dict_get (start_byte b) groups) in
                dict_set (start_byte b) (dict_set name node data) groups
            | None => groups
            end) captures groups))).
  { induction captures as [|[node name] captures IH]; intros groups Hnd; [exact Hnd|].
    simpl. apply IH. destruct (boundary node); [|exact Hnd]. now apply dict_set_NoDup. }
  apply Hgen. constructor.
Qed.

(** Where an entry of a group comes from. *)
Lemma group_captures_origin (boundary : Node -> option Node)
    (captures : list (Node * string)) (key : nat) (data : dict string Node)
    (label : string) (node : Node) :
  In (key, data) (group_captures boundary captures) ->
  dict_get label data = Some node ->
  In (node, label) captures
  /\ exists b, boundary node = Some b /\ start_byte b = key.
Proof.
  intros Hin Hget.
  pose proof (group_captures_lookup boundary captures key label) as Hl.
  unfold group_lookup in Hl.
  rewrite (dict_In_get _ _ _ (group_captures_NoDup boundary captures) Hin), Hget in Hl.
  unfold last_capture in Hl.
  destruct (find _ _) as [[n l]|] eqn:Hfind; [|discriminate].
  simpl in Hl. injection Hl as ->.
  apply find_some in Hfind as [Hin' Htest]. apply in_rev in Hin'.
  unfold capture_at in Htest. cbn [fst snd] in Htest.
  apply andb_prop in Htest as [Hlabel Hb].
  apply eqb_true in Hlabel. subst l. split; [exact Hin'|].
  destruct (boundary n) as [b|]; [|discriminate].
  exists b. split; [reflexivity|]. now apply Nat.eqb_eq.
Qed.

(** X1.  The correlation loop of the Java analyzer (java.py writes it out
    three times) builds one group per start byte of a boundary node; under a
    label a group holds the last capture of that label whose boundary node
    starts at the key of the group, and nothing else: every entry of a
    group is a capture of the query, filed under its own label and under the
    start byte of its boundary node. *)
Theorem captures_grouped_by_boundary (boundary : Node -> option Node)
    (captures : list (Node * string)) :
  NoDup (dict_keys (group_captures boundary captures))
  /\ (forall key label,
        group_lookup key label (group_captures boundary captures)
        = option_map fst (last_capture boundary key label captures))
  /\ (forall key data label node,
        In (key, data) (group_captures boundary captures) ->
        dict_get label data = Some node ->
        In (node, label) captures
        /\ exists b, boundary node = Some b /\ start_byte b = key).
Proof.
  split; [apply group_captures_NoDup|]. split.
  - intros key label. apply group_captures_lookup.
  - intros key data label node. apply group_captures_origin.
Qed.

(** ** Outcomes *)

Section OutcomeLogic.
Context `{TreeSitter}.

Lemma wp_foldM_outcome {A B : Type} (body : B -> A -> M (gmap string Language) B)
    (I : B -> Prop) (E : exn -> Prop) (l : list A) :
  (forall b a, I b -> In a l -> wp (body b a) (outcome I E)) ->
  forall b, I b -> wp (foldM body l b) (outcome I E).
Proof.
  induction l as [|a l IH]; intros Hbody b Hb; simpl.
  - now apply wp_ret.
  - apply wp_bind. eapply wp_mono; [apply (Hbody b a Hb); now left|].
    intros [b1|e] Hr; simpl in *; [|exact Hr].
    apply IH; [|exact Hr]. intros b2 a2 Hb2 Ha2.
    apply Hbody; [exact Hb2 | now right].
Qed.

Lemma wp_bind_outcome {A B : Type} (m : M (gmap string Language) A)
    (f : A -> M (gmap string Language) B) (P : A -> Prop) (I : B -> Prop)
    (E : exn -> Prop) :
  wp m (outcome P E) ->
  (forall a, P a -> wp (f a) (outcome I E)) ->
  wp (bind m f) (outcome I E).
Proof.
  intros Hm Hf. apply wp_bind. eapply wp_mono; [exact Hm|].
  intros [a|e] Hr; simpl in *; [now apply Hf | exact Hr].
Qed.

End OutcomeLogic.

(** ** String literals under a node *)

(** What the collector returns, when it returns. *)
Lemma collect_string_literals_tree_returns (buffer : string) :
  forall depth t literals,
    collect_string_literals_tree depth buffer t = Returns literals ->
    literals = literal_texts buffer t
    /\ forallb (fun l => well_formed (tree_text buffer l)) (string_literals t) = true.
Proof.
  unfold literal_texts.
  induction depth as [|depth IH]; intros [k f nm s e r cs] literals; [discriminate|].
  cbn [collect_string_literals_tree string_literals t_kind t_children t_start t_end].
  destruct (PyStr.eqb k "string_literal").
  - cbn [forallb map]. unfold tree_text, well_formed, PyStr.decode_strict.
    cbn [t_start t_end]. rewrite andb_true_r.
    destruct (PyStr.decode_strict_from 0 _); [|discriminate].
    intros [= <-]. auto.
  - revert literals. induction cs as [|c cs IHcs]; intros literals.
    + intros [= <-]. auto.
    + destruct (collect_string_literals_tree depth buffer c) as [ls|e'] eqn:Hc;
        [|discriminate].
      cbn [rbind].
      match goal with
      | |- rbind ?g _ = _ -> _ => destruct g as [ls'|e'] eqn:Hrest; [|discriminate]
      end.
      cbn [rbind]. intros [= <-].
      destruct (IH c ls Hc) as [-> Hwf]. destruct (IHcs ls' eq_refl) as [-> Hwf'].
      rewrite map_app, forallb_app, Hwf, Hwf'. auto.
Qed.

(** The exceptions of the collector. *)
Lemma collect_string_literals_tree_raises (buffer : string) :
  forall depth t e,
    collect_string_literals_tree depth buffer t = Raises e -> java_exception e.
Proof.
  unfold java_exception.
  induction depth as [|depth IH]; intros [k f nm s e0 r cs] e; [intros [= <-]; auto|].
  cbn [collect_string_literals_tree t_kind t_children t_start t_end].
  destruct (PyStr.eqb k "string_literal").
  - destruct (PyStr.decode_strict _); [discriminate|]. intros [= <-]. auto.
  - induction cs as [|c cs IHcs]; [discriminate|].
    destruct (collect_string_literals_tree depth buffer c) as [ls|e'] eqn:Hc.
    + cbn [rbind].
      match goal with
      | |- rbind ?g _ = _ -> _ => destruct g as [ls'|e''] eqn:Hrest
      end; cbn [rbind]; [discriminate|].
      intros [= <-]. now apply IHcs.
    + cbn [rbind]. intros [= <-]. now apply (IH c).
Qed.

(** With enough depth the collector returns the literals, or raises for one
    that is not well-formed. *)
Lemma collect_string_literals_tree_enough (buffer : string) :
  forall depth t,
    call_depth t <= depth ->
    collect_string_literals_tree depth buffer t
    = if forallb (fun l => well_formed (tree_text buffer l)) (string_literals t)
      then Returns (literal_texts buffer t)
      else Raises UnicodeDecodeError.
Proof.
  unfold literal_texts.
  induction depth as [|depth IH]; intros [k f nm s e r cs];
    cbn [call_depth t_kind t_children]; [lia|].
  intros Hdepth. apply le_S_n in Hdepth.
  cbn [collect_string_literals_tree string_literals t_kind t_children t_start t_end].
  destruct (PyStr.eqb k "string_literal").
  - cbn [forallb map]. unfold tree_text, well_formed, PyStr.decode_strict.
    cbn [t_start t_end]. rewrite andb_true_r.
    now destruct (PyStr.decode_strict_from 0 _).
  - induction cs as [|c cs IHcs]; [reflexivity|].
    rewrite (IH c) by lia. rewrite IHcs by lia.
    rewrite forallb_app, map_app.
    destruct (forallb _ (string_literals c)); [|reflexivity].
    cbn [rbind andb]. now destruct (forallb _ _).
Qed.

(** Without enough depth the collector raises. *)
Lemma collect_string_literals_tree_deep (buffer : string) :
  forall depth t,
    depth < call_depth t ->
    exists e, collect_string_literals_tree depth buffer t = Raises e.
Proof.
  induction depth as [|depth IH]; intros [k f nm s e r cs]; [now eexists|].
  cbn [call_depth collect_string_literals_tree t_kind t_children t_start t_end].
  intros Hdepth. apply Nat.succ_lt_mono in Hdepth.
  destruct (PyStr.eqb k "string_literal"); [lia|].
  induction cs as [|c cs IHcs]; [lia|].
  destruct (collect_string_literals_tree depth buffer c) as [ls|e'] eqn:Hc;
    [|now eexists].
  cbn [rbind].
  destruct (Nat.max_spec (call_depth c)
              ((fix go (cs0 : list Tree) : nat :=
                  match cs0 with
                  | [] => 0
                  | c0 :: cs' => Nat.max (call_depth c0) (go cs')
                  end) cs)) as [[_ Hmax]|[_ Hmax]]; rewrite Hmax in Hdepth.
  - destruct (IHcs Hdepth) as [e' ->]. now eexists.
  - destruct (IH c Hdepth) as [e' He']. congruence.
Qed.

Lemma lstrip_head (chars s : string) (c : ascii) (r : string) :
  PyStr.lstrip chars s = String c r -> PyStr.mem_char c chars = false.
Proof.
  induction s as [|a s IH]; simpl; [discriminate|].
  destruct (PyStr.mem_char a chars) eqn:Ha; [exact IH|].
  intros [= <- _]. exact Ha.
Qed.

Lemma rstrip_last (chars s p : string) (c : ascii) :
  PyStr.rstrip chars s = p +:+ String c EmptyString -> PyStr.mem_char c chars = false.
Proof.
  revert p. induction s as [|a s IH]; intros p; simpl.
  - destruct p; discriminate.
  - destruct (PyStr.rstrip chars s) as [|b r'] eqn:Hr.
    + destruct (PyStr.mem_char a chars) eqn:Ha; [destruct p; discriminate|].
      destruct p as [|x p]; simpl; [now intros [= <-]|].
      intros [= _ Hp]. destruct p; discriminate.
    + destruct p as [|x p]; simpl; [discriminate|].
      intros [= _ Hp]. now apply (IH p).
Qed.

Lemma rstrip_head (chars s : string) (c : ascii) :
  PyStr.mem_char c chars = false ->
  PyStr.rstrip chars (String c s) = String c (PyStr.rstrip chars s).
Proof.
  intros Hc. simpl. rewrite Hc. now destruct (PyStr.rstrip chars s).
Qed.

(** X2.  On a node whose tree is not deeper than the recursion the
    interpreter still allows, [_collect_string_literals] returns the texts of
    the string literals under the node, in document order and without
    looking inside a literal, each stripped of the double quotes around it,
    provided each of them is well-formed UTF-8, and raises UnicodeDecodeError
    if one of them is not.  On a deeper tree it raises.  Whatever the tree:
    when it returns, it returns these texts, none of which starts or ends
    with a double quote; when it raises, the exception is UnicodeDecodeError
    or RecursionError. *)
Theorem literals_are_collected_in_order `{Interpreter} (node : Node) :
  (call_depth (n_tree node) <= recursion_budget ->
   _collect_string_literals (Some node)
   = if forallb (fun l => well_formed (tree_text (n_buffer node) l))
                (string_literals (n_tree node))
     then Returns (literal_texts (n_buffer node) (n_tree node))
     else Raises UnicodeDecodeError)
  /\ (recursion_budget < call_depth (n_tree node) ->
      exists e, _collect_string_literals (Some node) = Raises e)
  /\ (forall literals,
        _collect_string_literals (Some node) = Returns literals ->
        literals = literal_texts (n_buffer node) (n_tree node)
        /\ forall literal, In literal literals ->
             PyStr.startswith PyStr.dquote literal = false
             /\ forall p, literal <> p +:+ PyStr.dquote)
  /\ (forall e,
        _collect_string_literals (Some node) = Raises e ->
        e = UnicodeDecodeError \/ e = RecursionError).
Proof.
  unfold _collect_string_literals.
  split; [|split; [|split]].
  - intros Hdepth. destruct recursion_budget as [|budget] eqn:Hb.
    + destruct (n_tree node). cbn [call_depth] in Hdepth. lia.
    + rewrite <- Hb in *. now apply collect_string_literals_tree_enough.
  - intros Hdepth. destruct recursion_budget as [|budget] eqn:Hb; [now eexists|].
    rewrite <- Hb in *. now apply collect_string_literals_tree_deep.
  - intros literals Hrun.
    assert (Hlit : literals = literal_texts (n_buffer node) (n_tree node)).
    { destruct recursion_budget; [discriminate|].
      now apply collect_string_literals_tree_returns in Hrun. }
    split; [exact Hlit|]. subst literals. clear Hrun.
    intros literal Hin. apply in_map_iff in Hin as (l & <- & _).
    set (s := tree_text (n_buffer node) l). split.
    + unfold PyStr.strip.
      destruct (PyStr.lstrip PyStr.dquote s) as [|c r] eqn:Hl; [reflexivity|].
      pose proof (lstrip_head _ _ _ _ Hl) as Hc.
      rewrite rstrip_head by exact Hc.
      unfold PyStr.dquote in *. cbn [PyStr.mem_char] in Hc. cbn [PyStr.startswith].
      rewrite orb_false_r in Hc. rewrite Ascii.eqb_sym, Hc. reflexivity.
    + intros p Hp. unfold PyStr.strip in Hp. apply rstrip_last in Hp.
      vm_compute in Hp. discriminate.
  - intros e Hrun. destruct recursion_budget; [injection Hrun as <-; now right|].
    now apply collect_string_literals_tree_raises in Hrun.
Qed.
(** ** The Java analyzer: shape of the endpoints *)

Lemma in_list_In (x : string) (xs : list string) :
  PyStr.in_list x xs = true <-> In x xs.
Proof.
  unfold PyStr.in_list. rewrite existsb_exists. split.
  - intros (y & Hin & Heq). apply eqb_true in Heq. now subst y.
  - intros Hin. exists x. split; [exact Hin | now apply eqb_true].
Qed.

Lemma endpoint_path_shape (base_path path : string) :
  endpoint_path base_path path = "/" \/ no_trailing_slash (endpoint_path base_path path).
Proof.
  unfold endpoint_path, full_path.
  destruct (PyStr.rstrip "/" _) as [|c r] eqn:Hr; [now left|].
  right. split; [discriminate|].
  intros q Hq. rewrite Hq in Hr. apply rstrip_last in Hr.
  vm_compute in Hr. discriminate.
Qed.

Section JavaShape.
Context `{TreeSitter} `{SetOrder} `{Interpreter}.

Lemma collect_string_literals_raises (node : option Node) (e : exn) :
  _collect_string_literals node = Raises e -> java_exception e.
Proof.
  unfold _collect_string_literals.
  destruct recursion_budget as [|budget]; [intros [= <-]; now right|].
  destruct node as [n|]; [|discriminate].
  apply collect_string_literals_tree_raises.
Qed.

Lemma collect_string_literals_returns (node : Node) (literals : list string) :
  _collect_string_literals (Some node) = Returns literals ->
  literals = literal_texts (n_buffer node) (n_tree node).
Proof.
  unfold _collect_string_literals. destruct recursion_budget; [discriminate|].
  intros Hrun. now apply collect_string_literals_tree_returns in Hrun.
Qed.

Lemma collect_paths_raises (method_type : string)
    (annot_list : list (string * option Node)) (e : exn) :
  collect_paths method_type annot_list = Raises e -> java_exception e.
Proof.
  induction annot_list as [|[annot_name args_node] rest IH]; cbn [collect_paths];
    [discriminate|].
  destruct (PyStr.in_list annot_name path_annotations); [|exact IH].
  destruct (_collect_string_literals args_node) as [literals|e'] eqn:Hl; simpl.
  - destruct (_ && _); [discriminate|].
    destruct (collect_paths method_type rest); simpl; [discriminate|].
    intros [= <-]. now apply IH.
  - intros [= <-]. now apply collect_string_literals_raises in Hl.
Qed.

Lemma base_path_of_raises (self : Analyzer) (datas : list (dict string Node)) (e : exn) :
  base_path_of self datas = Raises e -> java_exception e.
Proof.
  induction datas as [|data rest IH]; cbn [base_path_of]; [discriminate|].
  destruct (dict_get "anno_name" data); [|exact IH].
  destruct (PyStr.in_list _ _); [|exact IH].
  destruct (dict_get "args" data) as [args|]; [|exact IH].
  destruct (_collect_string_literals (Some args)) as [literals|e'] eqn:Hl; simpl;
    [discriminate|].
  intros [= <-]. now apply collect_string_literals_raises in Hl.
Qed.

Lemma method_mappings_verb (annot_name new_method : string) :
  dict_get annot_name method_mappings = Some new_method -> In new_method java_verbs.
Proof.
  unfold method_mappings, java_verbs. simpl.
  repeat (case_decide; [intros [= <-]; simpl; tauto|]). discriminate.
Qed.

Lemma scan_method_annotations_verb (self : Analyzer) (datas : list (dict string Node)) :
  In (snd (fst (scan_method_annotations self datas))) java_verbs.
Proof.
  unfold scan_method_annotations.
  assert (Hgen : forall acc : list (string * option Node) * string * bool,
            In (snd (fst acc)) java_verbs ->
            In (snd (fst
                  (fold_left
                     (fun '(annot_list, method_type, has_endpoint_annotation) data =>
                        match dict_get "method_annotation" data with
                        | Some an =>
                            let annot_name := _get_text self an in
                            let args_node := dict_get "annotation_args" data in
                            let annot_list := annot_list ++ [(annot_name, args_node)] in
                            let has_endpoint_annotation :=
                              has_endpoint_annotation
                              || PyStr.in_list annot_name path_annotations in
                            match dict_get annot_name method_mappings with
                            | Some new_method =>
                                (annot_list,
                                 if negb (PyStr.eqb new_method "ANY")
                                 then new_method else method_type,
                                 true)
                            | None => (annot_list, method_type, has_endpoint_annotation)
                            end
                        | None => (annot_list, method_type, has_endpoint_annotation)
                        end)
                     datas acc))) java_verbs).
  { induction datas as [|data datas IH]; intros [[al mt] has] Hacc; [exact Hacc|].
    cbn [fold_left]. apply IH. cbn [fst snd] in Hacc.
    destruct (dict_get "method_annotation" data) as [an|]; [|exact Hacc].
    cbv zeta.
    destruct (dict_get (_get_text self an) method_mappings) as [new_method|] eqn:Hm;
      [|exact Hacc].
    cbn [fst snd]. destruct (negb _); [|exact Hacc].
    now apply method_mappings_verb in Hm. }
  apply Hgen. simpl. tauto.
Qed.

Lemma auth_entries_names (self : Analyzer) (captures : list (Node * string))
    (x : string) :
  In x (auth_entries self captures) -> In x auth_names.
Proof.
  unfold auth_entries. intros Hin.
  apply in_flat_map in Hin as ([node label] & _ & Hin).
  destruct (PyStr.eqb label "auth_name" && _) eqn:Htest; [|destruct Hin].
  destruct Hin as [<-|[]]. apply andb_prop in Htest as [_ Htest].
  now apply in_list_In.
Qed.

Lemma auth_names_on_names (self : Analyzer) (node : Node) (x : string) :
  In x (auth_names_on self node) -> In x auth_names.
Proof.
  unfold auth_names_on. destruct (first_child_of_type "modifiers" node); [|intros []].
  apply auth_entries_names.
Qed.

Lemma swagger_entries_shape (self : Analyzer) (captures : list (Node * string)) :
  Forall (fun p => p = swagger_param) (swagger_entries self captures).
Proof.
  rewrite swagger_entries_repeat. apply List.Forall_forall.
  intros p Hin. now apply repeat_spec in Hin.
Qed.

Lemma java_parameters_of_shape (self : Analyzer) (params_node : option Node)
    (method_node : Node) :
  Forall (fun p => required p = true \/ p = swagger_param)
         (java_parameters_of self params_node method_node).
Proof.
  unfold java_parameters_of. destruct params_node as [pn|]; [|constructor].
  apply Forall_app. split.
  - eapply List.Forall_impl; [|apply java_formal_parameters_required]. intros p. now left.
  - destruct (first_child_of_type "modifiers" method_node); [|constructor].
    eapply List.Forall_impl; [|apply swagger_entries_shape]. intros p. now right.
Qed.

Lemma map_eq_Forall {A B C : Type} (f : A -> C) (g : B -> C) (l : list A) :
  forall l', map f l = map g l' -> Forall (fun a => exists b, f a = g b) l.
Proof.
  induction l as [|a l IH]; intros [|b l']; simpl; try discriminate; [constructor|].
  intros [= Ha Hl]. constructor; [now exists b | now apply (IH l')].
Qed.

Lemma wp_find_methods_body_shape (self : Analyzer) (base : string)
    (class_auth : list string) (endpoints : list APIEndpoint)
    (capture : Node * string) :
  Forall (fun a => In a auth_names) class_auth ->
  Forall java_endpoint_ok endpoints ->
  wp (find_methods_body self base class_auth endpoints capture)
     (outcome (Forall java_endpoint_ok) java_exception).
Proof.
  intros Hauth Hall. destruct capture as [method_node label].
  unfold find_methods_body. simpl fst.
  destruct (first_child_of_type "modifiers" method_node) as [modifiers|] eqn:Hm;
    [|now apply wp_ret].
  destruct (child_by_field_name "name" method_node) as [name_node|];
    [|now apply wp_ret].
  apply wp_bind, wp_execute_query.
  match goal with
  | |- context [scan_method_annotations self ?d] =>
      pose proof (scan_method_annotations_verb self d) as Hverb;
      destruct (scan_method_annotations self d) as [[annot_list method_type] has]
  end.
  simpl in Hverb.
  destruct has; simpl negb; cbv iota; [|now apply wp_ret].
  apply wp_bind, wp_lift.
  destruct (collect_paths method_type annot_list) as [paths|e] eqn:Hp;
    [|simpl; now apply collect_paths_raises in Hp].
  apply wp_bind. rewrite <- Hm. apply wp_find_auth_annotations.
  eapply wp_mono; [apply wp_emit_endpoints|].
  intros r (new & -> & Hpaths & Hnew). simpl.
  apply Forall_app. split; [exact Hall|].
  apply map_eq_Forall in Hpaths.
  rewrite List.Forall_forall in Hnew, Hpaths. apply List.Forall_forall.
  intros e Hin. destruct (Hpaths e Hin) as [p Hpath].
  destruct (Hnew e Hin) as (_ & _ & Hmethod & Hline & _ & Hparams & Hauths).
  unfold java_endpoint_ok. rewrite Hmethod, Hpath, Hline, Hparams, Hauths.
  split; [exact Hverb|]. split; [apply endpoint_path_shape|].
  split; [lia|]. split; [apply java_parameters_of_shape|].
  split; [apply list_of_set_NoDup|].
  apply List.Forall_forall. intros a Ha.
  rewrite list_of_set_In, in_app_iff, list_of_set_In in Ha. destruct Ha as [Ha|Ha].
  - rewrite List.Forall_forall in Hauth. now apply Hauth.
  - now apply auth_names_on_names in Ha.
Qed.

Lemma wp_java_analyze_shape (self : Analyzer) :
  wp (java_analyze self)
     (outcome (Forall java_endpoint_ok) java_exception).
Proof.
  unfold java_analyze, _query. apply wp_bind, wp_execute_query.
  apply wp_bind_outcome with (P := fun st => Forall java_endpoint_ok (fst st));
    [|intros st Hst; now apply wp_ret].
  apply wp_foldM_outcome; [|constructor].
  intros [endpoints processed] [class_node capture_name] Hinv _.
  simpl in Hinv. unfold java_analyze_body.
  destruct (PyStr.eqb capture_name "class_node" && _); [|now apply wp_ret].
  apply wp_bind_outcome with (P := fun _ => True).
  { unfold _find_class_base_path.
    destruct (first_child_of_type "modifiers" class_node); [|now apply wp_ret].
    apply wp_bind, wp_execute_query, wp_lift.
    destruct (base_path_of self _) as [base|e] eqn:Hb; [exact I|].
    simpl. now apply base_path_of_raises in Hb. }
  intros base_path _.
  apply wp_bind. unfold _find_class_auth. apply wp_find_auth_annotations.
  destruct (first_child_of_type "class_body" class_node) as [class_body|];
    [|now apply wp_ret].
  apply wp_bind_outcome with (P := Forall java_endpoint_ok).
  - unfold _find_methods. apply wp_bind, wp_execute_query.
    apply wp_foldM_outcome; [|constructor].
    intros eps capture Heps _. apply wp_find_methods_body_shape; [|exact Heps].
    apply List.Forall_forall. intros a Ha.
    rewrite list_of_set_In in Ha. now apply auth_names_on_names in Ha.
  - intros found Hfound. apply wp_ret. simpl. apply Forall_app. auto.
Qed.

(** X3.  Every endpoint the Java analyzer returns has one of the six verbs
    GET, POST, PUT, DELETE, PATCH and ANY; a path that is "/" or is not
    empty and does not end with a slash; a line number of at least 1;
    parameters that are required or are the synthetic "swagger_param"; and
    authorization names without duplicates, all among the eight names the
    analyzer knows. *)
Theorem java_endpoints_are_well_formed (self : Analyzer)
    (c : gmap string Language) (eps : list APIEndpoint) :
  cache_ok c ->
  fst (java_analyze self c) = Returns eps ->
  Forall java_endpoint_ok eps.
Proof.
  intros Hc Hrun. pose proof (wp_run _ _ c (wp_java_analyze_shape self) Hc) as Hout.
  rewrite Hrun in Hout. exact Hout.
Qed.

(** X4.  The Java analyzer raises two exceptions only: UnicodeDecodeError,
    from the strict decoding of a string literal, and RecursionError, from
    the recursion of [_collect_string_literals] on a deeply nested annotation
    argument.  No lookup of the analyzer can fail. *)
Theorem java_analyzer_exceptions (self : Analyzer)
    (c : gmap string Language) (e : exn) :
  cache_ok c ->
  fst (java_analyze self c) = Raises e ->
  e = UnicodeDecodeError \/ e = RecursionError.
Proof.
  intros Hc Hrun. pose proof (wp_run _ _ c (wp_java_analyze_shape self) Hc) as Hout.
  rewrite Hrun in Hout. exact Hout.
Qed.

End JavaShape.

(** *** Paths *)

Lemma replace_slashes_head (r : string) :
  exists r', PyStr.replace "//" "/" (String "/" r) = String "/" r'.
Proof.
  unfold PyStr.replace. cbn [PyStr.replace_from].
  destruct (PyStr.startswith "//" (String "/" r)); eexists; reflexivity.
Qed.

Lemma endpoint_path_absolute (r path : string) :
  PyStr.startswith "/" (endpoint_path (String "/" r) path) = true
  /\ PyStr.startswith "/" (endpoint_path "" path) = true.
Proof.
  assert (Hgen : forall s, PyStr.startswith "/"
            (match PyStr.rstrip "/" (PyStr.replace "//" "/" (String "/" s)) with
             | EmptyString => "/"
             | p => p
             end) = true).
  { intros s. destruct (replace_slashes_head s) as [r' ->].
    cbn [PyStr.rstrip]. destruct (PyStr.rstrip "/" r'); reflexivity. }
  split; apply Hgen.
Qed.

(** X5.  The path of an endpoint of the Java analyzer is never empty: it is
    "/" or it does not end with a slash, whatever the base path of the class
    and the path of the method are; and it starts with a slash when the
    class has no base path or a base path that starts with one. *)
Theorem endpoint_path_is_normalised_at_both_ends (base_path path : string) :
  (endpoint_path base_path path = "/" \/ no_trailing_slash (endpoint_path base_path path))
  /\ PyStr.startswith "/" (endpoint_path ("/" +:+ base_path) path) = true
  /\ PyStr.startswith "/" (endpoint_path "" path) = true.
Proof.
  split; [apply endpoint_path_shape|]. apply endpoint_path_absolute.
Qed.

(** *** Methods that are no endpoints *)

Section JavaSkipped.
Context `{TreeSitter} `{SetOrder} `{Interpreter}.

Lemma scan_method_annotations_none (self : Analyzer) (datas : list (dict string Node)) :
  (forall data an, In data datas -> dict_get "method_annotation" data = Some an ->
     is_endpoint_annotation (_get_text self an) = false) ->
  snd (scan_method_annotations self datas) = false.
Proof.
  unfold scan_method_annotations.
  assert (Hgen : forall acc : list (string * option Node) * string * bool,
            (forall data an, In data datas ->
               dict_get "method_annotation" data = Some an ->
               is_endpoint_annotation (_get_text self an) = false) ->
            snd acc = false ->
            snd (fold_left
                   (fun '(annot_list, method_type, has_endpoint_annotation) data =>
                      match dict_get "method_annotation" data with
                      | Some an =>
                          let annot_name := _get_text self an in
                          let args_node := dict_get "annotation_args" data in
                          let annot_list := annot_list ++ [(annot_name, args_node)] in
                          let has_endpoint_annotation :=
                            has_endpoint_annotation
                            || PyStr.in_list annot_name path_annotations in
                          match dict_get annot_name method_mappings with
                          | Some new_method =>
                              (annot_list,
                               if negb (PyStr.eqb new_method "ANY")
                               then new_method else method_type,
                               true)
                          | None => (annot_list, method_type, has_endpoint_annotation)
                          end
                      | None => (annot_list, method_type, has_endpoint_annotation)
                      end)
                   datas acc) = false).
  { induction datas as [|data datas IH]; intros [[al mt] has] Hnone Hacc; [exact Hacc|].
    cbn [fold_left]. cbn [snd] in Hacc. subst has.
    apply IH; [intros d an Hin; apply Hnone; now right|].
    destruct (dict_get "method_annotation" data) as [an|] eqn:Han; [|reflexivity].
    specialize (Hnone data an (or_introl eq_refl) Han).
    unfold is_endpoint_annotation, dict_mem in Hnone.
    apply orb_false_elim in Hnone as [Hpath Hmap]. cbv zeta.
    destruct (dict_get (_get_text self an) method_mappings); [discriminate|].
    cbn [snd]. now rewrite Hpath. }
  intros Hnone. now apply Hgen.
Qed.

(** X6.  A Java method contributes no endpoint when it has no modifiers,
    or no name, or when none of the annotations captured on its modifiers is
    an endpoint annotation (one of the seven path annotations or of the keys
    of the verb table), whatever else it carries: the loop of
    [_find_methods] leaves the endpoints as they are and does not raise. *)
Theorem method_without_endpoint_annotation_is_skipped (self : Analyzer)
    (base_path : string) (class_auth : list string) (endpoints : list APIEndpoint)
    (method_node : Node) (label : string) (c : gmap string Language) :
  cache_ok c ->
  first_child_of_type "modifiers" method_node = None
  \/ child_by_field_name "name" method_node = None
  \/ (forall modifiers node,
        first_child_of_type "modifiers" method_node = Some modifiers ->
        In (node, "method_annotation")
           (captures_of self java_annotation_query modifiers) ->
        is_endpoint_annotation (_get_text self node) = false) ->
  fst (find_methods_body self base_path class_auth endpoints (method_node, label) c)
  = Returns endpoints.
Proof.
  intros Hc Hskip.
  apply (wp_run _ (fun r => r = Returns endpoints) c); [|exact Hc].
  unfold find_methods_body. simpl fst.
  destruct (first_child_of_type "modifiers" method_node) as [modifiers|];
    [|now apply wp_ret].
  destruct (child_by_field_name "name" method_node) as [name_node|];
    [|now apply wp_ret].
  destruct Hskip as [Hskip|[Hskip|Hnone]]; [discriminate | discriminate |].
  apply wp_bind, wp_execute_query.
  fold (captures_of self java_annotation_query modifiers).
  match goal with
  | |- context [scan_method_annotations self ?d] =>
      assert (Hscan : snd (scan_method_annotations self d) = false)
  end.
  { apply scan_method_annotations_none. intros data an Hin Han.
    apply in_map_iff in Hin as ([key data'] & Hdata & Hin). simpl in Hdata. subst data'.
    destruct (group_captures_origin _ _ _ _ _ _ Hin Han) as [Hcap _].
    now apply (Hnone modifiers an). }
  destruct (scan_method_annotations self _) as [[annot_list method_type] has].
  simpl in Hscan. subst has. now apply wp_ret.
Qed.

Lemma last_nonempty {A : Type} (v : A) (vs : list A) (d d' : A) :
  List.last (v :: vs) d = List.last (v :: vs) d'.
Proof.
  revert v. induction vs as [|w vs IH]; intros v; [reflexivity|].
  change (List.last (w :: vs) d = List.last (w :: vs) d'). apply IH.
Qed.

Lemma method_mappings_mem (annot_name : string) :
  is_endpoint_annotation annot_name
  = PyStr.in_list annot_name path_annotations
    || match dict_get annot_name method_mappings with Some _ => true | None => false end.
Proof. reflexivity. Qed.

Lemma scan_method_annotations_eq (self : Analyzer)
    (datas : list (dict string Node)) :
  scan_method_annotations self datas
  = (annotation_entries self datas,
     List.last (concrete_verbs (map fst (annotation_entries self datas))) "ANY",
     existsb is_endpoint_annotation (map fst (annotation_entries self datas))).
Proof.
  unfold scan_method_annotations.
  assert (Hgen : forall (al : list (string * option Node)) (mt : string) (has : bool),
    fold_left
      (fun '(annot_list, method_type, has_endpoint_annotation) data =>
         match dict_get "method_annotation" data with
         | Some an =>
             let annot_name := _get_text self an in
             let args_node := dict_get "annotation_args" data in
             let annot_list := annot_list ++ [(annot_name, args_node)] in
             let has_endpoint_annotation :=
               has_endpoint_annotation || PyStr.in_list annot_name path_annotations in
             match dict_get annot_name method_mappings with
             | Some new_method =>
                 (annot_list,
                  if negb (PyStr.eqb new_method "ANY") then new_method else method_type,
                  true)
             | None => (annot_list, method_type, has_endpoint_annotation)
             end
         | None => (annot_list, method_type, has_endpoint_annotation)
         end)
      datas (al, mt, has)
    = (al ++ annotation_entries self datas,
       List.last (concrete_verbs (map fst (annotation_entries self datas))) mt,
       has || existsb is_endpoint_annotation (map fst (annotation_entries self datas)))).
  { induction datas as [|data datas IH]; intros al mt has.
    - cbn. now rewrite app_nil_r, orb_false_r.
    - cbn [fold_left annotation_entries flat_map].
      fold (annotation_entries self datas).
      destruct (dict_get "method_annotation" data) as [an|]; [|apply IH].
      cbv zeta. cbn [app map fst existsb concrete_verbs flat_map].
      fold (concrete_verbs (map fst (annotation_entries self datas))).
      rewrite method_mappings_mem.
      destruct (dict_get (_get_text self an) method_mappings) as [new_method|].
      + rewrite IH, <- app_assoc. cbn [app]. rewrite orb_true_r, orb_true_r.
        destruct (PyStr.eqb new_method "ANY"); cbn [negb app]; [reflexivity|].
        f_equal. f_equal.
        destruct (concrete_verbs _) as [|v vs]; [reflexivity|].
        change (List.last (v :: vs) new_method = List.last (v :: vs) mt).
        apply last_nonempty.
      + rewrite IH, <- app_assoc. cbn [app]. now rewrite orb_false_r, orb_assoc. }
  apply Hgen.
Qed.

(** X7.  The first loop of [_find_methods] over the annotations of a method
    computes: the list of the annotations (name and arguments) in the order
    of the groups; as verb, the one of the last annotation that maps to a
    verb other than "ANY" (so with both [@GetMapping] and [@PostMapping] the
    later one decides, and the method yields endpoints of one verb only),
    and "ANY" when there is none; and whether one of the annotations is an
    endpoint annotation. *)
Theorem method_verb_is_the_last_concrete_one (self : Analyzer)
    (datas : list (dict string Node)) :
  scan_method_annotations self datas
  = (annotation_entries self datas,
     List.last (concrete_verbs (map fst (annotation_entries self datas))) "ANY",
     existsb is_endpoint_annotation (map fst (annotation_entries self datas))).
Proof. apply scan_method_annotations_eq. Qed.

End JavaSkipped.

(** ** The Node.js analyzer: totality and shape of the endpoints *)

Lemma dict_mem_set {V : Type} (k k' : string) (v : V) (d : dict string V) :
  dict_mem k d = true -> dict_mem k (dict_set k' v d) = true.
Proof.
  unfold dict_mem. intros Hk. destruct (decide (k = k')) as [->|Hne].
  - now rewrite dict_get_set_eq.
  - now rewrite dict_get_set_ne.
Qed.

(** Every group of the first loop of [analyze] holds its call expression:
    the lookup [data["endpoint_node"]] of the second loop cannot fail. *)
Lemma node_groups_have_call (captures : list (Node * string)) :
  Forall (fun item : nat * dict string Node => dict_mem "endpoint_node" (snd item) = true)
         (node_group_captures captures).
Proof.
  unfold node_group_captures.
  assert (Hgen : forall groups : dict nat (dict string Node),
    Forall (fun item : nat * dict string Node =>
              dict_mem "endpoint_node" (snd item) = true) groups ->
    Forall (fun item : nat * dict string Node =>
              dict_mem "endpoint_node" (snd item) = true)
      (fold_left
         (fun node_captures '(node, capture_name) =>
            match call_expression_of node with
            | None => node_captures
            | Some endpoint_node =>
                let node_id := start_byte endpoint_node in
                let node_captures :=
                  if dict_mem node_id node_captures then node_captures
                  else dict_set node_id [("endpoint_node", endpoint_node)] node_captures in
                let data := default [] (dict_get node_id node_captures) in
                if dict_mem capture_name data then node_captures
                else dict_set node_id (dict_set capture_name node data) node_captures
            end) captures groups)).
  { induction captures as [|[node capture_name] captures IH]; intros groups Hall;
      [exact Hall|].
    cbn [fold_left]. apply IH.
    destruct (call_expression_of node) as [endpoint_node|]; [|exact Hall].
    cbv zeta.
    set (groups1 := if dict_mem (start_byte endpoint_node) groups then groups
                    else dict_set (start_byte endpoint_node)
                           [("endpoint_node", endpoint_node)] groups).
    assert (Hall1 : Forall (fun item : nat * dict string Node =>
                              dict_mem "endpoint_node" (snd item) = true) groups1).
    { unfold groups1. destruct (dict_mem _ groups); [exact Hall|].
      now apply dict_set_Forall. }
    assert (Hdata : dict_mem "endpoint_node"
                      (default [] (dict_get (start_byte endpoint_node) groups1)) = true).
    { destruct (dict_get (start_byte endpoint_node) groups1) as [data|] eqn:Hget.
      - apply dict_get_In in Hget. rewrite List.Forall_forall in Hall1.
        exact (Hall1 _ Hget).
      - exfalso. unfold groups1 in Hget.
        destruct (dict_mem (start_byte endpoint_node) groups) eqn:Hmem.
        + unfold dict_mem in Hmem. now rewrite Hget in Hmem.
        + now rewrite dict_get_set_eq in Hget. }
    destruct (dict_mem capture_name _); [exact Hall1|].
    apply dict_set_Forall; [|exact Hall1]. cbn [snd]. now apply dict_mem_set. }
  apply Hgen. constructor.
Qed.

Section NodeShape.
Context `{TreeSitter} `{SetOrder} `{Interpreter}.

Lemma path_parameters_no_body (path : string) :
  ~ In ("body", Some BODY) (map (fun p => (name p, Some (param_type p))) (path_parameters path)).
Proof.
  intros Hin. apply in_map_iff in Hin as (p & Hp & Hin).
  pose proof (path_parameters_kind path) as Hkind.
  rewrite List.Forall_forall in Hkind. specialize (Hkind p Hin).
  rewrite Hkind in Hp. discriminate.
Qed.

Lemma node_parameters_of_eq (self : Analyzer) (handler_node : Node) (path : string) :
  node_parameters_of self handler_node path
  = path_parameters path
    ++ (if bool_decide (captures_of self node_body_query handler_node = [])
        then [] else [body_parameter]).
Proof.
  unfold node_parameters_of.
  rewrite (bool_decide_eq_false_2 (_ ∈ _)).
  - destruct (bool_decide _); simpl; [now rewrite app_nil_r | reflexivity].
  - intros Hin. apply list_elem_of_In in Hin. now apply path_parameters_no_body in Hin.
Qed.

Lemma node_parameters_of_shape (self : Analyzer) (handler_node : Node) (path : string) :
  Forall (fun p => param_type p = PATH \/ p = body_parameter)
         (node_parameters_of self handler_node path).
Proof.
  rewrite node_parameters_of_eq. apply Forall_app. split.
  - eapply List.Forall_impl; [|apply path_parameters_kind]. intros p. now left.
  - destruct (bool_decide _); [constructor | constructor; [now right | constructor]].
Qed.

Lemma wp_node_loop (self : Analyzer) (groups : list (nat * dict string Node)) :
  route_labels_ok self ->
  Forall (fun item : nat * dict string Node =>
            dict_mem "endpoint_node" (snd item) = true) groups ->
  forall endpoints,
  wp (foldM (node_analyze_body self) groups endpoints)
     (fun r => exists new,
        r = Returns (endpoints ++ new)
        /\ length new <= length groups
        /\ Forall node_endpoint_ok new).
Proof.
  intros Hlabels. induction groups as [|[key data] groups IH]; intros Hall endpoints.
  - apply wp_ret. exists []. rewrite app_nil_r. auto.
  - apply Forall_cons in Hall as [Hcall Hall]. cbn [snd] in Hcall.
    assert (Hskip : wp (foldM (node_analyze_body self) groups endpoints)
              (fun r => exists new, r = Returns (endpoints ++ new)
                 /\ length new <= length ((key, data) :: groups)
                 /\ Forall node_endpoint_ok new)).
    { eapply wp_mono; [apply (IH Hall)|].
      intros r (new & -> & Hlen & Hok). exists new. simpl. auto with arith. }
    cbn [foldM]. apply wp_bind.
    unfold node_analyze_body at 1. cbv beta zeta. cbn [snd].
    unfold dict_mem in Hcall.
    destruct (dict_get "endpoint_node" data) as [endpoint_node|]; [|discriminate].
    destruct (dict_get "method" data) as [method_node|]; [|apply wp_ret; exact Hskip].
    destruct (dict_get "args" data) as [args_node|]; [|apply wp_ret; exact Hskip].
    destruct (PyStr.eqb _ "") eqn:Hpath; [apply wp_ret; exact Hskip|].
    apply eqb_false in Hpath.
    assert (Hemit : forall handler_name parameters,
              Forall (fun p => param_type p = PATH \/ p = body_parameter) parameters ->
              wp (ret (endpoints ++
                       [mkEndpoint "" handler_name
                          (PyStr.upper (_get_text self method_node))
                          match first_string_argument args_node with
                          | Some child => PyStr.strip quote_chars (_get_text self child)
                          | None => ""
                          end
                          (start_row endpoint_node + 1)
                          (_get_text self endpoint_node) parameters []]))
                 (fun r => match r with
                           | Returns a =>
                               wp (foldM (node_analyze_body self) groups a)
                                  (fun r => exists new, r = Returns (endpoints ++ new)
                                     /\ length new <= length ((key, data) :: groups)
                                     /\ Forall node_endpoint_ok new)
                           | Raises e =>
                               exists new, Raises e = Returns (endpoints ++ new)
                                 /\ length new <= length ((key, data) :: groups)
                                 /\ Forall node_endpoint_ok new
                           end)).
    { intros handler_name parameters Hparams. apply wp_ret.
      eapply wp_mono; [apply (IH Hall)|].
      intros r (new & -> & Hlen & Hok). eexists (_ :: new).
      rewrite <- app_assoc. split; [reflexivity|]. split; [simpl; lia|].
      constructor; [|exact Hok]. unfold node_endpoint_ok. cbn.
      repeat split; auto. lia. }
    apply wp_bind.
    destruct (last_handler_argument args_node) as [h|].
    + apply wp_parse_node_parameters; [exact Hlabels|].
      apply Hemit, node_parameters_of_shape.
    + apply wp_ret, Hemit. constructor.
Qed.

(** X8.  When the query engine yields the labels of the route query only,
    the Node.js analyzer never raises: it returns at most one endpoint per
    route call, each with a path that is not empty, a blank file path, no
    authorization names, a line number of at least 1, and parameters that
    are Path parameters or the parameter "body". *)
Theorem node_analyzer_returns_well_formed_endpoints (self : Analyzer)
    (c : gmap string Language) :
  cache_ok c ->
  route_labels_ok self ->
  exists eps,
    fst (node_analyze self c) = Returns eps
    /\ length eps
       <= length (node_group_captures (captures_of self node_route_query (root_node self)))
    /\ Forall node_endpoint_ok eps.
Proof.
  intros Hc Hlabels.
  refine (wp_run _ (fun r => exists eps, r = Returns eps /\ _ /\ _) c _ Hc).
  unfold node_analyze, _query. apply wp_bind, wp_execute_query.
  fold (captures_of self node_route_query (root_node self)).
  eapply wp_mono;
    [apply (wp_node_loop self _ Hlabels (node_groups_have_call _) [])|].
  intros r (new & -> & Hlen & Hok). exists new. auto.
Qed.

(** X9.  For a route with a handler, [_parse_node_parameters] returns the
    Path parameters of the ":"-segments of the path, in the order of the
    path, followed by the optional Body parameter "body" when the handler
    reads [req.body], and nothing else: the scan of the handler with the
    route query adds no parameter and cannot suppress "body".  The Path
    parameters are required, of type "Any", and their names do not start
    with a colon. *)
Theorem node_parameters_are_path_then_body (self : Analyzer) (handler_node : Node)
    (path : string) (c : gmap string Language) :
  cache_ok c ->
  route_labels_ok self ->
  fst (_parse_node_parameters self (Some handler_node) path c)
  = Returns (path_parameters path
             ++ (if bool_decide (captures_of self node_body_query handler_node = [])
                 then [] else [body_parameter]))
  /\ map name (path_parameters path)
     = map (PyStr.lstrip ":")
           (List.filter (PyStr.startswith ":") (PyStr.split "/" path))
  /\ Forall (fun p => param_type p = PATH /\ data_type p = "Any" /\ required p = true
                      /\ PyStr.startswith ":" (name p) = false)
            (path_parameters path).
Proof.
  intros Hc Hlabels. split; [|split].
  - apply (wp_run _ (fun r => r = _) c); [|exact Hc].
    apply wp_parse_node_parameters; [exact Hlabels|].
    now rewrite node_parameters_of_eq.
  - unfold path_parameters.
    induction (PyStr.split "/" path) as [|part parts IH]; [reflexivity|].
    cbn [flat_map List.filter]. destruct (PyStr.startswith ":" part); [|exact IH].
    cbn [app map name]. now rewrite IH.
  - unfold path_parameters.
    induction (PyStr.split "/" path) as [|part parts IH]; [constructor|].
    cbn [flat_map]. destruct (PyStr.startswith ":" part); [|exact IH].
    constructor; [|exact IH]. cbn [param_type data_type required name].
    repeat split.
    destruct (PyStr.lstrip ":" part) as [|ch r] eqn:Hl; [reflexivity|].
    apply lstrip_head in Hl. cbn [PyStr.mem_char] in Hl. rewrite orb_false_r in Hl.
    cbn [PyStr.startswith]. now rewrite Ascii.eqb_sym, Hl.
Qed.

End NodeShape.

(** ** The Python analyzer *)

Section PythonShape.
Context `{TreeSitter} `{SetOrder} `{Interpreter}.

(** The loop of [analyze] changes nothing at a capture whose decorator is
    placed as in the grammar. *)
Lemma python_analyze_body_skips (self : Analyzer)
    (st : dict string APIEndpoint * gset (list nat)) (capture : Node * string)
    (c : gmap string Language) :
  (forall decorator_node,
     walk_up (fun n => PyStr.eqb (ntype n) "decorator") (fst capture)
       = Some decorator_node ->
     decorator_placed_as_in_grammar decorator_node) ->
  python_analyze_body self st capture c = (Returns st, c).
Proof.
  intros Hplaced. unfold python_analyze_body. destruct st as [endpoints_map processed].
  destruct (walk_up _ (fst capture)) as [decorator_node|]; [|reflexivity].
  destruct (Hplaced decorator_node eq_refl) as (endpoint_node & Hparent & Hfun).
  destruct (bool_decide _); [reflexivity|].
  now rewrite Hparent, Hfun.
Qed.

Lemma python_loop_skips (self : Analyzer) (captures : list (Node * string)) :
  (forall capture decorator_node,
     In capture captures ->
     walk_up (fun n => PyStr.eqb (ntype n) "decorator") (fst capture)
       = Some decorator_node ->
     decorator_placed_as_in_grammar decorator_node) ->
  forall st c, foldM (python_analyze_body self) captures st c = (Returns st, c).
Proof.
  induction captures as [|capture captures IH]; intros Hplaced st c; [reflexivity|].
  cbn [foldM]. rewrite bind_run, python_analyze_body_skips.
  - apply IH. intros capture' d Hin. apply Hplaced. now right.
  - intros d. apply Hplaced. now left.
Qed.

(** X10.  On a syntax tree in which every decorator the route query reaches
    is placed as in the grammar of Python (it has a parent, and neither the
    parent nor the parent of the parent is a function definition: a
    decorator is a child of a [decorated_definition], which is a child of a
    module or of a block), the Python analyzer returns no endpoint at all,
    whatever the decorators and the functions are, and does not raise. *)
Theorem python_analyzer_finds_nothing (self : Analyzer) (c : gmap string Language) :
  cache_ok c ->
  (forall capture decorator_node,
     In capture (captures_of self python_decorator_query (root_node self)) ->
     walk_up (fun n => PyStr.eqb (ntype n) "decorator") (fst capture)
       = Some decorator_node ->
     decorator_placed_as_in_grammar decorator_node) ->
  fst (python_analyze self c) = Returns [].
Proof.
  intros Hc Hplaced.
  apply (wp_run _ (fun r => r = Returns []) c); [|exact Hc].
  unfold python_analyze, _query. apply wp_bind, wp_execute_query.
  cbn [compile_query].
  fold (captures_of self python_decorator_query (root_node self)).
  intros c1 Hc1. rewrite bind_run, python_loop_skips by exact Hplaced.
  auto.
Qed.

Lemma apply_decorator_captures_auth (self : Analyzer) (decorator_node : Node)
    (captures : list (Node * string)) :
  forall endpoint,
    auth_mechanisms (apply_decorator_captures self decorator_node captures endpoint)
    = auth_mechanisms endpoint.
Proof.
  unfold apply_decorator_captures.
  induction captures as [|[n label] captures IH]; intros endpoint; [reflexivity|].
  cbn [fold_left]. rewrite IH.
  destruct (walk_up _ n); [|reflexivity].
  destruct (PyStr.eqb label "method"); [reflexivity|].
  now destruct (PyStr.eqb label "path").
Qed.

(** The endpoints of the Python analyzer have no authorization names. *)
Lemma wp_python_analyze_no_auth (self : Analyzer) :
  wp (python_analyze self)
     (fun r => forall eps, r = Returns eps -> Forall (fun e => auth_mechanisms e = []) eps).
Proof.
  unfold python_analyze, _query. apply wp_bind, wp_execute_query.
  apply wp_seq
    with (P := fun st : dict string APIEndpoint * gset (list nat) =>
                 Forall (fun kv => auth_mechanisms (snd kv) = []) (fst st)).
  - apply wp_foldM; [|constructor].
    intros [endpoints_map processed] capture Hinv _. cbn [fst] in Hinv.
    unfold python_analyze_body.
    destruct (walk_up _ (fst capture)) as [decorator_node|];
      [|apply wp_ret; now intros st [= <-]].
    destruct (bool_decide _); [apply wp_ret; now intros st [= <-]|].
    destruct (parent decorator_node) as [endpoint_node|];
      [|apply wp_raise; now intros st [=]].
    destruct (decorated_function endpoint_node) as [function_node|];
      [|apply wp_ret; now intros st [= <-]].
    destruct (child_by_field_name "name" function_node) as [handler_name_node|];
      [|apply wp_ret; now intros st [= <-]].
    apply wp_seq
      with (P := fun m : dict string APIEndpoint =>
                   Forall (fun kv => auth_mechanisms (snd kv) = []) m).
    + destruct (dict_mem _ endpoints_map); [apply wp_ret; now intros m [= <-]|].
      apply wp_bind.
      eapply wp_mono; [apply stable_wp, stable_parse_python_parameters|].
      intros [parameters|e] _; [|now intros m [=]].
      apply wp_ret. intros m [= <-]. now apply dict_set_Forall.
    + intros endpoints_map' Hinv'.
      destruct (dict_get _ endpoints_map') as [endpoint|] eqn:Hget;
        [|apply wp_raise; now intros st [=]].
      apply wp_bind, wp_execute_query, wp_ret. intros st [= <-]. cbn [fst].
      apply dict_set_Forall; [|exact Hinv']. cbn [snd].
      apply dict_get_In in Hget. rewrite List.Forall_forall in Hinv'.
      specialize (Hinv' _ Hget). cbn [snd] in Hinv'.
      now rewrite apply_decorator_captures_auth.
    + now intros e st [=].
  - intros st Hst. apply wp_ret. intros eps [= <-].
    unfold dict_values. apply List.Forall_forall. intros e Hin.
    apply in_map_iff in Hin as (kv & <- & Hin).
    rewrite List.Forall_forall in Hst. now apply Hst.
  - now intros e eps [=].
Qed.

End PythonShape.

(** ** The grammar cache *)

Section CacheUseLogic.
Context `{TreeSitter}.

Lemma keeps_ret {A : Type} (lang : string) (a : A) : keeps lang (ret a).
Proof. now intros c Hc. Qed.

Lemma keeps_raise {A : Type} (lang : string) (e : exn) :
  keeps lang (@raise (gmap string Language) A e).
Proof. now intros c Hc. Qed.

Lemma keeps_lift {A : Type} (lang : string) (r : result A) : keeps lang (lift r).
Proof. now intros c Hc. Qed.

Lemma keeps_bind {A B : Type} (lang : string) (m : M (gmap string Language) A)
    (f : A -> M (gmap string Language) B) :
  keeps lang m -> (forall a, keeps lang (f a)) -> keeps lang (bind m f).
Proof.
  intros Hm Hf c Hc. unfold bind. specialize (Hm c Hc).
  destruct (m c) as [[a|e] c1]; simpl in Hm; subst c1; [|reflexivity].
  now apply Hf.
Qed.

Lemma keeps_foldM {A B : Type} (lang : string)
    (body : B -> A -> M (gmap string Language) B) (l : list A) :
  (forall b a, keeps lang (body b a)) -> forall b, keeps lang (foldM body l b).
Proof.
  intros Hbody. induction l as [|a l IH]; intros b; simpl.
  - apply keeps_ret.
  - apply keeps_bind; auto.
Qed.

Lemma keeps_get_ts_language (lang : string) : keeps lang (get_ts_language lang).
Proof. intros c [g Hg]. unfold get_ts_language. now rewrite Hg. Qed.

Lemma keeps_execute_query (node : Node) (q : query) (lang : string) :
  keeps lang (execute_query node q lang).
Proof.
  unfold execute_query. apply keeps_bind.
  - apply keeps_get_ts_language.
  - intros language. apply keeps_bind; [apply keeps_lift|].
    intros _. apply keeps_ret.
Qed.

End CacheUseLogic.

Create HintDb keeps.

#[global] Hint Resolve keeps_ret keeps_raise keeps_lift keeps_execute_query
  keeps_get_ts_language : keeps.

(** One step of a proof that the cache is kept: follow the shape of the
    program. *)
Ltac keeps_step :=
  match goal with
  | |- keeps _ (bind _ _) => apply keeps_bind; [| intros ? ]
  | |- keeps _ (foldM _ _ _) => apply keeps_foldM; intros ? ?
  | |- keeps _ (match ?x with _ => _ end) => destruct x
  | |- keeps _ _ => solve [ auto with keeps ]
  end.

Ltac keeps_auto := repeat keeps_step.

Section CacheUseAnalyzers.
Context `{TreeSitter} `{SetOrder} `{Interpreter}.

Lemma keeps_java_analyze (self : Analyzer) :
  keeps (language_name self) (java_analyze self).
Proof.
  unfold java_analyze, java_analyze_body, _find_class_auth, _find_class_base_path,
    _find_methods, find_methods_body, emit_endpoint, _parse_java_parameters,
    _find_auth_annotations, _query.
  keeps_auto.
Qed.

Lemma keeps_node_analyze (self : Analyzer) :
  keeps (language_name self) (node_analyze self).
Proof.
  unfold node_analyze, node_analyze_body, _parse_node_parameters, node_scan_body, _query.
  keeps_auto.
Qed.

Lemma keeps_python_analyze (self : Analyzer) :
  keeps (language_name self) (python_analyze self).
Proof.
  unfold python_analyze, python_analyze_body, _parse_python_parameters, _query.
  keeps_auto.
Qed.

Lemma keeps_analyze (self : Analyzer) : keeps (language_name self) (analyze self).
Proof.
  unfold analyze. destruct (cls self);
    auto using keeps_python_analyze, keeps_java_analyze, keeps_node_analyze.
Qed.

Lemma BaseAnalyzer_init_run (k : AnalyzerClass) (lang source : string)
    (c : gmap string Language) :
  lang <> "" ->
  BaseAnalyzer_init k lang source c
  = (Returns (mkAnalyzer k lang source
                (root_of (ts_parse (default (get_language lang) (c !! lang)) source)
                         source)),
     match c !! lang with
     | Some _ => c
     | None => <[lang := get_language lang]> c
     end).
Proof.
  intros Hlang. unfold BaseAnalyzer_init. apply eqb_false in Hlang. rewrite Hlang.
  unfold bind, get_ts_language. now destruct (c !! lang).
Qed.

Lemma get_analyzer_run (lang source : string) (c : gmap string Language) :
  get_analyzer lang source c
  = match analyzer_class lang with
    | Some k =>
        (Returns (Some (mkAnalyzer k lang source
                          (root_of (ts_parse (default (get_language lang) (c !! lang))
                                             source)
                                   source))),
         match c !! lang with
         | Some _ => c
         | None => <[lang := get_language lang]> c
         end)
    | None => (Returns None, c)
    end.
Proof.
  unfold get_analyzer, analyzer_class, PyStr.in_list. cbn [existsb].
  destruct (PyStr.eqb lang "python") eqn:E1.
  { apply eqb_true in E1. subst lang. unfold bind.
    now rewrite BaseAnalyzer_init_run by discriminate. }
  destruct (PyStr.eqb lang "java") eqn:E2.
  { apply eqb_true in E2. subst lang. unfold bind.
    now rewrite BaseAnalyzer_init_run by discriminate. }
  destruct (PyStr.eqb lang "javascript") eqn:E3.
  { apply eqb_true in E3. subst lang. unfold bind.
    now rewrite BaseAnalyzer_init_run by discriminate. }
  destruct (PyStr.eqb lang "typescript") eqn:E4.
  { apply eqb_true in E4. subst lang. unfold bind.
    now rewrite BaseAnalyzer_init_run by discriminate. }
  reflexivity.
Qed.

Lemma analyzer_class_registered (lang : string) :
  is_Some (analyzer_class lang) <-> In lang registered_languages.
Proof.
  unfold analyzer_class, registered_languages, PyStr.in_list. cbn [existsb In].
  destruct (PyStr.eqb lang "python") eqn:E1;
    [apply eqb_true in E1; subst lang;
     split; [intros _; repeat (first [left; reflexivity | right]) | now eexists]|].
  destruct (PyStr.eqb lang "java") eqn:E2;
    [apply eqb_true in E2; subst lang;
     split; [intros _; repeat (first [left; reflexivity | right]) | now eexists]|].
  destruct (PyStr.eqb lang "javascript") eqn:E3;
    [apply eqb_true in E3; subst lang;
     split; [intros _; repeat (first [left; reflexivity | right]) | now eexists]|].
  destruct (PyStr.eqb lang "typescript") eqn:E4;
    [apply eqb_true in E4; subst lang;
     split; [intros _; repeat (first [left; reflexivity | right]) | now eexists]|].
  apply eqb_false in E1, E2, E3, E4. cbn [orb]. split.
  - intros [k Hk]. discriminate.
  - intros [?|[?|[?|[?|[]]]]]; congruence.
Qed.

(** X13.  An analysis touches the grammar cache in one place only: the core
    adds the grammar of the language when the language has an analyzer and
    the cache has no entry for it, and otherwise leaves the cache exactly as
    it was, whether the analysis returns or raises; the analyzers themselves
    never load a grammar other than their own. *)
Theorem analysis_loads_one_grammar (lang source : string) (c : gmap string Language) :
  snd (analyze_source lang source c)
  = match c !! lang with
    | Some _ => c
    | None =>
        if PyStr.in_list lang registered_languages
        then <[lang := get_language lang]> c else c
    end.
Proof.
  unfold analyze_source. rewrite bind_run, get_analyzer_run.
  pose proof (analyzer_class_registered lang) as Hreg.
  destruct (analyzer_class lang) as [k|].
  - assert (Hin : PyStr.in_list lang registered_languages = true).
    { apply in_list_In, Hreg. now eexists. }
    rewrite Hin. clear Hreg Hin.
    set (a := mkAnalyzer k lang source _).
    assert (Hkeep : forall c1, is_Some (c1 !! lang) ->
              snd (bind (analyze a) (fun endpoints => ret (Some endpoints)) c1) = c1).
    { intros c1 Hc1. apply (keeps_bind lang); [apply (keeps_analyze a)| |exact Hc1].
      intros eps. apply keeps_ret. }
    destruct (c !! lang) as [g|] eqn:Hg.
    + apply Hkeep. rewrite Hg. now eexists.
    + apply Hkeep. rewrite lookup_insert_eq. now eexists.
  - assert (Hin : PyStr.in_list lang registered_languages = false).
    { apply not_true_is_false. intros Hin. apply in_list_In, Hreg in Hin.
      destruct Hin. discriminate. }
    rewrite Hin. now destruct (c !! lang).
Qed.

End CacheUseAnalyzers.

(** ** The caller *)

Section CallerProperties.
Context `{TreeSitter} `{SetOrder} `{Interpreter}.

Lemma get_language_from_extension_registered (suffix : string)
    (language : LanguageOption.t) (lang : string) :
  get_language_from_extension suffix language = Some lang ->
  In lang registered_languages.
Proof.
  unfold get_language_from_extension, registered_languages.
  destruct language; cbn [LanguageOption.value].
  - unfold ext_map. cbn [dict_get].
    repeat (case_decide; [intros [= <-]; simpl; tauto|]). discriminate.
  - intros [= <-]. simpl. tauto.
  - intros [= <-]. simpl. tauto.
  - destruct (PyStr.in_list suffix _); [|discriminate].
    destruct (PyStr.eqb suffix ".ts"); intros [= <-]; simpl; tauto.
Qed.

(** X14.  Every language [get_language_from_extension] assigns to a file is
    one [get_analyzer] has an analyzer for: for such a language
    [get_analyzer] returns an analyzer of that language on the bytes of the
    file (the test of [language_name] in [BaseAnalyzer.__init__] never
    fires), so a file that was given a language is never dropped for want of
    an analyzer. *)
Theorem classified_files_have_an_analyzer (suffix : string)
    (language : LanguageOption.t) (lang source : string) (c : gmap string Language) :
  get_language_from_extension suffix language = Some lang ->
  In lang registered_languages
  /\ exists a,
       fst (get_analyzer lang source c) = Returns (Some a)
       /\ language_name a = lang
       /\ source_bytes a = source
       /\ analyzer_class lang = Some (cls a)
       /\ fst (analyze_source lang source c) <> Returns None.
Proof.
  intros Hlang. apply get_language_from_extension_registered in Hlang.
  split; [exact Hlang|].
  apply analyzer_class_registered in Hlang as [k Hk].
  unfold analyze_source. rewrite bind_run, get_analyzer_run, Hk.
  eexists. split; [reflexivity|]. cbn [language_name source_bytes cls fst].
  repeat split. rewrite bind_run.
  destruct (analyze _ _) as [[eps|e] c1]; discriminate.
Qed.


Lemma wp_node_analyze_no_auth (self : Analyzer) :
  wp (node_analyze self)
     (fun r => forall eps, r = Returns eps -> Forall (fun e => auth_mechanisms e = []) eps).
Proof.
  unfold node_analyze, _query. apply wp_bind, wp_execute_query.
  apply wp_foldM; [|constructor].
  intros endpoints [key data] Hinv _. unfold node_analyze_body. cbv beta zeta. cbn [snd].
  destruct (dict_get "endpoint_node" data); [|apply wp_raise; now intros eps [=]].
  destruct (dict_get "method" data); [|apply wp_ret; now intros eps [= <-]].
  destruct (dict_get "args" data); [|apply wp_ret; now intros eps [= <-]].
  destruct (PyStr.eqb _ ""); [apply wp_ret; now intros eps [= <-]|].
  apply wp_bind.
  eapply wp_mono; [apply stable_wp, stable_parse_node_parameters|].
  intros [parameters|e] _; [|now intros eps [=]].
  apply wp_ret. intros eps [= <-]. apply Forall_app. split; [exact Hinv|].
  repeat constructor.
Qed.

Lemma no_auth_endpoints (self : Analyzer) (c : gmap string Language)
    (eps : list APIEndpoint) :
  cache_ok c ->
  cls self <> JavaAnalyzer ->
  fst (analyze self c) = Returns eps ->
  Forall (fun e => auth_mechanisms e = []) eps.
Proof.
  intros Hc Hcls. unfold analyze. destruct (cls self); [|congruence|]; intros Hrun.
  - exact (wp_run _ _ c (wp_python_analyze_no_auth self) Hc eps Hrun).
  - exact (wp_run _ _ c (wp_node_analyze_no_auth self) Hc eps Hrun).
Qed.

(** X16.  No endpoint of a Python, JavaScript or TypeScript file ever has
    an authorization name, so for the endpoints of such a file the filter of
    [scan] with [--auth] keeps nothing, whatever the verb sets, [--no-auth]
    filters nothing out beyond the verb sets, and [_format_auth] reads
    "Unknown" for each of them. *)
Theorem auth_filter_drops_endpoints_outside_java (self : Analyzer)
    (c : gmap string Language) (eps : list APIEndpoint)
    (include_set exclude_set : list string) :
  cache_ok c ->
  cls self <> JavaAnalyzer ->
  fst (analyze self c) = Returns eps ->
  (forall no_auth, filter_endpoints include_set exclude_set true no_auth eps = [])
  /\ filter_endpoints include_set exclude_set false true eps
     = filter_endpoints include_set exclude_set false false eps
  /\ Forall (fun e => _format_auth (auth_mechanisms e) = "Unknown") eps.
Proof.
  intros Hc Hcls Hrun. pose proof (no_auth_endpoints self c eps Hc Hcls Hrun) as Hall.
  clear Hrun. unfold filter_endpoints.
  induction Hall as [|e eps He _ IH]; [repeat split; constructor|].
  destruct IH as (IH1 & IH2 & IH3). cbn [List.filter]. repeat split.
  - intros no_auth. rewrite IH1. unfold keep_endpoint. rewrite He.
    destruct (_ && _); [reflexivity|]. now destruct (_ && _).
  - rewrite IH2. unfold keep_endpoint. rewrite He.
    destruct (_ && _); [reflexivity|]. now destruct (_ && _).
  - constructor; [now rewrite He | exact IH3].
Qed.

End CallerProperties.

(** ** The formatters *)

Lemma mem_char_append (x : ascii) (s1 s2 : string) :
  PyStr.mem_char x (s1 +:+ s2) = PyStr.mem_char x s1 || PyStr.mem_char x s2.
Proof.
  induction s1 as [|c s1 IH]; simpl; [reflexivity|]. now rewrite IH, orb_assoc.
Qed.

Lemma replace_char_step (a : ascii) (new : string) (c : ascii) (r : string) :
  PyStr.replace (String a EmptyString) new (String c r)
  = if Ascii.eqb a c then new +:+ PyStr.replace (String a EmptyString) new r
    else String c (PyStr.replace (String a EmptyString) new r).
Proof.
  unfold PyStr.replace. cbn [PyStr.replace_from PyStr.startswith String.length Nat.sub].
  now rewrite andb_true_r.
Qed.

Lemma replace_char_removes (a : ascii) (new s : string) :
  PyStr.mem_char a new = false ->
  PyStr.mem_char a (PyStr.replace (String a EmptyString) new s) = false.
Proof.
  intros Hnew. induction s as [|c r IH]; [reflexivity|].
  rewrite replace_char_step. destruct (Ascii.eqb a c) eqn:Hac.
  - now rewrite mem_char_append, Hnew, IH.
  - cbn [PyStr.mem_char]. now rewrite Hac, IH.
Qed.

Lemma replace_char_other (x a : ascii) (new s : string) :
  Ascii.eqb x a = false -> PyStr.mem_char x new = false ->
  PyStr.mem_char x (PyStr.replace (String a EmptyString) new s) = PyStr.mem_char x s.
Proof.
  intros Hxa Hnew. induction s as [|c r IH]; [reflexivity|].
  rewrite replace_char_step. destruct (Ascii.eqb a c) eqn:Hac.
  - apply Ascii.eqb_eq in Hac. subst c.
    rewrite mem_char_append, Hnew, IH. cbn [PyStr.mem_char]. now rewrite Hxa.
  - cbn [PyStr.mem_char]. now rewrite IH.
Qed.

Lemma replace_char_absent (a : ascii) (new s : string) :
  PyStr.mem_char a s = false -> PyStr.replace (String a EmptyString) new s = s.
Proof.
  induction s as [|c r IH]; [reflexivity|].
  cbn [PyStr.mem_char]. intros Hmem. apply orb_false_elim in Hmem as [Hac Hr].
  rewrite replace_char_step, Hac, IH by exact Hr. reflexivity.
Qed.

Lemma clean_for_csv_free (text : string) :
  free_of ("|" +:+ PyStr.newline +:+ PyStr.byte 13) (_clean_for_csv text).
Proof.
  intros ch Hch. unfold _clean_for_csv, PyStr.newline, PyStr.byte in *.
  cbv [append] in Hch. cbn [PyStr.mem_char] in Hch. rewrite orb_false_r in Hch.
  apply orb_prop in Hch as [Hch|Hch]; [|apply orb_prop in Hch as [Hch|Hch]];
    apply Ascii.eqb_eq in Hch; subst ch.
  - rewrite !replace_char_other by reflexivity. now apply replace_char_removes.
  - rewrite replace_char_other by reflexivity. now apply replace_char_removes.
  - now apply replace_char_removes.
Qed.

(** X17.  No cell of a row of the CSV output holds the delimiter "|", a
    line feed or a carriage return, whatever the endpoint; the cleaning
    leaves a text without these three characters as it is, so it is
    idempotent.  The snippet cell of the Markdown table holds neither "|"
    nor a line feed. *)
Theorem table_cells_stay_in_their_row (e : APIEndpoint) (text : string) :
  Forall (free_of ("|" +:+ PyStr.newline +:+ PyStr.byte 13)) (csv_row e)
  /\ (free_of ("|" +:+ PyStr.newline +:+ PyStr.byte 13) text ->
      _clean_for_csv text = text)
  /\ _clean_for_csv (_clean_for_csv text) = _clean_for_csv text
  /\ free_of ("|" +:+ PyStr.newline) (snippet_md text).
Proof.
  assert (Hid : forall t, free_of ("|" +:+ PyStr.newline +:+ PyStr.byte 13) t ->
                          _clean_for_csv t = t).
  { intros t Hfree. unfold _clean_for_csv, PyStr.newline, PyStr.byte.
    rewrite (replace_char_absent "|"%char) by (apply Hfree; reflexivity).
    rewrite (replace_char_absent (ascii_of_nat 10)) by (apply Hfree; reflexivity).
    apply replace_char_absent, Hfree. reflexivity. }
  split; [|split; [apply Hid|split]].
  - unfold csv_row. repeat constructor; apply clean_for_csv_free.
  - apply Hid, clean_for_csv_free.
  - intros ch Hch. unfold snippet_md, PyStr.newline in *.
    cbv [append] in Hch. cbn [PyStr.mem_char] in Hch. rewrite orb_false_r in Hch.
    rewrite !mem_char_append.
    apply orb_prop in Hch as [Hch|Hch]; apply Ascii.eqb_eq in Hch; subst ch.
    + rewrite replace_char_other by reflexivity.
      now rewrite replace_char_removes.
    + now rewrite replace_char_removes.
Qed.

Lemma parameter_parts_nonempty (part : ParamType -> string -> string)
    (p : APIParameter) (params : list APIParameter) :
  parameter_parts part (p :: params) <> [].
Proof.
  intros Hnil.
  assert (Hin : In (part (param_type p)
                      (join ", " (map name
                         (List.filter (fun q => bool_decide (param_type q = param_type p))
                                      (p :: params)))))
                   (parameter_parts part (p :: params))).
  { unfold parameter_parts. apply in_flat_map. exists (param_type p). split.
    - unfold ParamType_members. destruct (param_type p); simpl; tauto.
    - cbn [List.filter]. rewrite bool_decide_eq_true_2 by reflexivity. now left. }
  rewrite Hnil in Hin. destruct Hin.
Qed.

Lemma parameter_parts_elem (part : ParamType -> string -> string)
    (params : list APIParameter) (x : string) :
  In x (parameter_parts part params) -> exists k names, x = part k names.
Proof.
  unfold parameter_parts. intros Hin. apply in_flat_map in Hin as (k & _ & Hin).
  destruct (List.filter _ params); [destruct Hin|].
  destruct Hin as [<-|[]]. eauto.
Qed.

Lemma join_head (sep : string) (c : ascii) (r : string) (rest : list string) :
  exists r', join sep (String c r :: rest) = String c r'.
Proof. destruct rest; eexists; reflexivity. Qed.

(** X18.  The Parameters cell of the CSV and of the Markdown output reads
    "None" exactly for an endpoint without parameters: with parameters the
    cell starts with the name of a kind ("Path", "Query", "Body", "Header",
    "Cookie"; in bold in Markdown), whatever the names of the parameters
    are. *)
Theorem parameters_cell_none_iff_no_parameter (params : list APIParameter) :
  (_format_parameters_csv params = "None" <-> params = [])
  /\ (_format_parameters_md params = "None" <-> params = []).
Proof.
  split; (split; [|now intros ->]); destruct params as [|p params]; try reflexivity;
    intros Heq; exfalso.
  - unfold _format_parameters_csv in Heq.
    pose proof (parameter_parts_nonempty
                  (fun k names => capitalize (ParamType_value k) +:+ ": " +:+ names)
                  p params) as Hne.
    pose proof (parameter_parts_elem
                  (fun k names => capitalize (ParamType_value k) +:+ ": " +:+ names)
                  (p :: params)) as Helem.
    destruct (parameter_parts _ (p :: params)) as [|x rest]; [now apply Hne|].
    destruct (Helem x (or_introl eq_refl)) as (k & names & ->).
    destruct k;
      match type of Heq with
      | join ?sep (?h :: rest) = _ =>
          destruct (join_head sep
                      (match h with String ch _ => ch | EmptyString => "000"%char end)
                      (match h with String _ r => r | EmptyString => "" end) rest)
            as [r' Hr']
      end; cbv [capitalize ParamType_value append] in Hr', Heq;
      rewrite Hr' in Heq; discriminate.
  - unfold _format_parameters_md in Heq.
    pose proof (parameter_parts_nonempty
                  (fun k names =>
                     "<b>" +:+ capitalize (ParamType_value k) +:+ ":</b> " +:+ names)
                  p params) as Hne.
    pose proof (parameter_parts_elem
                  (fun k names =>
                     "<b>" +:+ capitalize (ParamType_value k) +:+ ":</b> " +:+ names)
                  (p :: params)) as Helem.
    destruct (parameter_parts _ (p :: params)) as [|x rest]; [now apply Hne|].
    destruct (Helem x (or_introl eq_refl)) as (k & names & ->).
    match type of Heq with
    | join ?sep (?h :: rest) = _ =>
        destruct (join_head sep "<"%char
                    ("b>" +:+ capitalize (ParamType_value k) +:+ ":</b> " +:+ names) rest)
          as [r' Hr']
    end.
    cbv [append] in Hr', Heq. rewrite Hr' in Heq. discriminate.
Qed.

(** X19.  The Parameters object of the JSON output has the five kinds as
    keys, in the order of [ParamType]; under a kind it holds [None] when no
    parameter is of that kind, and otherwise the names of the parameters of
    that kind, in the order of the endpoint, joined by ", ". *)
Theorem json_parameters_by_kind (params : list APIParameter) (k : ParamType) :
  dict_get (ParamType_value k) (_format_parameters_json params)
  = Some (match names_of_kind k params with
          | [] => None
          | names => Some (join ", " names)
          end)
  /\ dict_keys (_format_parameters_json params) = map ParamType_value ParamType_members.
Proof.
  unfold _format_parameters_json, names_of_kind.
  destruct params as [|p ps]; [destruct k; split; reflexivity|].
  set (params := p :: ps). clearbody params.
  unfold ParamType_members. cbn [fold_left].
  destruct k; cbn [ParamType_value];
    repeat match goal with
           | |- context [match map name (List.filter ?f params) with _ => _ end] =>
               destruct (map name (List.filter f params))
           end;
    split; reflexivity.
Qed.

(** ** Decoding *)

Lemma decode_strict_ignore (s : string) :
  forall keep, PyStr.decode_strict_from keep s = true -> PyStr.decode_ignore_from keep s = s.
Proof.
  induction s as [|c r IH]; intros keep; [reflexivity|].
  cbn [PyStr.decode_strict_from PyStr.decode_ignore_from].
  destruct keep as [|k].
  - destruct (PyStr.utf8_len (String c r)); [discriminate|].
    intros Hr. now rewrite IH.
  - intros Hr. now rewrite IH.
Qed.

(** X20.  The two decoders of the code agree where the strict one
    succeeds: whenever [_collect_string_literals] returns, the literals are
    the texts [get_node_text] gives for the string literal nodes, without
    the double quotes around them; the lenient decoding of [get_node_text]
    differs from the bytes of a node only when these are not well-formed
    UTF-8. *)
Theorem collected_literals_are_node_texts `{Interpreter} (node : Node)
    (literals : list string) :
  _collect_string_literals (Some node) = Returns literals ->
  literals
  = map (fun l =>
           PyStr.strip PyStr.dquote
             (get_node_text (mkNode l [] [] (n_buffer node)) (n_buffer node)))
        (string_literals (n_tree node))
  /\ forall n : Node,
       well_formed (PyStr.slice (start_byte n) (end_byte n) (n_buffer node)) = true ->
       get_node_text n (n_buffer node)
       = PyStr.slice (start_byte n) (end_byte n) (n_buffer node).
Proof.
  intros Hrun. split.
  - unfold _collect_string_literals in Hrun.
    destruct recursion_budget; [discriminate|].
    apply collect_string_literals_tree_returns in Hrun as [-> Hall].
    rewrite forallb_forall in Hall. apply map_ext_in. intros l Hl.
    unfold get_node_text, start_byte, end_byte, PyStr.decode_ignore. cbn [n_tree].
    specialize (Hall l Hl). unfold well_formed, tree_text in Hall.
    unfold tree_text. now rewrite decode_strict_ignore.
  - intros n Hn. unfold get_node_text, PyStr.decode_ignore.
    now apply decode_strict_ignore.
Qed.

(** ** The Java analyzer against its specification *)

(** *** The tables *)

Lemma in_list_cons_ne (x y : string) (l : list string) :
  x <> y -> PyStr.in_list x (y :: l) = PyStr.in_list x l.
Proof.
  intros Hne. unfold PyStr.in_list. cbn [existsb].
  apply eqb_false in Hne. now rewrite Hne.
Qed.

Lemma dict_get_cons_ne {V : Type} (x y : string) (v : V) (d : dict string V) :
  x <> y -> dict_get x ((y, v) :: d) = dict_get x d.
Proof. intros Hne. cbn [dict_get]. now destruct (decide (x = y)). Qed.

(** Case analysis on whether a name is a given one. *)
Ltac name_is name c :=
  destruct (decide (name = c)) as [->|?]; [vm_compute; reflexivity|].

Ltac other_name :=
  unfold dict_mem;
  repeat (first [ rewrite in_list_cons_ne by assumption
                | rewrite dict_get_cons_ne by assumption ]);
  reflexivity.

Lemma verb_map_spec_eq (annot_name : string) :
  match dict_get annot_name method_mappings with
  | Some new_method => if PyStr.eqb new_method "ANY" then [] else [new_method]
  | None => []
  end
  = match dict_get annot_name verb_map_spec with
    | Some verb => [verb]
    | None => []
    end.
Proof.
  name_is annot_name "GetMapping". name_is annot_name "PostMapping".
  name_is annot_name "PutMapping". name_is annot_name "DeleteMapping".
  name_is annot_name "PatchMapping". name_is annot_name "RequestMapping".
  name_is annot_name "GET". name_is annot_name "POST". name_is annot_name "PUT".
  name_is annot_name "DELETE". name_is annot_name "PATCH".
  unfold method_mappings, verb_map_spec. other_name.
Qed.

Lemma endpoint_annotation_spec_eq (annot_name : string) :
  is_endpoint_annotation annot_name = endpoint_annotation_spec annot_name.
Proof.
  name_is annot_name "GetMapping". name_is annot_name "PostMapping".
  name_is annot_name "PutMapping". name_is annot_name "DeleteMapping".
  name_is annot_name "PatchMapping". name_is annot_name "RequestMapping".
  name_is annot_name "Path".
  name_is annot_name "GET". name_is annot_name "POST". name_is annot_name "PUT".
  name_is annot_name "DELETE". name_is annot_name "PATCH".
  unfold is_endpoint_annotation, endpoint_annotation_spec, path_annotations,
    path_bearing_spec, method_mappings.
  other_name.
Qed.

Lemma path_bearing_spec_eq (annot_name : string) :
  PyStr.in_list annot_name path_annotations
  = PyStr.in_list annot_name path_bearing_spec.
Proof.
  name_is annot_name "GetMapping". name_is annot_name "PostMapping".
  name_is annot_name "PutMapping". name_is annot_name "DeleteMapping".
  name_is annot_name "PatchMapping". name_is annot_name "RequestMapping".
  name_is annot_name "Path".
  unfold path_annotations, path_bearing_spec. other_name.
Qed.

Lemma auth_vocabulary_spec_eq (annot_name : string) :
  PyStr.in_list annot_name auth_names
  = PyStr.in_list annot_name auth_vocabulary_spec.
Proof.
  name_is annot_name "PreAuthorize". name_is annot_name "RolesAllowed".
  name_is annot_name "Secured". name_is annot_name "PermitAll".
  name_is annot_name "DenyAll". name_is annot_name "SecurityRequirement".
  name_is annot_name "SecurityRequirements". name_is annot_name "PermissionRequired".
  unfold auth_names, auth_vocabulary_spec. other_name.
Qed.

Lemma concrete_verbs_spec (annot_names : list string) :
  List.last (concrete_verbs annot_names) "ANY" = verb_spec annot_names.
Proof.
  unfold verb_spec, concrete_verbs. f_equal.
  induction annot_names as [|annot_name annot_names IH]; [reflexivity|].
  cbn [flat_map]. now rewrite IH, verb_map_spec_eq.
Qed.

Lemma existsb_endpoint_annotation_spec (annot_names : list string) :
  existsb is_endpoint_annotation annot_names
  = existsb endpoint_annotation_spec annot_names.
Proof.
  induction annot_names as [|annot_name annot_names IH]; [reflexivity|].
  cbn [existsb]. now rewrite IH, endpoint_annotation_spec_eq.
Qed.

(** *** Reading literals *)

Section Reading.
Context `{TreeSitter} `{Interpreter}.

Lemma reads_ret {A : Type} (P : A -> Prop) (a : A) :
  P a -> reads [] P (Returns a).
Proof. intros Ha. unfold reads. cbn [forallb]. now exists a. Qed.

Lemma reads_mono {A : Type} (sources : list (option Node)) (P Q : A -> Prop)
    (r : result A) :
  reads sources P r -> (forall a, P a -> Q a) -> reads sources Q r.
Proof.
  unfold reads. intros Hr HPQ. destruct (forallb readable sources); [|exact Hr].
  destruct Hr as (a & -> & Ha). exists a. auto.
Qed.

Lemma reads_rbind {A B : Type} (s1 s2 : list (option Node)) (P : A -> Prop)
    (Q : B -> Prop) (r : result A) (f : A -> result B) :
  reads s1 P r -> (forall a, P a -> reads s2 Q (f a)) ->
  reads (s1 ++ s2) Q (rbind r f).
Proof.
  unfold reads. intros Hr Hf. rewrite forallb_app.
  destruct (forallb readable s1).
  - destruct Hr as (a & -> & Ha). cbn [rbind andb]. now apply Hf.
  - destruct Hr as (e & -> & He). cbn [rbind andb]. now exists e.
Qed.

Lemma wp_reads_bind {A B : Type} (s1 s2 : list (option Node)) (P : A -> Prop)
    (Q : B -> Prop) (m : M (gmap string Language) A)
    (f : A -> M (gmap string Language) B) :
  wp m (reads s1 P) -> (forall a, P a -> wp (f a) (reads s2 Q)) ->
  wp (bind m f) (reads (s1 ++ s2) Q).
Proof.
  intros Hm Hf. apply wp_bind. eapply wp_mono; [exact Hm|].
  intros r Hr. unfold reads in Hr |- *.
  destruct (forallb readable s1) eqn:Hs1.
  - destruct Hr as (a & -> & Ha). eapply wp_mono; [now apply Hf|].
    intros r Hr. unfold reads in Hr. now rewrite forallb_app, Hs1.
  - destruct Hr as (e & -> & He). rewrite forallb_app, Hs1. now exists e.
Qed.

(** What [_collect_string_literals] does, exactly. *)
Lemma collect_string_literals_reads (node : option Node) :
  reads [node] (eq (literals_under node)) (_collect_string_literals node).
Proof.
  unfold reads, _collect_string_literals. cbn [forallb]. rewrite andb_true_r.
  destruct node as [n|]; cbn [readable literals_under].
  - destruct recursion_budget as [|budget] eqn:Hbudget.
    + replace (call_depth (n_tree n) <=? 0)%nat with false
        by (symmetry; apply Nat.leb_gt; destruct (n_tree n); cbn [call_depth]; lia).
      exists RecursionError. split; [reflexivity | now right].
    + destruct (Nat.leb_spec (call_depth (n_tree n)) (S budget)) as [Hle|Hgt].
      * rewrite collect_string_literals_tree_enough by exact Hle.
        cbn [andb]. destruct (forallb _ _).
        -- eexists. split; reflexivity.
        -- exists UnicodeDecodeError. split; [reflexivity | now left].
      * cbn [andb].
        destruct (collect_string_literals_tree_deep (n_buffer n) _ _ Hgt) as [e He].
        exists e. split; [exact He|].
        now apply collect_string_literals_tree_raises in He.
  - destruct recursion_budget as [|budget].
    + exists RecursionError. split; [reflexivity | now right].
    + exists []. split; reflexivity.
Qed.

Lemma candidate_sources_spec_cons (method_type annot_name : string)
    (args_node : option Node) (rest : list (string * option Node)) :
  candidate_sources_spec method_type ((annot_name, args_node) :: rest)
  = if PyStr.in_list annot_name path_bearing_spec
    then (annot_name, args_node)
         :: (if PyStr.eqb annot_name "Path" && negb (PyStr.eqb method_type "ANY")
             then [] else candidate_sources_spec method_type rest)
    else candidate_sources_spec method_type rest.
Proof.
  unfold candidate_sources_spec. cbn [List.filter fst].
  destruct (PyStr.in_list annot_name path_bearing_spec); [|reflexivity].
  destruct (PyStr.eqb method_type "ANY"); cbn [through_first_Path fst negb].
  - now rewrite andb_false_r.
  - rewrite andb_true_r. now destruct (PyStr.eqb annot_name "Path").
Qed.

(** The second loop of [_find_methods] collects the path candidates of the
    specification. *)
Lemma collect_paths_reads (method_type : string)
    (entries : list (string * option Node)) :
  reads (map snd (candidate_sources_spec method_type entries))
        (eq (path_candidates_spec method_type entries))
        (collect_paths method_type entries).
Proof.
  unfold path_candidates_spec.
  induction entries as [|[annot_name args_node] rest IH].
  - unfold candidate_sources_spec. cbn. destruct (PyStr.eqb method_type "ANY");
      now apply reads_ret.
  - cbn [collect_paths]. rewrite candidate_sources_spec_cons.
    pose proof (path_bearing_spec_eq annot_name) as Hbearing.
    destruct (PyStr.in_list annot_name path_bearing_spec); rewrite Hbearing;
      [|exact IH].
    cbn [map snd flat_map].
    apply (reads_rbind [args_node] _ (eq (literals_under args_node)));
      [apply collect_string_literals_reads|].
    intros literals <-.
    destruct (PyStr.eqb annot_name "Path" && negb (PyStr.eqb method_type "ANY")).
    + cbn [map flat_map]. rewrite app_nil_r. now apply reads_ret.
    + rewrite <- (app_nil_r (map snd _)).
      eapply reads_rbind; [exact IH|].
      intros paths <-. now apply reads_ret.
Qed.

End Reading.

(** *** The analyzer, step by step *)

Section JavaRefinement.
Context `{TreeSitter} `{SetOrder} `{Interpreter}.

Lemma base_path_of_reads (self : Analyzer) (datas : list (dict string Node)) :
  let found :=
    find (fun data =>
            match dict_get "anno_name" data, dict_get "args" data with
            | Some an, Some _ =>
                PyStr.in_list (_get_text self an) ["RequestMapping"; "Path"]
            | _, _ => false
            end) datas in
  reads (match found with Some data => [dict_get "args" data] | None => [] end)
        (eq (match found with
             | Some data => hd "" (literals_under (dict_get "args" data))
             | None => ""
             end))
        (base_path_of self datas).
Proof.
  cbv zeta. induction datas as [|data rest IH]; [now apply reads_ret|].
  cbn [base_path_of find]. unfold dict in *.
  destruct (dict_get "anno_name" data) as [an|]; [|exact IH].
  destruct (PyStr.in_list (_get_text self an) ["RequestMapping"; "Path"]).
  - destruct (dict_get "args" data) as [args|] eqn:Hargs; [|exact IH].
    unfold dict in *. rewrite Hargs.
    rewrite <- (app_nil_r [Some args]).
    eapply reads_rbind; [apply collect_string_literals_reads|].
    intros literals <-. apply reads_ret. now destruct (literals_under (Some args)).
  - destruct (dict_get "args" data); exact IH.
Qed.

Lemma wp_find_class_base_path_reads (self : Analyzer) (class_node : Node) :
  wp (_find_class_base_path self class_node)
     (reads (match base_path_annotation self class_node with
             | Some data => [dict_get "args" data]
             | None => []
             end)
            (eq (class_base_path_of self class_node))).
Proof.
  unfold _find_class_base_path, class_base_path_of, base_path_annotation.
  destruct (first_child_of_type "modifiers" class_node) as [modifiers|].
  - apply wp_bind, wp_execute_query, wp_lift. apply base_path_of_reads.
  - apply wp_ret. now apply reads_ret.
Qed.

(** The names [_find_auth_annotations] keeps are those of the vocabulary of
    the specification. *)
Lemma auth_names_on_spec (self : Analyzer) (node : Node) :
  auth_names_on self node = auth_annotations_spec self node.
Proof.
  unfold auth_names_on, auth_annotations_spec, annotation_names_on.
  destruct (first_child_of_type "modifiers" node) as [modifiers|]; [|reflexivity].
  induction (captures_of self java_auth_query modifiers) as [|[n label] captures IH];
    [reflexivity|].
  cbn [auth_entries flat_map List.filter snd]. fold (auth_entries self captures).
  rewrite IH. destruct (PyStr.eqb label "auth_name"); cbn [andb]; [|reflexivity].
  cbn [map List.filter fst].
  pose proof (auth_vocabulary_spec_eq (_get_text self n)) as Hvocabulary.
  destruct (PyStr.in_list (_get_text self n) auth_vocabulary_spec);
    rewrite Hvocabulary; reflexivity.
Qed.

Lemma wp_emit_endpoints_exact (self : Analyzer) (base hn mt : string)
    (auth : list string) (params_node : option Node) (method_node : Node)
    (paths : list string) :
  forall endpoints,
  wp (foldM (emit_endpoint self base hn mt auth params_node method_node)
            paths endpoints)
     (fun r =>
        r = Returns
              (endpoints
               ++ map (fun method_path =>
                         mkEndpoint "" hn mt (endpoint_path base method_path)
                                    (start_row method_node + 1)
                                    (_get_text self method_node)
                                    (java_parameters_of self params_node method_node)
                                    auth)
                      paths)).
Proof.
  induction paths as [|p paths IH]; intros endpoints; cbn [foldM map].
  - apply wp_ret. now rewrite app_nil_r.
  - apply wp_bind. unfold emit_endpoint at 1.
    apply wp_bind, wp_parse_java_parameters, wp_ret.
    eapply wp_mono; [apply IH|].
    intros r ->. now rewrite <- app_assoc.
Qed.

(** One pass of the loop of [_find_methods]: the endpoints of the method, as
    the specification has them. *)
Lemma wp_find_methods_body_reads (self : Analyzer) (base : string)
    (class_auth : list string) (endpoints : list APIEndpoint)
    (capture : Node * string) :
  wp (find_methods_body self base class_auth endpoints capture)
     (reads (method_sources self (fst capture))
            (eq (endpoints ++ method_endpoints_for self base class_auth (fst capture)))).
Proof.
  destruct capture as [method_node label]. cbn [fst].
  unfold find_methods_body, method_sources, method_endpoints_for, annotations_on.
  cbn [fst].
  destruct (first_child_of_type "modifiers" method_node) as [modifiers|] eqn:Hm;
    [|apply wp_ret, reads_ret; now rewrite app_nil_r].
  destruct (child_by_field_name "name" method_node) as [name_node|];
    [|apply wp_ret, reads_ret; now rewrite app_nil_r].
  apply wp_bind, wp_execute_query. cbn [compile_query].
  fold (captures_of self java_annotation_query modifiers).
  rewrite scan_method_annotations_eq, concrete_verbs_spec,
    existsb_endpoint_annotation_spec.
  destruct (existsb endpoint_annotation_spec _); cbn [negb];
    [|apply wp_ret, reads_ret; now rewrite app_nil_r].
  match goal with
  | |- wp _ (reads ?s _) => rewrite <- (app_nil_r s)
  end.
  eapply wp_reads_bind; [apply wp_lift, collect_paths_reads|].
  intros paths <-.
  apply wp_bind. rewrite <- Hm. apply wp_find_auth_annotations.
  rewrite auth_names_on_spec.
  eapply wp_mono; [apply wp_emit_endpoints_exact|].
  intros r ->. now apply reads_ret.
Qed.

Lemma wp_find_methods_loop_reads (self : Analyzer) (base : string)
    (class_auth : list string) (captures : list (Node * string)) :
  forall endpoints,
  wp (foldM (find_methods_body self base class_auth) captures endpoints)
     (reads (flat_map (method_sources self) (map fst captures))
            (eq (endpoints
                 ++ flat_map (method_endpoints_for self base class_auth)
                             (map fst captures)))).
Proof.
  induction captures as [|capture captures IH]; intros endpoints;
    cbn [foldM map flat_map].
  - apply wp_ret, reads_ret. now rewrite app_nil_r.
  - eapply wp_reads_bind; [apply wp_find_methods_body_reads|].
    intros endpoints' <-. eapply wp_mono; [apply IH|].
    intros r Hr. eapply reads_mono; [exact Hr|].
    intros found <-. now rewrite app_assoc.
Qed.

Lemma wp_find_methods_reads (self : Analyzer) (class_body : Node) (base : string)
    (class_auth : list string) :
  let methods := map fst (captures_of self java_method_query class_body) in
  wp (_find_methods self class_body base class_auth)
     (reads (flat_map (method_sources self) methods)
            (eq (flat_map (method_endpoints_for self base class_auth) methods))).
Proof.
  cbv zeta. unfold _find_methods. apply wp_bind, wp_execute_query. cbn [compile_query].
  apply (wp_find_methods_loop_reads self base class_auth _ []).
Qed.

(** The endpoints of a class declaration. *)
Lemma wp_class_reads (self : Analyzer) (class_node : Node)
    (endpoints : list APIEndpoint) (seen : gset nat) :
  wp (let! base_path := _find_class_base_path self class_node in
      let! class_auth := _find_class_auth self class_node in
      match first_child_of_type "class_body" class_node with
      | Some class_body =>
          let! found := _find_methods self class_body base_path class_auth in
          ret (endpoints ++ found, seen)
      | None => ret (endpoints, seen)
      end)
     (reads (class_sources self class_node)
            (eq (endpoints
                 ++ flat_map (method_endpoints_spec self class_node)
                             (methods_in self class_node),
                 seen))).
Proof.
  unfold class_sources, methods_in.
  eapply wp_reads_bind; [apply wp_find_class_base_path_reads|].
  intros base_path <-.
  apply wp_bind. unfold _find_class_auth. apply wp_find_auth_annotations.
  rewrite auth_names_on_spec.
  destruct (first_child_of_type "class_body" class_node) as [class_body|].
  - match goal with
    | |- wp _ (reads ?s _) => rewrite <- (app_nil_r s)
    end.
    eapply wp_reads_bind; [apply wp_find_methods_reads|].
    intros found <-. apply wp_ret, reads_ret. reflexivity.
  - apply wp_ret, reads_ret. cbn [flat_map]. now rewrite app_nil_r.
Qed.

Lemma wp_java_analyze_loop_reads (self : Analyzer) (captures : list (Node * string)) :
  forall endpoints seen,
  wp (foldM (java_analyze_body self) captures (endpoints, seen))
     (reads (flat_map (class_sources self) (distinct_classes seen captures))
            (fun st =>
               fst st
               = endpoints
                 ++ flat_map (fun class_node =>
                                flat_map (method_endpoints_spec self class_node)
                                         (methods_in self class_node))
                             (distinct_classes seen captures))).
Proof.
  induction captures as [|[class_node capture_name] captures IH];
    intros endpoints seen; cbn [foldM distinct_classes].
  - apply wp_ret, reads_ret. cbn [fst flat_map]. now rewrite app_nil_r.
  - unfold java_analyze_body at 1.
    destruct (PyStr.eqb capture_name "class_node"
              && negb (bool_decide (start_byte class_node ∈ seen))).
    + cbn [flat_map].
      eapply wp_reads_bind; [apply wp_class_reads|].
      intros st <-. eapply wp_mono; [apply IH|].
      intros r Hr. eapply reads_mono; [exact Hr|].
      intros st ->. now rewrite app_assoc.
    + apply wp_bind, wp_ret. apply IH.
Qed.

Lemma flat_map_pairs {A B C : Type} (members : A -> list B) (f : A -> B -> list C)
    (l : list A) :
  flat_map (fun pair => f (fst pair) (snd pair))
           (flat_map (fun a => map (fun b => (a, b)) (members a)) l)
  = flat_map (fun a => flat_map (f a) (members a)) l.
Proof.
  induction l as [|a l IH]; [reflexivity|].
  cbn [flat_map]. rewrite flat_map_app, IH. f_equal.
  induction (members a) as [|b bs IHb]; [reflexivity|].
  cbn [map flat_map fst snd]. now rewrite IHb.
Qed.

(** [JavaAnalyzer.analyze] returns the endpoints of the specification when
    the literals it reads are readable, and raises otherwise. *)
Lemma wp_java_analyze_reads (self : Analyzer) :
  wp (java_analyze self)
     (reads (literal_sources self) (eq (java_endpoints_spec self))).
Proof.
  unfold java_analyze, _query, literal_sources, java_endpoints_spec,
    captured_methods_spec, class_declarations_spec.
  apply wp_bind, wp_execute_query. cbn [compile_query].
  fold (captures_of self java_class_query (root_node self)).
  match goal with
  | |- wp _ (reads ?s _) => rewrite <- (app_nil_r s)
  end.
  eapply wp_reads_bind; [apply wp_java_analyze_loop_reads|].
  intros st Hst. apply wp_ret, reads_ret. cbv beta in Hst. rewrite Hst.
  cbn [app].
  apply (flat_map_pairs (methods_in self) (method_endpoints_spec self)).
Qed.

Lemma java_analyze_reads (self : Analyzer) (c : gmap string Language) :
  cache_ok c ->
  reads (literal_sources self) (eq (java_endpoints_spec self))
        (fst (java_analyze self c)).
Proof. intros Hc. exact (wp_run _ _ c (wp_java_analyze_reads self) Hc). Qed.

Lemma java_analyze_returns (self : Analyzer) (c : gmap string Language)
    (eps : list APIEndpoint) :
  cache_ok c ->
  fst (java_analyze self c) = Returns eps ->
  eps = java_endpoints_spec self.
Proof.
  intros Hc Hrun. pose proof (java_analyze_reads self c Hc) as Hr.
  unfold reads in Hr. rewrite Hrun in Hr.
  destruct (forallb readable (literal_sources self)).
  - destruct Hr as (a & [= <-] & <-). reflexivity.
  - now destruct Hr as (e & [=] & _).
Qed.

End JavaRefinement.

(** *** Two runs *)

Section TwoRunsLogic.
Context `{TreeSitter}.

Lemma related_ret {A B : Type} (R : A -> B -> Prop) (a : A) (b : B) :
  R a b -> related R (ret a) (ret b).
Proof. intros HR c1 c2 Hc1 Hc2. cbn. auto. Qed.

Lemma related_stable {A : Type} (m : M (gmap string Language) A) :
  stable m -> related eq m m.
Proof.
  intros Hm c1 c2 Hc1 Hc2.
  destruct (Hm c1 Hc1) as [E1 Hk1]. destruct (Hm c2 Hc2) as [E2 Hk2].
  split; [|auto]. rewrite E1, E2. now destruct (fst (m ∅)).
Qed.

Lemma related_mono {A B : Type} (R R' : A -> B -> Prop)
    (m1 : M (gmap string Language) A) (m2 : M (gmap string Language) B) :
  related R m1 m2 -> (forall a b, R a b -> R' a b) -> related R' m1 m2.
Proof.
  intros Hm HR c1 c2 Hc1 Hc2. destruct (Hm c1 c2 Hc1 Hc2) as (Hr & Hk).
  split; [|exact Hk].
  destruct (fst (m1 c1)), (fst (m2 c2)); cbn in *; auto.
Qed.

Lemma related_bind {A1 A2 B1 B2 : Type} (R : A1 -> A2 -> Prop) (Q : B1 -> B2 -> Prop)
    (m1 : M (gmap string Language) A1) (m2 : M (gmap string Language) A2)
    (f1 : A1 -> M (gmap string Language) B1) (f2 : A2 -> M (gmap string Language) B2) :
  related R m1 m2 ->
  (forall a1 a2, R a1 a2 -> related Q (f1 a1) (f2 a2)) ->
  related Q (bind m1 f1) (bind m2 f2).
Proof.
  intros Hm Hf c1 c2 Hc1 Hc2. unfold bind.
  destruct (Hm c1 c2 Hc1 Hc2) as (Hr & Hk1 & Hk2).
  destruct (m1 c1) as [[a1|e1] k1], (m2 c2) as [[a2|e2] k2]; cbn in *;
    try contradiction; [now apply Hf | auto].
Qed.

(** A step that is the same in both runs. *)
Lemma related_bind_same {A B1 B2 : Type} (Q : B1 -> B2 -> Prop)
    (m : M (gmap string Language) A)
    (f1 : A -> M (gmap string Language) B1) (f2 : A -> M (gmap string Language) B2) :
  stable m ->
  (forall a, related Q (f1 a) (f2 a)) ->
  related Q (bind m f1) (bind m f2).
Proof.
  intros Hm Hf. apply (related_bind eq); [now apply related_stable|].
  intros a1 a2 <-. apply Hf.
Qed.

Lemma related_foldM {A B1 B2 : Type} (R : B1 -> B2 -> Prop)
    (body1 : B1 -> A -> M (gmap string Language) B1)
    (body2 : B2 -> A -> M (gmap string Language) B2) (l : list A) :
  (forall b1 b2 a, R b1 b2 -> related R (body1 b1 a) (body2 b2 a)) ->
  forall b1 b2, R b1 b2 -> related R (foldM body1 l b1) (foldM body2 l b2).
Proof.
  intros Hbody. induction l as [|a l IH]; intros b1 b2 Hb; cbn [foldM].
  - now apply related_ret.
  - apply (related_bind R); [now apply Hbody|]. exact IH.
Qed.

End TwoRunsLogic.

Lemma same_up_to_auth_order_refl (e : APIEndpoint) : same_up_to_auth_order e e.
Proof. unfold same_up_to_auth_order. repeat split; reflexivity. Qed.

Lemma same_endpoints_refl (endpoints : list APIEndpoint) :
  Forall2 same_up_to_auth_order endpoints endpoints.
Proof.
  induction endpoints as [|e endpoints IH]; constructor;
    [apply same_up_to_auth_order_refl | exact IH].
Qed.

(** The Java analyzer in two processes: the two listing orders show in the
    order of the authorization names, and nowhere else. *)
Section TwoProcesses.
Context `{TreeSitter} `{Interpreter} (process1 process2 : SetOrder).

Lemma related_find_auth_annotations (self : Analyzer) (modifiers : option Node) :
  related (fun names1 names2 => forall x, In x names1 <-> In x names2)
          (@_find_auth_annotations _ process1 self modifiers)
          (@_find_auth_annotations _ process2 self modifiers).
Proof.
  unfold _find_auth_annotations. destruct modifiers as [modifiers|].
  - apply related_bind_same; [apply stable_execute_query|].
    intros captures. apply related_ret. intros x.
    now rewrite (@list_of_set_In process1), (@list_of_set_In process2).
  - now apply related_ret.
Qed.

Lemma union_in_two_orders (class_auth1 class_auth2 method_auth1 method_auth2 : list string) :
  (forall x, In x class_auth1 <-> In x class_auth2) ->
  (forall x, In x method_auth1 <-> In x method_auth2) ->
  Permutation (@list_of_set process1 (class_auth1 ++ method_auth1))
              (@list_of_set process2 (class_auth2 ++ method_auth2)).
Proof.
  intros Hclass Hmethod. apply NoDup_Permutation; try apply list_of_set_NoDup.
  intros x. rewrite !list_elem_of_In.
  rewrite (@list_of_set_In process1), (@list_of_set_In process2), !in_app_iff.
  now rewrite Hclass, Hmethod.
Qed.

Lemma related_emit_endpoints (self : Analyzer) (base hn mt : string)
    (auth1 auth2 : list string) (params_node : option Node) (method_node : Node)
    (paths : list string) (endpoints1 endpoints2 : list APIEndpoint) :
  Permutation auth1 auth2 ->
  Forall2 same_up_to_auth_order endpoints1 endpoints2 ->
  related (Forall2 same_up_to_auth_order)
          (foldM (emit_endpoint self base hn mt auth1 params_node method_node)
                 paths endpoints1)
          (foldM (emit_endpoint self base hn mt auth2 params_node method_node)
                 paths endpoints2).
Proof.
  intros Hauth. revert endpoints1 endpoints2. apply related_foldM.
  intros found1 found2 method_path Hfound. unfold emit_endpoint.
  apply related_bind_same; [apply stable_parse_java_parameters|].
  intros parameters. apply related_ret.
  apply Forall2_app; [exact Hfound|].
  constructor; [|constructor]. unfold same_up_to_auth_order. cbn.
  repeat split; auto.
Qed.

Lemma related_find_methods_body (self : Analyzer) (base : string)
    (class_auth1 class_auth2 : list string) (endpoints1 endpoints2 : list APIEndpoint)
    (capture : Node * string) :
  (forall x, In x class_auth1 <-> In x class_auth2) ->
  Forall2 same_up_to_auth_order endpoints1 endpoints2 ->
  related (Forall2 same_up_to_auth_order)
          (@find_methods_body _ process1 _ self base class_auth1 endpoints1 capture)
          (@find_methods_body _ process2 _ self base class_auth2 endpoints2 capture).
Proof.
  intros Hclass Hfound. unfold find_methods_body.
  destruct (first_child_of_type "modifiers" (fst capture)) as [modifiers|];
    [|now apply related_ret].
  destruct (child_by_field_name "name" (fst capture)) as [name_node|];
    [|now apply related_ret].
  apply related_bind_same; [apply stable_execute_query|].
  intros captures.
  destruct (scan_method_annotations _ _) as [[annot_list method_type] has].
  destruct has; cbn [negb]; [|now apply related_ret].
  apply related_bind_same; [apply stable_lift|].
  intros paths.
  eapply related_bind; [apply related_find_auth_annotations|].
  intros method_auth1 method_auth2 Hmethod.
  apply related_emit_endpoints; [|exact Hfound].
  now apply union_in_two_orders.
Qed.

Lemma related_find_methods (self : Analyzer) (class_body : Node) (base : string)
    (class_auth1 class_auth2 : list string) :
  (forall x, In x class_auth1 <-> In x class_auth2) ->
  related (Forall2 same_up_to_auth_order)
          (@_find_methods _ process1 _ self class_body base class_auth1)
          (@_find_methods _ process2 _ self class_body base class_auth2).
Proof.
  intros Hclass. unfold _find_methods.
  apply related_bind_same; [apply stable_execute_query|].
  intros captures. apply related_foldM; [|constructor].
  intros found1 found2 capture Hfound. now apply related_find_methods_body.
Qed.

Lemma related_java_analyze (self : Analyzer) :
  related (Forall2 same_up_to_auth_order)
          (@java_analyze _ process1 _ self) (@java_analyze _ process2 _ self).
Proof.
  unfold java_analyze.
  apply related_bind_same; [apply stable_query|].
  intros captures.
  apply (related_bind
           (fun st1 st2 : list APIEndpoint * gset nat =>
              Forall2 same_up_to_auth_order (fst st1) (fst st2) /\ snd st1 = snd st2)).
  - apply related_foldM; [|split; [constructor | reflexivity]].
    intros [endpoints1 seen1] [endpoints2 seen2] [class_node capture_name]
           [Hfound Hseen].
    cbn [fst snd] in Hfound, Hseen. subst seen2. unfold java_analyze_body.
    destruct (_ && _); [|now apply related_ret].
    apply related_bind_same; [apply stable_find_class_base_path|].
    intros base_path.
    eapply related_bind; [apply related_find_auth_annotations|].
    intros class_auth1 class_auth2 Hclass.
    destruct (first_child_of_type "class_body" class_node) as [class_body|];
      [|now apply related_ret].
    eapply related_bind; [now apply related_find_methods|].
    intros found1 found2 Hnew. apply related_ret. cbn [fst snd].
    split; [now apply Forall2_app | reflexivity].
  - intros st1 st2 [Hfound _]. now apply related_ret.
Qed.

Lemma related_analyze (self : Analyzer) :
  related (Forall2 same_up_to_auth_order)
          (@analyze _ process1 _ self) (@analyze _ process2 _ self).
Proof.
  unfold analyze. destruct (cls self).
  - eapply related_mono; [apply related_stable, stable_python_analyze|].
    intros endpoints ? <-. apply same_endpoints_refl.
  - apply related_java_analyze.
  - eapply related_mono; [apply related_stable, stable_node_analyze|].
    intros endpoints ? <-. apply same_endpoints_refl.
Qed.

Lemma related_analyze_source (lang source : string) :
  related same_endpoints
          (@analyze_source _ process1 _ lang source)
          (@analyze_source _ process2 _ lang source).
Proof.
  unfold analyze_source.
  apply related_bind_same.
  { unfold get_analyzer.
    repeat (match goal with |- stable (if ?b then _ else _) => destruct b end);
      try apply stable_ret;
      (apply stable_bind; [apply stable_BaseAnalyzer_init | intros; apply stable_ret]). }
  intros [analyzer|]; [|now apply related_ret].
  eapply related_bind; [apply related_analyze|].
  intros endpoints1 endpoints2 Hfound. now apply related_ret.
Qed.

(** Outside Java the listing order plays no part. *)
Lemma analyze_source_without_sets (lang source : string) (c : gmap string Language) :
  lang <> "java" ->
  @analyze_source _ process1 _ lang source c
  = @analyze_source _ process2 _ lang source c.
Proof.
  intros Hlang. unfold analyze_source. rewrite !bind_run, get_analyzer_run.
  unfold analyzer_class.
  destruct (PyStr.eqb lang "python"); [reflexivity|].
  destruct (PyStr.eqb lang "java") eqn:Hjava;
    [apply eqb_true in Hjava; contradiction|].
  destruct (PyStr.in_list lang ["javascript"; "typescript"]); reflexivity.
Qed.

End TwoProcesses.

(** *** The endpoints of a file *)

Section JavaEndpoints.
Context `{TreeSitter} `{SetOrder} `{Interpreter}.

Lemma method_paths_spec_length (candidates : list string) :
  length (method_paths_spec candidates) = Nat.max 1 (length candidates).
Proof. destruct candidates; cbn [method_paths_spec length]; lia. Qed.

(** C4, as amended.  The Java analyzer returns when the literals it reads
    are readable, and what it returns is made of one block of endpoints for
    every class declaration and every method declaration found in the body
    of that class, in order.  The block of a method that has modifiers, a
    name and an endpoint annotation holds one endpoint for every path
    candidate of the method, in order, and exactly one endpoint, with the
    empty method path, when there is no candidate: [n] endpoints for
    [n >= 1] candidates, one endpoint for none.  The candidates are the
    string literals under the path-bearing annotations of the method, those
    after a [@Path] left out when a verb is specified.  The endpoints of the
    block have the name, the verb, the line and the text of the method, and
    as path the base path of the class joined with the method path. *)
Theorem java_endpoints_per_path_candidate (self : Analyzer)
    (c : gmap string Language) :
  cache_ok c ->
  (forallb readable (literal_sources self) = true ->
   fst (java_analyze self c) = Returns (java_endpoints_spec self))
  /\ forall eps,
       fst (java_analyze self c) = Returns eps ->
       forall class_node method_node before after handler_name_node,
         captured_methods_spec self = before ++ (class_node, method_node) :: after ->
         first_child_of_type "modifiers" method_node <> None ->
         child_by_field_name "name" method_node = Some handler_name_node ->
         existsb endpoint_annotation_spec (map fst (annotations_on self method_node))
           = true ->
         let verb := verb_spec (map fst (annotations_on self method_node)) in
         let candidates := path_candidates_spec verb (annotations_on self method_node) in
         exists block,
           eps
           = flat_map (fun pair => method_endpoints_spec self (fst pair) (snd pair)) before
             ++ block
             ++ flat_map (fun pair => method_endpoints_spec self (fst pair) (snd pair)) after
           /\ length block = Nat.max 1 (length candidates)
           /\ map path block
              = map (endpoint_path (class_base_path_of self class_node))
                    (method_paths_spec candidates)
           /\ Forall (fun e => handler_name e = _get_text self handler_name_node
                               /\ http_method e = verb
                               /\ line_number e = start_row method_node + 1
                               /\ snippet e = _get_text self method_node)
                     block.
Proof.
  intros Hc. pose proof (java_analyze_reads self c Hc) as Hreads. split.
  - intros Hreadable. unfold reads in Hreads. rewrite Hreadable in Hreads.
    now destruct Hreads as (eps & -> & <-).
  - intros eps Hrun class_node method_node before after handler_name_node
           Hpairs Hmodifiers Hname Hendpoint verb candidates.
    apply (java_analyze_returns self c eps Hc) in Hrun. subst eps.
    exists (method_endpoints_spec self class_node method_node). split.
    { unfold java_endpoints_spec. rewrite Hpairs, flat_map_app. reflexivity. }
    unfold method_endpoints_spec, method_endpoints_for.
    destruct (first_child_of_type "modifiers" method_node) as [modifiers|];
      [|contradiction].
    rewrite Hname, Hendpoint. fold verb. fold candidates.
    split; [now rewrite length_map, method_paths_spec_length|].
    split; [now rewrite map_map|].
    apply List.Forall_forall. intros e He. apply in_map_iff in He.
    destruct He as (method_path & <- & _). cbn. auto.
Qed.

(** X21.  The authorization names of the endpoints.  What the Java analyzer
    returns is made of one block of endpoints for every class declaration
    and every method declaration found in the body of that class, so every
    endpoint it returns lies in the block of such a class and method.  An
    endpoint of the block of a class and a method has the name, the line and
    the text of the method, and its [auth_mechanisms] lists, without
    duplicates, exactly the names of the vocabulary of the specification that
    are annotation names on that class or on that method: the set union of
    the two, in the order the process lists a set. *)
Theorem endpoint_auth_is_the_union_of_class_and_method (self : Analyzer)
    (c : gmap string Language) (eps : list APIEndpoint) :
  cache_ok c ->
  fst (java_analyze self c) = Returns eps ->
  eps = flat_map (fun pair => method_endpoints_spec self (fst pair) (snd pair))
                 (captured_methods_spec self)
  /\ (forall e, In e eps ->
        exists class_node method_node,
          In class_node (class_declarations_spec self)
          /\ In method_node (methods_in self class_node)
          /\ In e (method_endpoints_spec self class_node method_node))
  /\ forall class_node method_node e,
       In e (method_endpoints_spec self class_node method_node) ->
       (exists handler_name_node,
          child_by_field_name "name" method_node = Some handler_name_node
          /\ handler_name e = _get_text self handler_name_node)
       /\ line_number e = start_row method_node + 1
       /\ snippet e = _get_text self method_node
       /\ NoDup (auth_mechanisms e)
       /\ forall x,
            In x (auth_mechanisms e)
            <-> In x auth_vocabulary_spec
                /\ (In x (annotation_names_on self class_node)
                    \/ In x (annotation_names_on self method_node)).
Proof.
  intros Hc Hrun.
  pose proof (java_analyze_returns self c eps Hc Hrun) as Heps.
  split; [exact Heps|]. split.
  - intros e He. rewrite Heps in He. unfold java_endpoints_spec in He.
    apply in_flat_map in He as ([class_node method_node] & Hpair & He).
    unfold captured_methods_spec in Hpair.
    apply in_flat_map in Hpair as (class_node' & Hclass & Hmethod).
    apply in_map_iff in Hmethod as (method_node' & [= <- <-] & Hmethod).
    exists class_node', method_node'. auto.
  - intros class_node method_node e He.
    unfold method_endpoints_spec, method_endpoints_for in He.
    destruct (first_child_of_type "modifiers" method_node); [|contradiction].
    destruct (child_by_field_name "name" method_node) as [handler_name_node|];
      [|contradiction].
    destruct (existsb endpoint_annotation_spec _); [|contradiction].
    apply in_map_iff in He. destruct He as (method_path & <- & _).
    cbn [handler_name line_number snippet auth_mechanisms].
    split; [now exists handler_name_node|].
    split; [reflexivity|]. split; [reflexivity|].
    split; [apply list_of_set_NoDup|].
    intros x. rewrite list_of_set_In, in_app_iff, !list_of_set_In.
    unfold auth_annotations_spec. rewrite !filter_In, !in_list_In. tauto.
Qed.

(** X22.  The Java analyzer returns exactly when every node whose literals
    it reads is readable: no deeper than the interpreter allows, and with
    well-formed string literals only.  It raises UnicodeDecodeError or
    RecursionError otherwise. *)
Theorem java_analyzer_returns_iff_literals_are_readable (self : Analyzer)
    (c : gmap string Language) :
  cache_ok c ->
  ((exists eps, fst (java_analyze self c) = Returns eps)
   <-> forallb readable (literal_sources self) = true)
  /\ (forallb readable (literal_sources self) = false ->
      fst (java_analyze self c) = Raises UnicodeDecodeError
      \/ fst (java_analyze self c) = Raises RecursionError).
Proof.
  intros Hc. pose proof (java_analyze_reads self c Hc) as Hreads.
  unfold reads in Hreads.
  destruct (forallb readable (literal_sources self)).
  - destruct Hreads as (eps & Hrun & _). split; [|discriminate].
    split; [reflexivity | now exists eps].
  - destruct Hreads as (e & Hrun & He). split.
    + split; [|discriminate]. intros [eps Heps]. congruence.
    + intros _. rewrite Hrun. destruct He as [-> | ->]; auto.
Qed.

End JavaEndpoints.

(** ** Determinism *)

(** C7, as amended.  In one process the outcome of the core on a language
    identifier and a source is the same each time: from any two states of
    the grammar cache that satisfy its invariant (the empty cache, or the
    cache left by earlier analyses) the core yields the same endpoints in the
    same order or the same exception, a second run on the same input gives
    what the first gave, and the invariant stays in place.  In two
    processes, which may list the elements of a set in different orders, the
    two outcomes are the same exception, or no analyzer in both, or two
    sequences of the same length whose endpoints are equal one by one in
    every field but [auth_mechanisms], which holds the same names in an order
    that may differ; for a language other than "java" the two outcomes are
    equal. *)
Theorem analysis_is_deterministic_up_to_set_order `{TreeSitter} `{Interpreter}
    (process1 process2 : SetOrder) (lang source : string)
    (c1 c2 : gmap string Language) :
  cache_ok c1 -> cache_ok c2 ->
  let run1 := @analyze_source _ process1 _ lang source in
  let run2 := @analyze_source _ process2 _ lang source in
  fst (run1 c1) = fst (run1 c2)
  /\ fst (run1 c1) = fst (run1 (snd (run1 c1)))
  /\ cache_ok (snd (run1 c1))
  /\ same_outcome same_endpoints (fst (run1 c1)) (fst (run2 c2))
  /\ (lang <> "java" -> fst (run1 c1) = fst (run2 c2)).
Proof.
  intros Hc1 Hc2 run1 run2. unfold run1, run2.
  destruct (@stable_analyze_source _ process1 _ lang source c1 Hc1) as [E1 Hk1].
  destruct (@stable_analyze_source _ process1 _ lang source c2 Hc2) as [E2 _].
  destruct (@stable_analyze_source _ process1 _ lang source _ Hk1) as [E3 _].
  split; [congruence|]. split; [congruence|]. split; [exact Hk1|].
  split.
  - now destruct (related_analyze_source process1 process2 lang source c1 c2 Hc1 Hc2).
  - intros Hlang. rewrite E1, <- E2.
    exact (f_equal fst
             (analyze_source_without_sets process1 process2 lang source c2 Hlang)).
Qed.

(** ** The further properties on the examples *)

Section FurtherExamples.

(** As before, the examples run with the engine [TS.captures] and the
    listing order [elements_order]. *)
#[local] Instance further_library : TreeSitter := ts_model no_captures.
#[local] Instance further_sets : SetOrder := elements_order.
#[local] Instance further_interpreter : Interpreter := example_interpreter.

(** The annotations of the method of the authorization example, as the
    correlation loop groups them: one group per annotation, keyed by its
    start byte. *)
Example auth_example_annotation_groups :
  let self := analyzer_on JavaAnalyzer "java" java_auth_src in
  let modifiers := the_child "modifiers" (the_node "method_declaration" (root_node self)) in
  let groups :=
    group_captures annotation_of (captures_of self java_annotation_query modifiers) in
  dict_keys groups = [73; 100]
  /\ map (fun key => option_map (_get_text self)
                       (group_lookup key "method_annotation" groups))
         [73; 100; 0]
     = [Some "RolesAllowed"; Some "GetMapping"; None].
Proof. split; vm_compute; reflexivity. Qed.

(** The class with the authorization annotations: its endpoint is
    well-formed. *)
Lemma auth_example_is_well_formed :
  let self := analyzer_on JavaAnalyzer "java" java_auth_src in
  cache_ok ∅
  /\ fst (java_analyze self ∅) = Returns (endpoints_of "java" java_auth_src)
  /\ Forall java_endpoint_ok (endpoints_of "java" java_auth_src).
Proof.
  intros self.
  assert (H0 : cache_ok ∅) by apply cache_ok_empty.
  assert (H1 : fst (java_analyze self ∅) = Returns (endpoints_of "java" java_auth_src))
    by (vm_compute; reflexivity).
  repeat (split; [assumption|]).
  exact (java_endpoints_are_well_formed self ∅ (endpoints_of "java" java_auth_src) H0 H1).
Defined.

(** The source in Latin-1: the exception is UnicodeDecodeError. *)
Lemma latin1_example_raises_decode_error :
  let self := analyzer_on JavaAnalyzer "java" java_latin1_src in
  cache_ok ∅
  /\ fst (java_analyze self ∅) = Raises UnicodeDecodeError
  /\ (UnicodeDecodeError = UnicodeDecodeError \/ UnicodeDecodeError = RecursionError).
Proof.
  intros self.
  assert (H0 : cache_ok ∅) by apply cache_ok_empty.
  assert (H1 : fst (java_analyze self ∅) = Raises UnicodeDecodeError)
    by (vm_compute; reflexivity).
  repeat (split; [assumption|]).
  exact (java_analyzer_exceptions self ∅ UnicodeDecodeError H0 H1).
Defined.

(** An annotation argument nested 899 levels deep, with an interpreter that
    allows 900 nested calls where the literals are collected: the collector
    is called on the argument list, on each of the 899 initializers and on
    the literal, and the analyzer raises RecursionError.  With 898 levels it
    returns the endpoint. *)
Example deep_argument_raises_recursion_error :
  let deep := analyzer_of_tree JavaAnalyzer "java" java_ab_src (java_deep_tree 899) in
  let shallow := analyzer_of_tree JavaAnalyzer "java" java_ab_src (java_deep_tree 898) in
  fst (java_analyze deep ∅) = Raises RecursionError
  /\ match fst (java_analyze shallow ∅) with
     | Returns eps => map (fun e => (http_method e, path e)) eps = [("GET", "/a")]
     | Raises _ => False
     end.
Proof. split; vm_compute; reflexivity. Qed.

(** The method annotated [@Override] and [@Deprecated]: no endpoint. *)
Lemma plain_method_is_skipped :
  let self := analyzer_of_tree JavaAnalyzer "java" java_plain_src java_plain_tree in
  let method_node := the_node "method_declaration" (root_node self) in
  cache_ok ∅
  /\ (forall modifiers node,
        first_child_of_type "modifiers" method_node = Some modifiers ->
        In (node, "method_annotation")
           (captures_of self java_annotation_query modifiers) ->
        is_endpoint_annotation (_get_text self node) = false)
  /\ fst (find_methods_body self "" [] [] (method_node, "method_node") ∅) = Returns [].
Proof.
  intros self method_node.
  assert (H0 : cache_ok ∅) by apply cache_ok_empty.
  assert (H1 : forall modifiers node,
             first_child_of_type "modifiers" method_node = Some modifiers ->
             In (node, "method_annotation")
                (captures_of self java_annotation_query modifiers) ->
             is_endpoint_annotation (_get_text self node) = false).
  { intros modifiers node Hm Hin. vm_compute in Hm. injection Hm as <-.
    vm_compute in Hin.
    repeat (destruct Hin as [Heq|Hin];
            [try discriminate Heq; injection Heq as <-; vm_compute; reflexivity|]).
    destruct Hin. }
  repeat (split; [assumption|]).
  exact (method_without_endpoint_annotation_is_skipped self "" [] [] method_node
           "method_node" ∅ H0 (or_intror (or_intror H1))).
Defined.

Example plain_class_has_no_endpoint :
  fst (java_analyze
         (analyzer_of_tree JavaAnalyzer "java" java_plain_src java_plain_tree) ∅)
  = Returns [].
Proof. vm_compute. reflexivity. Qed.

(** The method annotated [@GetMapping("/a")] and [@PostMapping("/b")]: the
    later annotation decides the verb of both endpoints. *)
Example two_verbs_later_one_wins :
  map (fun e => (http_method e, path e))
      match fst (java_analyze
                   (analyzer_of_tree JavaAnalyzer "java" java_two_verbs_src
                                     java_two_verbs_tree) ∅) with
      | Returns eps => eps
      | Raises _ => []
      end
  = [("POST", "/a"); ("POST", "/b")].
Proof. vm_compute. reflexivity. Qed.

(** The route with the inline handler. *)
Lemma users_route_is_well_formed :
  let self := analyzer_on NodeJSAnalyzer "javascript" js_users_src in
  cache_ok ∅
  /\ route_labels_ok self
  /\ exists eps,
       fst (node_analyze self ∅) = Returns eps
       /\ length eps
          <= length (node_group_captures
                       (captures_of self node_route_query (root_node self)))
       /\ Forall node_endpoint_ok eps.
Proof.
  intros self.
  assert (H0 : cache_ok ∅) by apply cache_ok_empty.
  assert (H1 : route_labels_ok self) by apply (ts_route_labels_ok no_captures self).
  repeat (split; [assumption|]).
  exact (node_analyzer_returns_well_formed_endpoints self ∅ H0 H1).
Defined.

Lemma users_route_parameters :
  let self := analyzer_on NodeJSAnalyzer "javascript" js_users_src in
  let handler_node := the_node "arrow_function" (root_node self) in
  cache_ok ∅
  /\ route_labels_ok self
  /\ fst (_parse_node_parameters self (Some handler_node) "/users/:id" ∅)
     = Returns (path_parameters "/users/:id"
                ++ (if bool_decide (captures_of self node_body_query handler_node = [])
                    then [] else [body_parameter]))
  /\ map name (path_parameters "/users/:id")
     = map (PyStr.lstrip ":")
           (List.filter (PyStr.startswith ":") (PyStr.split "/" "/users/:id"))
  /\ Forall (fun p => param_type p = PATH /\ data_type p = "Any" /\ required p = true
                      /\ PyStr.startswith ":" (name p) = false)
            (path_parameters "/users/:id").
Proof.
  intros self handler_node.
  assert (H0 : cache_ok ∅) by apply cache_ok_empty.
  assert (H1 : route_labels_ok self) by apply (ts_route_labels_ok no_captures self).
  repeat (split; [assumption|]).
  exact (node_parameters_are_path_then_body self handler_node "/users/:id" ∅ H0 H1).
Defined.

Example users_route_parameters_run :
  let self := analyzer_on NodeJSAnalyzer "javascript" js_users_src in
  fst (_parse_node_parameters self (Some (the_node "arrow_function" (root_node self)))
                              "/users/:id" ∅)
  = Returns [mkParam "id" PATH "Any" true; body_parameter].
Proof. vm_compute. reflexivity. Qed.

(** The decorated function: its decorators are placed as in the grammar,
    and the analyzer finds nothing. *)
Lemma items_analysis_finds_nothing :
  let self := analyzer_on PythonAnalyzer "python" py_items_src in
  cache_ok ∅
  /\ captures_of self python_decorator_query (root_node self) <> []
  /\ (forall capture decorator_node,
        In capture (captures_of self python_decorator_query (root_node self)) ->
        walk_up (fun n => PyStr.eqb (ntype n) "decorator") (fst capture)
          = Some decorator_node ->
        decorator_placed_as_in_grammar decorator_node)
  /\ fst (python_analyze self ∅) = Returns [].
Proof.
  intros self.
  assert (H0 : cache_ok ∅) by apply cache_ok_empty.
  assert (H1 : captures_of self python_decorator_query (root_node self) <> [])
    by (vm_compute; discriminate).
  assert (H2 : forall capture decorator_node,
             In capture (captures_of self python_decorator_query (root_node self)) ->
             walk_up (fun n => PyStr.eqb (ntype n) "decorator") (fst capture)
               = Some decorator_node ->
             decorator_placed_as_in_grammar decorator_node).
  { intros capture decorator_node Hin Hup. vm_compute in Hin.
    repeat (destruct Hin as [<-|Hin];
            [vm_compute in Hup; injection Hup as <-;
             eexists; split; vm_compute; reflexivity|]).
    destruct Hin. }
  repeat (split; [assumption|]).
  exact (python_analyzer_finds_nothing self ∅ H0 H2).
Defined.

(** The parameter query of python.py is refused for the parameters of the
    decorated function. *)
Example python_parameter_query_is_refused :
  let self := analyzer_on PythonAnalyzer "python" py_items_src in
  let params_node := the_node "parameters" (root_node self) in
  ntype params_node = "parameters"
  /\ fst (_parse_python_parameters self (Some params_node) ∅) = Raises SyntaxError.
Proof. split; vm_compute; reflexivity. Qed.

(** A file with the suffix ".JS" is taken for JavaScript. *)
Lemma upper_case_suffix_is_javascript :
  get_language_from_extension ".JS" LanguageOption.auto = Some "javascript"
  /\ In "javascript" registered_languages
  /\ exists a,
       fst (get_analyzer "javascript" js_users_src ∅) = Returns (Some a)
       /\ language_name a = "javascript"
       /\ source_bytes a = js_users_src
       /\ analyzer_class "javascript" = Some (cls a)
       /\ fst (analyze_source "javascript" js_users_src ∅) <> Returns None.
Proof.
  assert (H0 : get_language_from_extension ".JS" LanguageOption.auto = Some "javascript")
    by (vm_compute; reflexivity).
  split; [assumption|].
  exact (classified_files_have_an_analyzer ".JS" LanguageOption.auto "javascript"
           js_users_src ∅ H0).
Defined.

(** With [--lang nodejs] the suffix is compared as it is: ".JS" is left
    out, although the automatic detection accepts it. *)
Example forced_nodejs_is_case_sensitive :
  get_language_from_extension ".JS" LanguageOption.nodejs = None
  /\ get_language_from_extension ".js" LanguageOption.nodejs = Some "javascript"
  /\ get_language_from_extension ".JS" LanguageOption.auto = Some "javascript".
Proof. repeat split; vm_compute; reflexivity. Qed.

(** The file in Latin-1 is counted as analysed and contributes nothing. *)
Example latin1_file_is_counted :
  fst (scan_file ".java" LanguageOption.auto "src/C.java" java_latin1_src ([], 0) ∅)
  = Returns ([], 1).
Proof. vm_compute. reflexivity. Qed.

Example users_file_is_scanned :
  fst (scan_file ".js" LanguageOption.auto "routes/users.js" js_users_src ([], 0) ∅)
  = Returns (map (with_file_path "routes/users.js")
                 (endpoints_of "javascript" js_users_src), 1).
Proof. vm_compute. reflexivity. Qed.

(** The endpoint of the JavaScript example does not pass [--auth]. *)
Lemma users_route_fails_auth_filter :
  let self := analyzer_on NodeJSAnalyzer "javascript" js_users_src in
  let eps := endpoints_of "javascript" js_users_src in
  cache_ok ∅
  /\ cls self <> JavaAnalyzer
  /\ fst (analyze self ∅) = Returns eps
  /\ (forall no_auth, filter_endpoints [] [] true no_auth eps = [])
  /\ filter_endpoints [] [] false true eps = filter_endpoints [] [] false false eps
  /\ Forall (fun e => _format_auth (auth_mechanisms e) = "Unknown") eps.
Proof.
  intros self eps.
  assert (H0 : cache_ok ∅) by apply cache_ok_empty.
  assert (H1 : cls self <> JavaAnalyzer) by discriminate.
  assert (H2 : fst (analyze self ∅) = Returns eps) by (vm_compute; reflexivity).
  repeat (split; [assumption|]).
  exact (auth_filter_drops_endpoints_outside_java self ∅ eps [] [] H0 H1 H2).
Defined.

(** The literals of the controller with two path literals. *)
Lemma controller_literals_are_node_texts :
  let node := root_node (analyzer_on JavaAnalyzer "java" java_ab_src) in
  _collect_string_literals (Some node) = Returns ["/api"; "/a"; "/b"]
  /\ ["/api"; "/a"; "/b"]
     = map (fun l =>
              PyStr.strip PyStr.dquote
                (get_node_text (mkNode l [] [] (n_buffer node)) (n_buffer node)))
           (string_literals (n_tree node))
  /\ forall n : Node,
       well_formed (PyStr.slice (start_byte n) (end_byte n) (n_buffer node)) = true ->
       get_node_text n (n_buffer node)
       = PyStr.slice (start_byte n) (end_byte n) (n_buffer node).
Proof.
  intros node.
  assert (H0 : _collect_string_literals (Some node) = Returns ["/api"; "/a"; "/b"])
    by (vm_compute; reflexivity).
  split; [assumption|].
  exact (collected_literals_are_node_texts node ["/api"; "/a"; "/b"] H0).
Defined.

(** *** C4 *)

(** The claim fails on a method whose endpoint annotation is a bare
    [@GetMapping]: a path-bearing annotation that carries no path candidate.
    The analyzer returns one endpoint for it, with the path "/", not
    none. *)
Lemma bare_mapping_yields_one_endpoint :
  let self := analyzer_on JavaAnalyzer "java" java_bare_src in
  let method_node := the_node "method_declaration" (root_node self) in
  let entries := annotations_on self method_node in
  map fst entries = ["GetMapping"]
  /\ PyStr.in_list "GetMapping" path_bearing_spec = true
  /\ path_candidates_spec (verb_spec (map fst entries)) entries = []
  /\ map snd (captured_methods_spec self) = [method_node]
  /\ fst (java_analyze self ∅) = Returns (endpoints_of "java" java_bare_src)
  /\ map path (endpoints_of "java" java_bare_src) = ["/"]
  /\ length (endpoints_of "java" java_bare_src)
     <> length (path_candidates_spec (verb_spec (map fst entries)) entries).
Proof.
  intros self method_node entries.
  repeat (split; [vm_compute; reflexivity|]).
  vm_compute. discriminate.
Qed.

(** The class [@RequestMapping("/api")] with the method
    [@GetMapping({"/a","/b"})]: the analyzer returns, and the block of the
    method holds two endpoints. *)
Lemma two_candidates_two_endpoints :
  let self := analyzer_on JavaAnalyzer "java" java_ab_src in
  let class_node := the_node "class_declaration" (root_node self) in
  let method_node := the_node "method_declaration" (root_node self) in
  let handler_name_node := the_field "name" method_node in
  let entries := annotations_on self method_node in
  cache_ok ∅
  /\ forallb readable (literal_sources self) = true
  /\ fst (java_analyze self ∅) = Returns (java_endpoints_spec self)
  /\ captured_methods_spec self = [] ++ (class_node, method_node) :: []
  /\ first_child_of_type "modifiers" method_node <> None
  /\ child_by_field_name "name" method_node = Some handler_name_node
  /\ existsb endpoint_annotation_spec (map fst entries) = true
  /\ path_candidates_spec (verb_spec (map fst entries)) entries = ["/a"; "/b"]
  /\ exists block,
       java_endpoints_spec self
       = flat_map (fun pair => method_endpoints_spec self (fst pair) (snd pair)) []
         ++ block
         ++ flat_map (fun pair => method_endpoints_spec self (fst pair) (snd pair)) []
       /\ length block
          = Nat.max 1 (length (path_candidates_spec (verb_spec (map fst entries)) entries))
       /\ map path block
          = map (endpoint_path (class_base_path_of self class_node))
                (method_paths_spec
                   (path_candidates_spec (verb_spec (map fst entries)) entries))
       /\ Forall (fun e => handler_name e = _get_text self handler_name_node
                           /\ http_method e = verb_spec (map fst entries)
                           /\ line_number e = start_row method_node + 1
                           /\ snippet e = _get_text self method_node)
                 block.
Proof.
  intros self class_node method_node handler_name_node entries.
  assert (H0 : cache_ok ∅) by apply cache_ok_empty.
  assert (H1 : forallb readable (literal_sources self) = true)
    by (vm_compute; reflexivity).
  destruct (java_endpoints_per_path_candidate self ∅ H0) as [Hreturns Hblocks].
  assert (H2 : fst (java_analyze self ∅) = Returns (java_endpoints_spec self))
    by exact (Hreturns H1).
  assert (H3 : captured_methods_spec self = [] ++ (class_node, method_node) :: [])
    by (vm_compute; reflexivity).
  assert (H4 : first_child_of_type "modifiers" method_node <> None)
    by (vm_compute; discriminate).
  assert (H5 : child_by_field_name "name" method_node = Some handler_name_node)
    by (vm_compute; reflexivity).
  assert (H6 : existsb endpoint_annotation_spec (map fst entries) = true)
    by (vm_compute; reflexivity).
  assert (H7 : path_candidates_spec (verb_spec (map fst entries)) entries = ["/a"; "/b"])
    by (vm_compute; reflexivity).
  repeat (split; [assumption|]).
  exact (Hblocks (java_endpoints_spec self) H2 class_node method_node [] []
                 handler_name_node H3 H4 H5 H6).
Defined.

Example two_candidates_paths_and_verbs :
  let self := analyzer_on JavaAnalyzer "java" java_ab_src in
  map (fun e => (handler_name e, http_method e, path e, line_number e))
      (java_endpoints_spec self)
  = [("f", "GET", "/api/a", 3); ("f", "GET", "/api/b", 3)].
Proof. vm_compute. reflexivity. Qed.

(** A method of a nested class is found in the body of its class and in
    the body of the class around it: the method of [java_nested_src] has one
    path candidate and comes in two blocks of one endpoint. *)
Example nested_method_is_found_in_two_class_bodies :
  let self := analyzer_of_tree JavaAnalyzer "java" java_nested_src java_nested_tree in
  let method_node := the_node "method_declaration" (root_node self) in
  let entries := annotations_on self method_node in
  map snd (captured_methods_spec self) = [method_node; method_node]
  /\ path_candidates_spec (verb_spec (map fst entries)) entries = ["/a"]
  /\ fst (java_analyze self ∅) = Returns (java_endpoints_spec self)
  /\ map path (java_endpoints_spec self) = ["/a"; "/a"].
Proof. repeat split; vm_compute; reflexivity. Qed.

(** *** C5 *)

(** C5.  The claim fails on a class nested in another one.  In
    [java_nested_src] the method [f] carries [@RolesAllowed]; the class that
    encloses it, [Inner], carries [@Secured], and lies in the class [Outer],
    which carries [@PreAuthorize].  The method query finds [f] in the body of
    [Outer] as well as in the body of [Inner], so the analyzer returns two
    endpoints for [f], whatever the order in which the process lists a set:
    the first holds "PreAuthorize" and "RolesAllowed", the names found on
    [Outer] and on [f], and not "Secured", the name found on the enclosing
    class; the second holds "Secured" and "RolesAllowed". *)
Theorem nested_class_endpoint_has_the_outer_class_auth (process : SetOrder) :
  let self := analyzer_of_tree JavaAnalyzer "java" java_nested_src java_nested_tree in
  let method_node := the_node "method_declaration" (root_node self) in
  let enclosing_class :=
    default method_node
            (walk_up (fun n => PyStr.eqb (ntype n) "class_declaration") method_node) in
  _get_text self (the_field "name" enclosing_class) = "Inner"
  /\ auth_annotations_spec self enclosing_class = ["Secured"]
  /\ auth_annotations_spec self method_node = ["RolesAllowed"]
  /\ exists e1 e2,
       fst (@java_analyze _ process _ self ∅) = Returns [e1; e2]
       /\ (handler_name e1, line_number e1, snippet e1)
          = ("f", 5, _get_text self method_node)
       /\ (handler_name e2, line_number e2, snippet e2)
          = ("f", 5, _get_text self method_node)
       /\ (forall x, In x (auth_mechanisms e1) <-> x = "PreAuthorize" \/ x = "RolesAllowed")
       /\ ~ In "Secured" (auth_mechanisms e1)
       /\ (forall x, In x (auth_mechanisms e2) <-> x = "Secured" \/ x = "RolesAllowed").
Proof.
  intros self method_node enclosing_class.
  repeat (split; [vm_compute; reflexivity|]).
  eexists. eexists. split; [vm_compute; reflexivity|].
  split; [vm_compute; reflexivity|]. split; [vm_compute; reflexivity|].
  cbn [auth_mechanisms].
  assert (Hfirst : forall x,
            In x (@list_of_set process
                    (@list_of_set process ["PreAuthorize"]
                     ++ @list_of_set process ["RolesAllowed"]))
            <-> x = "PreAuthorize" \/ x = "RolesAllowed").
  { intros x. rewrite list_of_set_In, in_app_iff, !list_of_set_In. cbn [In].
    intuition congruence. }
  split; [exact Hfirst|]. split.
  - intros Hin. apply Hfirst in Hin. destruct Hin; discriminate.
  - intros x.
    change (In x (@list_of_set process
                    (@list_of_set process ["Secured"]
                     ++ @list_of_set process ["RolesAllowed"]))
            <-> x = "Secured" \/ x = "RolesAllowed").
    rewrite list_of_set_In, in_app_iff, !list_of_set_In. cbn [In].
    intuition congruence.
Qed.

(** *** C7 *)

(** The claim fails between two processes that list a set in different
    orders: the endpoint of the authorization example comes with its two
    names in one order or in the other. *)
Lemma set_order_shows_in_the_endpoints :
  let run1 := fst (@analyze_source _ elements_order _ "java" java_auth_src ∅) in
  let run2 := fst (@analyze_source _ reversed_order _ "java" java_auth_src ∅) in
  let names (r : result (option (list APIEndpoint))) :=
    match r with
    | Returns (Some endpoints) => Some (map auth_mechanisms endpoints)
    | _ => None
    end in
  names run1 = Some [["RolesAllowed"; "PreAuthorize"]]
  /\ names run2 = Some [["PreAuthorize"; "RolesAllowed"]]
  /\ run1 <> run2.
Proof.
  intros run1 run2 names.
  assert (H1 : names run1 = Some [["RolesAllowed"; "PreAuthorize"]])
    by (vm_compute; reflexivity).
  assert (H2 : names run2 = Some [["PreAuthorize"; "RolesAllowed"]])
    by (vm_compute; reflexivity).
  split; [exact H1|]. split; [exact H2|].
  intros Heq. rewrite Heq, H2 in H1. discriminate H1.
Qed.

(** The authorization example in two processes, the second with the Java
    grammar in its cache already. *)
Lemma java_example_in_two_processes :
  let run1 := @analyze_source _ elements_order _ "java" java_auth_src in
  let run2 := @analyze_source _ reversed_order _ "java" java_auth_src in
  cache_ok ∅
  /\ cache_ok (<["java" := "java"]> ∅)
  /\ fst (run1 ∅) = fst (run1 (<["java" := "java"]> ∅))
  /\ fst (run1 ∅) = fst (run1 (snd (run1 ∅)))
  /\ cache_ok (snd (run1 ∅))
  /\ same_outcome same_endpoints (fst (run1 ∅)) (fst (run2 (<["java" := "java"]> ∅)))
  /\ ("java" <> "java" -> fst (run1 ∅) = fst (run2 (<["java" := "java"]> ∅))).
Proof.
  intros run1 run2.
  assert (H0 : cache_ok ∅) by apply cache_ok_empty.
  assert (H1 : cache_ok (<["java" := "java"]> ∅))
    by apply (cache_ok_insert ∅ "java" H0).
  split; [exact H0|]. split; [exact H1|].
  exact (analysis_is_deterministic_up_to_set_order
           elements_order reversed_order "java" java_auth_src
           ∅ (<["java" := "java"]> ∅) H0 H1).
Defined.

(** A JavaScript file in two processes: the same endpoints. *)
Example javascript_example_in_two_processes :
  fst (@analyze_source _ elements_order _ "javascript" js_users_src ∅)
  = fst (@analyze_source _ reversed_order _ "javascript" js_users_src ∅).
Proof. vm_compute. reflexivity. Qed.

(** *** The further properties of the Java analyzer *)

Lemma auth_example_union_of_class_and_method :
  let self := analyzer_on JavaAnalyzer "java" java_auth_src in
  let eps := endpoints_of "java" java_auth_src in
  cache_ok ∅
  /\ fst (java_analyze self ∅) = Returns eps
  /\ length eps = 1
  /\ eps = flat_map (fun pair => method_endpoints_spec self (fst pair) (snd pair))
                    (captured_methods_spec self)
  /\ (forall e, In e eps ->
        exists class_node method_node,
          In class_node (class_declarations_spec self)
          /\ In method_node (methods_in self class_node)
          /\ In e (method_endpoints_spec self class_node method_node))
  /\ forall class_node method_node e,
       In e (method_endpoints_spec self class_node method_node) ->
       (exists handler_name_node,
          child_by_field_name "name" method_node = Some handler_name_node
          /\ handler_name e = _get_text self handler_name_node)
       /\ line_number e = start_row method_node + 1
       /\ snippet e = _get_text self method_node
       /\ NoDup (auth_mechanisms e)
       /\ forall x,
            In x (auth_mechanisms e)
            <-> In x auth_vocabulary_spec
                /\ (In x (annotation_names_on self class_node)
                    \/ In x (annotation_names_on self method_node)).
Proof.
  intros self eps.
  assert (H0 : cache_ok ∅) by apply cache_ok_empty.
  assert (H1 : fst (java_analyze self ∅) = Returns eps) by (vm_compute; reflexivity).
  assert (H2 : length eps = 1) by (vm_compute; reflexivity).
  repeat (split; [assumption|]).
  exact (endpoint_auth_is_the_union_of_class_and_method self ∅ eps H0 H1).
Defined.

(** The annotation names of the authorization example: the class carries
    [@PreAuthorize] and [@RequestMapping], the method [@RolesAllowed] and
    [@GetMapping]; the vocabulary keeps one name of each. *)
Example auth_example_annotation_names :
  let self := analyzer_on JavaAnalyzer "java" java_auth_src in
  let class_node := the_node "class_declaration" (root_node self) in
  let method_node := the_node "method_declaration" (root_node self) in
  annotation_names_on self class_node = ["PreAuthorize"; "RequestMapping"]
  /\ annotation_names_on self method_node = ["RolesAllowed"; "GetMapping"]
  /\ captured_methods_spec self = [(class_node, method_node)]
  /\ map auth_mechanisms (method_endpoints_spec self class_node method_node)
     = [["RolesAllowed"; "PreAuthorize"]].
Proof. repeat split; vm_compute; reflexivity. Qed.

(** The source in Latin-1: the literal of the method is not readable, and
    the analyzer raises. *)
Lemma latin1_literal_is_not_readable :
  let self := analyzer_on JavaAnalyzer "java" java_latin1_src in
  cache_ok ∅
  /\ forallb readable (literal_sources self) = false
  /\ ((exists eps, fst (java_analyze self ∅) = Returns eps)
      <-> forallb readable (literal_sources self) = true)
  /\ (forallb readable (literal_sources self) = false ->
      fst (java_analyze self ∅) = Raises UnicodeDecodeError
      \/ fst (java_analyze self ∅) = Raises RecursionError).
Proof.
  intros self.
  assert (H0 : cache_ok ∅) by apply cache_ok_empty.
  assert (H1 : forallb readable (literal_sources self) = false)
    by (vm_compute; reflexivity).
  repeat (split; [assumption|]).
  exact (java_analyzer_returns_iff_literals_are_readable self ∅ H0).
Defined.

End FurtherExamples.

(** The formatters on small inputs. *)
Example parameters_cells :
  let params := [mkParam "id" PATH "Any" true; mkParam "q" QUERY "str" false;
                 mkParam "page" QUERY "int" false] in
  _format_parameters_csv params = "Path: id Query: q, page"
  /\ _format_parameters_md params = "<b>Path:</b> id<br><b>Query:</b> q, page"
  /\ _format_parameters_json params
     = [("path", Some "id"); ("query", Some "q, page"); ("body", None);
        ("header", None); ("cookie", None)].
Proof. repeat split; vm_compute; reflexivity. Qed.

Example clean_for_csv_example :
  _clean_for_csv ("a|b" +:+ PyStr.newline +:+ "c") = "ab c".
Proof. vm_compute. reflexivity. Qed.
